(** * A model of [deeplearning/mcfly_datagenerator.py]

    The file embeds the Keras batch generator [DataGenerator] of the
    sleep-stage classifier: epoch length, index selection (windowed and
    class-balanced), loading, augmentation, normalisation and [fit].

    Conventions of the embedding.
    - Python exceptions are values of [exn]; a call that can raise returns a
      [result].
    - The global generators of [random] and [numpy.random] are an explicit
      state of an abstract [RandomSource]; every drawing function returns the
      next state.
    - Configuration scalars that Python holds in a [float] ([aug_factor]) are
      exact rationals: the embedding follows the arithmetic the code writes
      down and leaves binary rounding out.
    - Array entries live in an abstract [Scalar] type with the operations the
      code applies to them, so that statements about batches hold for any
      reading of these operations.
    - [np.empty] returns a buffer whose contents are arbitrary: they are read
      from the [uninit] fields of the environment.
    - [np.load] and the transforms of the module [transforms] are not part of
      the file: they are fields of the environment, the transforms as
      functions of their argument.
    - The functions of NumPy, [random] and Keras the code calls
      ([np.random.choice], [random.shuffle], [random.choice],
      [keras.utils.to_categorical], slicing, boolean masks) are modelled from
      their documented behaviour, with the exceptions they raise. *)

From Stdlib Require Import ZArith QArith Qround Lia Lqa.
From stdpp Require Import base list strings.

Local Close Scope Q_scope.
Local Open Scope nat_scope.

(** ** Exceptions and fallible computations *)

Inductive exn : Type :=
| AssertionError
| ValueError
| IndexError
| ZeroDivisionError
| TypeError
| IOError.

Inductive result (A : Type) : Type :=
| Ok (a : A)
| Raise (e : exn).

Arguments Ok {A} a.
Arguments Raise {A} e.

#[global] Instance result_ret : MRet result := fun _ a => Ok a.
#[global] Instance result_bind : MBind result := fun _ _ f m =>
  match m with
  | Ok a => f a
  | Raise e => Raise e
  end.

(** A computation that never fails with the assertion of line 49. *)
Definition never_asserts {A} (r : result A) : Prop := r <> Raise AssertionError.

(** [l[i]] for a non-negative [i]: [IndexError] out of range. *)
Definition getitem {A} (l : list A) (i : nat) : result A :=
  match l !! i with
  | Some a => Ok a
  | None => Raise IndexError
  end.

(** ** Rational arithmetic of the configuration scalars *)

Definition Qlt_bool (x y : Q) : bool := negb (Qle_bool y x).

Definition Q_of_nat (n : nat) : Q := inject_Z (Z.of_nat n).

(** Python's [int(x // y)] on floats: the floor of the quotient. *)
Definition floordiv (x y : Q) : result Z :=
  if Qeq_bool y 0 then Raise ZeroDivisionError else Ok (Qfloor (x / y)).

(** Python's [x / y] on floats. *)
Definition truediv (x y : Q) : result Q :=
  if Qeq_bool y 0 then Raise ZeroDivisionError else Ok (x / y)%Q.

(** ** Arrays *)

(** The operations the source applies to array entries ([float64] in NumPy):
    [+=], [-], [**2], [/] and the conversion of the sample count. *)
Class Scalar (F : Type) : Type := {
  f_add : F -> F -> F;
  f_sub : F -> F -> F;
  f_mul : F -> F -> F;
  f_div : F -> F -> F;
  f_of_nat : nat -> F
}.

(** A sample: [seqlen] rows of [n_channels] entries. *)
Abbreviation array2 F := (list (list F)) (only parsing).

(** A batch of samples, shape [(n, seqlen, n_channels)]. *)
Abbreviation array3 F := (list (list (list F))) (only parsing).

Definition has_shape {F} (r c : nat) (a : array2 F) : bool :=
  (length a =? r) && forallb (fun row => length row =? c) a.

(** [l[i] = v]: [IndexError] out of range. *)
Definition setitem {A} (l : list A) (i : nat) (v : A) : result (list A) :=
  if decide (i < length l) then Ok (<[i:=v]> l) else Raise IndexError.

(** [X[i,] = a] on a buffer of samples of shape [(r, c)]: the row must exist
    and the value must have the shape of a row. (NumPy also accepts a value
    with an axis of length one and repeats it; the loader and the transforms
    are specified to return the full shape, and the model raises for every
    other one.) *)
Definition set_row {F} (r c : nat) (X : array3 F) (i : nat) (a : array2 F)
  : result (array3 F) :=
  if decide (i < length X) then
    if has_shape r c a then Ok (<[i:=a]> X) else Raise ValueError
  else Raise IndexError.

(** [X[N:,] = a]: the value must have the shape of the tail. *)
Definition set_tail {F} (r c : nat) (X : array3 F) (N : nat) (a : array3 F)
  : result (array3 F) :=
  if (length a =? length X - N) && forallb (has_shape r c) a
  then Ok (take N X ++ a)
  else Raise ValueError.

(** An entrywise operation on two arrays of one shape. *)
Definition map2_2d {F} (op : F -> F -> F) (a b : array2 F) : array2 F :=
  zip_with (zip_with op) a b.

Definition np_arange (n : nat) : list nat := seq 0 n.

(** [a[mask]] for a boolean mask: the mask must be as long as the array. *)
Definition mask_select {A} (a : list A) (mask : list bool) : result (list A) :=
  if length mask =? length a
  then Ok (omap (fun p : A * bool => if p.2 then Some p.1 else None) (zip a mask))
  else Raise IndexError.

(** [keras.utils.to_categorical(y, num_classes)]: a zero matrix with
    [num_classes] columns (one more than the largest label when [num_classes]
    is 0) in which row [i] has a one at column [y[i]]; as NumPy indexes, a
    negative label counts from the last column and a label outside
    [-num_classes .. num_classes - 1] raises [IndexError]. *)
Definition one_hot (ncols : nat) (l : Z) : result (list Z) :=
  let n := Z.of_nat ncols in
  if ((- n <=? l) && (l <? n))%Z
  then Ok (<[Z.to_nat (l mod n) := 1%Z]> (replicate ncols 0%Z))
  else Raise IndexError.

(** The one-hot row of a label within [0 .. ncols-1]. *)
Definition one_hot_row (ncols : nat) (l : Z) : list Z :=
  <[Z.to_nat l := 1%Z]> (replicate ncols 0%Z).

Definition to_categorical (y : list Z) (num_classes : nat) : result (list (list Z)) :=
  ncols ← (match num_classes with
           | S _ => Ok num_classes
           | O => match y with
                  | [] => Raise ValueError
                  | l :: ls =>
                      let m := (foldr Z.max l ls + 1)%Z in
                      if (m <? 0)%Z then Raise ValueError else Ok (Z.to_nat m)
                  end
           end);
  mapM (one_hot ncols) y.

(** A label that is one of the positional class numbers [0 .. k-1]. *)
Definition positional (k : nat) (o : option Z) : Prop :=
  match o with
  | Some v => (0 <= v < Z.of_nat k)%Z
  | None => False
  end.

#[global] Instance positional_dec k o : Decision (positional k o).
Proof. destruct o; cbn; apply _. Defined.

(** ** The random source *)

(** The generators of [random] and [numpy.random], as one state. Both modules
    are used through two primitives: a uniformly drawn permutation of
    [0 .. n-1] and a uniformly drawn number below [n]. Only their ranges are
    part of the interface. *)
Class RandomSource : Type := {
  rng : Type;
  permutation : rng -> nat -> list nat * rng;
  randbelow : rng -> nat -> nat * rng;
  permutation_perm : forall g n, (permutation g n).1 ≡ₚ seq 0 n;
  randbelow_lt : forall g n, 0 < n -> (randbelow g n).1 < n
}.

Section Random.
Context {RS : RandomSource}.

(** [l] reordered by a permutation of its positions. *)
Definition reorder {A} (l : list A) (p : list nat) : list A :=
  omap (fun i => l !! i) p.

(** [np.random.shuffle(l)] and [random.shuffle(l)]. *)
Definition random_shuffle {A} (g : rng) (l : list A) : list A * rng :=
  let '(p, g') := permutation g (length l) in (reorder l p, g').

(** [np.random.choice(a, size, replace=False)]: the first [size] entries of a
    shuffled copy of [a]; [ValueError] when [size] is negative or exceeds the
    population (an empty draw from an empty population succeeds, as in NumPy
    from 1.16 on). *)
Definition np_random_choice {A} (g : rng) (a : list A) (size : Z)
  : result (list A * rng) :=
  if (size <? 0)%Z then Raise ValueError
  else if (Z.of_nat (length a) <? size)%Z then Raise ValueError
  else let '(p, g') := permutation g (length a) in
       Ok (take (Z.to_nat size) (reorder a p), g').

(** [random.choice(seq)]: [IndexError] on an empty sequence. *)
Definition random_choice {A} (g : rng) (l : list A) : result (A * rng) :=
  match l with
  | [] => Raise IndexError
  | _ => let '(i, g') := randbelow g (length l) in
         x ← getitem l i; Ok (x, g')
  end.

End Random.

(** ** The environment of the generator *)

(** What the module imports and does not define: the loader [np.load]
    ([None] when the file cannot be read as an array), the four transforms of
    [transforms], and the contents of freshly allocated [np.empty] buffers
    ([uninit site k] is entry [k] of the buffer allocated at allocation site
    [site]). *)
Class Env (F : Type) : Type := {
  np_load : string -> option (array2 F);
  jitter : array3 F -> array3 F;
  time_warp : array3 F -> array3 F;
  rotation : array3 F -> array3 F;
  rand_sampling : array3 F -> array3 F;
  uninit : nat -> nat -> F;
  uninit_int : nat -> Z
}.

Section Generator.
Context {F : Type} {SF : Scalar F} {RS : RandomSource} {EF : Env F}.

Definition np_empty2 (site r c : nat) : array2 F :=
  map (fun j => map (fun k => uninit site (j * c + k)) (seq 0 c)) (seq 0 r).

Definition np_empty3 (site n r c : nat) : array3 F :=
  map (fun i => map (fun j => map (fun k => uninit site ((i * r + j) * c + k))
                                  (seq 0 c))
                    (seq 0 r))
      (seq 0 n).

Definition np_empty_int (n : nat) : list Z := map uninit_int (seq 0 n).

(** [np.load(fname)]: a failure of the loader surfaces as [IOError]. *)
Definition load (fname : string) : result (array2 F) :=
  match np_load fname with
  | Some a => Ok a
  | None => Raise IOError
  end.

(** The attributes of a [DataGenerator] object. Sizes and counts are
    natural numbers; [labels] is a NumPy array of integers (line 58 compares
    it entrywise with a class number); [aug_func] holds the four transforms,
    taken as functions of their argument. *)
Record DataGenerator : Type := {
  partition : option string;
  seqlen : nat;
  batch_size : nat;
  labels : list Z;
  classes : list Z;
  filenames : list string;
  n_channels : nat;
  n_classes : nat;
  shuffle : bool;
  augment : bool;
  aug_factor : Q;
  aug_func : list (array3 F -> array3 F);
  balance : bool;
  mean : option (array2 F);
  std : option (array2 F);
  indices : list nat
}.

Definition set_indices (self : DataGenerator) (ix : list nat) : DataGenerator :=
  {| partition := partition self; seqlen := seqlen self;
     batch_size := batch_size self; labels := labels self;
     classes := classes self; filenames := filenames self;
     n_channels := n_channels self; n_classes := n_classes self;
     shuffle := shuffle self; augment := augment self;
     aug_factor := aug_factor self; aug_func := aug_func self;
     balance := balance self; mean := mean self; std := std self;
     indices := ix |}.

Definition set_mean_std (self : DataGenerator) (m s : option (array2 F))
  : DataGenerator :=
  {| partition := partition self; seqlen := seqlen self;
     batch_size := batch_size self; labels := labels self;
     classes := classes self; filenames := filenames self;
     n_channels := n_channels self; n_classes := n_classes self;
     shuffle := shuffle self; augment := augment self;
     aug_factor := aug_factor self; aug_func := aug_func self;
     balance := balance self; mean := m; std := s;
     indices := indices self |}.

Definition set_classes (self : DataGenerator) (cs : list Z) : DataGenerator :=
  {| partition := partition self; seqlen := seqlen self;
     batch_size := batch_size self; labels := labels self;
     classes := cs; filenames := filenames self;
     n_channels := n_channels self; n_classes := n_classes self;
     shuffle := shuffle self; augment := augment self;
     aug_factor := aug_factor self; aug_func := aug_func self;
     balance := balance self; mean := mean self; std := std self;
     indices := indices self |}.

Definition set_shuffle (self : DataGenerator) (b : bool) : DataGenerator :=
  {| partition := partition self; seqlen := seqlen self;
     batch_size := batch_size self; labels := labels self;
     classes := classes self; filenames := filenames self;
     n_channels := n_channels self; n_classes := n_classes self;
     shuffle := b; augment := augment self;
     aug_factor := aug_factor self; aug_func := aug_func self;
     balance := balance self; mean := mean self; std := std self;
     indices := indices self |}.

(** [on_epoch_end]: the identity ordering, shuffled when [shuffle] is set. *)
Definition on_epoch_end (self : DataGenerator) (g : rng) : DataGenerator * rng :=
  let ix := np_arange (length (filenames self)) in
  if shuffle self
  then let '(ix', g') := random_shuffle g ix in (set_indices self ix', g')
  else (set_indices self ix, g).

(** [__init__], with the defaults of the signature left to the caller. *)
Definition __init__ (filenames : list string) (labels classes : list Z)
    (partition : option string) (batch_size seqlen n_channels n_classes : nat)
    (mean std : option (array2 F)) (shuffle augment : bool) (aug_factor : Q)
    (balance : bool) (g : rng) : DataGenerator * rng :=
  on_epoch_end
    {| partition := partition; seqlen := seqlen; batch_size := batch_size;
       labels := labels; classes := classes; filenames := filenames;
       n_channels := n_channels; n_classes := n_classes; shuffle := shuffle;
       augment := augment; aug_factor := aug_factor;
       aug_func := [jitter; time_warp; rotation; rand_sampling];
       balance := balance; mean := mean; std := std; indices := [] |} g.

(** The number of samples an epoch has to cover,
    [len(self.filenames) * (1.0 + self.aug_factor)]. *)
Definition epoch_samples (self : DataGenerator) : Q :=
  (Q_of_nat (length (filenames self)) * (1 + aug_factor self))%Q.

(** [__len__]: the number of batches per epoch. *)
Definition __len__ (self : DataGenerator) : result Z :=
  let total := epoch_samples self in
  nbatches ← floordiv total (Q_of_nat (batch_size self));
  if Qlt_bool (inject_Z (nbatches * Z.of_nat (batch_size self))) total
  then Ok (nbatches + 1)%Z
  else Ok nbatches.

(** What one iteration of the loading loops reads for the index [idx]: the
    array of the file [filenames[idx]], of the shape of a row, and the label
    [labels[idx]]. *)
Definition sample_of (self : DataGenerator) (idx : nat) : result (array2 F) :=
  fname ← getitem (filenames self) idx;
  a ← load fname;
  if has_shape (seqlen self) (n_channels self) a then Ok a else Raise ValueError.

Definition label_of (self : DataGenerator) (idx : nat) : result Z :=
  getitem (labels self) idx.

(** The loop of lines 76-78: row [i] of the batch receives the sample and
    the label of the [i]-th selected index. *)
Fixpoint load_loop (self : DataGenerator) (X : array3 F) (y : list Z)
    (i : nat) (ixs : list nat) : result (array3 F * list Z) :=
  match ixs with
  | [] => Ok (X, y)
  | idx :: rest =>
      fname ← getitem (filenames self) idx;
      a ← load fname;
      X' ← set_row (seqlen self) (n_channels self) X i a;
      l ← getitem (labels self) idx;
      y' ← setitem y i l;
      load_loop self X' y' (S i) rest
  end.

(** The loop of lines 87-89 over the augmentation sources. *)
Fixpoint aug_loop (self : DataGenerator) (N : nat) (aug_x : array3 F)
    (y : list Z) (i : nat) (aug_indices : list nat)
  : result (array3 F * list Z) :=
  match aug_indices with
  | [] => Ok (aug_x, y)
  | idx :: rest =>
      l ← getitem (labels self) idx;
      y' ← setitem y (N + i) l;
      fname ← getitem (filenames self) idx;
      a ← load fname;
      aug_x' ← set_row (seqlen self) (n_channels self) aug_x i a;
      aug_loop self N aug_x' y' (S i) rest
  end.

(** [X op stat], the statistic broadcast over the batch dimension. *)
Definition broadcast_op (self : DataGenerator) (op : F -> F -> F)
    (X : array3 F) (stat : array2 F) : result (array3 F) :=
  if has_shape (seqlen self) (n_channels self) stat
  then Ok (map (fun x => map2_2d op x stat) X)
  else Raise ValueError.

(** Lines 100-102. *)
Definition normalize (self : DataGenerator) (X : array3 F) : result (array3 F) :=
  match mean self, std self with
  | Some m, Some s =>
      D ← broadcast_op self f_sub X m;
      broadcast_op self f_div D s
  | _, _ => Ok X
  end.

(** The entrywise normalisation of one sample. *)
Definition normalized (m s x : array2 F) : array2 F :=
  map2_2d f_div (map2_2d f_sub x m) s.

(** Lines 93-94: a second transform when the toss is 1. *)
Definition second_transform (self : DataGenerator) (g : rng) (toss : nat)
    (aug_x : array3 F) : result (array3 F * rng) :=
  if toss =? 1
  then '(t, g) ← random_choice g (aug_func self); Ok (t aug_x, g)
  else Ok (aug_x, g).

(** Lines 82-98: the augmentation tail, or the truncation of the buffers. *)
Definition augment_or_resize (self : DataGenerator) (g : rng)
    (ixs : list nat) (X : array3 F) (y : list Z)
  : result (array3 F * list Z * rng) :=
  let N := length ixs in
  if augment self then
    let n_aug := (Z.of_nat (batch_size self) - Z.of_nat N)%Z in
    '(aug_indices, g) ← np_random_choice g ixs n_aug;
    let aug_x := np_empty3 1 (Z.to_nat n_aug) (seqlen self) (n_channels self) in
    '(aug_x, y) ← aug_loop self N aug_x y 0 aug_indices;
    '(t, g) ← random_choice g (aug_func self);
    let aug_x := t aug_x in
    '(toss, g) ← random_choice g [0; 1];
    '(aug_x, g) ← second_transform self g toss aug_x;
    X ← set_tail (seqlen self) (n_channels self) X N aug_x;
    Ok (X, y, g)
  else Ok (take N X, take N y, g).

(** [__data_generation]. *)
Definition __data_generation (self : DataGenerator) (g : rng) (ixs : list nat)
  : result (array3 F * list (list Z) * rng) :=
  let X := np_empty3 0 (batch_size self) (seqlen self) (n_channels self) in
  let y := np_empty_int (batch_size self) in
  '(X, y) ← load_loop self X y 0 ixs;
  '(X, y, g) ← augment_or_resize self g ixs X y;
  X ← normalize self X;
  Y ← to_categorical y (n_classes self);
  Ok (X, Y, g).

(** [l[st:end]] for non-negative bounds. *)
Definition slice {A} (l : list A) (st en : nat) : list A := drop st (take en l).

(** Lines 40-45: the window of the epoch permutation. *)
Definition window_indices (self : DataGenerator) (index : nat) : list nat :=
  let st_idx := index * batch_size self in
  let end_idx :=
    if (Z.of_nat ((index + 1) * batch_size self)
          <=? Z.of_nat (length (filenames self)) - 1)%Z
    then (index + 1) * batch_size self
    else length (filenames self) in
  slice (indices self) st_idx end_idx.

(** Lines 48-53: the number of indices drawn from each class. *)
Definition class_size (self : DataGenerator) : result Z :=
  _ ← (if augment self
       then if Qlt_bool 0 (aug_factor self) then Ok () else Raise AssertionError
       else Ok ());
  let aug_factor := (1 + aug_factor self)%Q in
  q ← truediv (Q_of_nat (batch_size self)) aug_factor;
  cls_sz ← floordiv q (Q_of_nat (n_classes self));
  if Qlt_bool (inject_Z cls_sz * aug_factor * Q_of_nat (n_classes self))
              (Q_of_nat (batch_size self))
  then Ok (cls_sz + 1)%Z
  else Ok cls_sz.

(** Line 58: the index pool of the positional class number [cls]. *)
Definition class_pool (self : DataGenerator) (cls : nat) : result (list nat) :=
  mask_select (np_arange (length (filenames self)))
              (map (fun l => (l =? Z.of_nat cls)%Z) (labels self)).

(** The indices of the samples labelled with the number [cls], in
    increasing order. *)
Definition indices_labelled (self : DataGenerator) (cls : nat) : list nat :=
  filter (fun i => labels self !! i = Some (Z.of_nat cls))
         (seq 0 (length (filenames self))).

(** Two objects that differ at most in the values of [classes] (not in their
    number), in [shuffle], in the epoch permutation [indices] and in the
    normalisation statistics. *)
Definition same_sources (self other : DataGenerator) : Prop :=
  partition self = partition other /\ seqlen self = seqlen other /\
  batch_size self = batch_size other /\ labels self = labels other /\
  length (classes self) = length (classes other) /\
  filenames self = filenames other /\ n_channels self = n_channels other /\
  n_classes self = n_classes other /\ augment self = augment other /\
  aug_factor self = aug_factor other /\ aug_func self = aug_func other /\
  balance self = balance other.

(** The same, with equal normalisation statistics. *)
Definition same_up_to_epoch (self other : DataGenerator) : Prop :=
  same_sources self other /\
  mean self = mean other /\ std self = std other.

(** Entry [(j, k)] of a sample. *)
Definition entry {A} (a : list (list A)) (j k : nat) : option A :=
  row ← a !! j; row !! k.

(** Entry [(j, k)] of sample [b] of a batch. *)
Definition entry3 {A} (X : list (list (list A))) (b j k : nat) : option A :=
  x ← X !! b; entry x j k.

(** The pools the loop of lines 57-59 visits, in its order. *)
Definition class_pools (self : DataGenerator) : result (list (list nat)) :=
  mapM (class_pool self) (seq 0 (length (classes self))).

(** One draw of the loop of lines 57-59: [cls_sz] indices of the pool of
    [cls], none of them twice. *)
Definition class_draw (self : DataGenerator) (cls_sz : Z) (cls : nat)
    (pick : list nat) : Prop :=
  exists pool,
    class_pool self cls = Ok pool /\
    (0 <= cls_sz)%Z /\
    length pick = Z.to_nat cls_sz /\
    pick ⊆+ pool.

(** The labels a batch has when every class contributes [n] samples. *)
Definition balanced_labels (n k : nat) : list Z :=
  concat ((fun cls : nat => replicate n (Z.of_nat cls)) <$> seq 0 k).

(** Lines 57-59: one draw per positional class number. *)
Fixpoint balanced_loop (self : DataGenerator) (cls_sz : Z) (g : rng)
    (ixs : list nat) (clss : list nat) : result (list nat * rng) :=
  match clss with
  | [] => Ok (ixs, g)
  | cls :: rest =>
      cls_idx ← class_pool self cls;
      '(picks, g) ← np_random_choice g cls_idx cls_sz;
      balanced_loop self cls_sz g (ixs ++ picks) rest
  end.

(** Lines 46-62: the class-balanced selection. *)
Definition balanced_indices (self : DataGenerator) (g : rng)
  : result (list nat * rng) :=
  cls_sz ← class_size self;
  '(ixs, g) ← balanced_loop self cls_sz g [] (seq 0 (length (classes self)));
  let '(ixs, g) := random_shuffle g ixs in
  Ok (take (batch_size self) ixs, g).

(** Lines 38-62: the indices of the batch. *)
Definition select_indices (self : DataGenerator) (g : rng) (index : nat)
  : result (list nat * rng) :=
  if negb (balance self)
  then Ok (window_indices self index, g)
  else balanced_indices self g.

(** [__getitem__]: the batch of the given index, its one-hot labels and the
    next state of the random source. *)
Definition __getitem__ (self : DataGenerator) (g : rng) (index : nat)
  : result (array3 F * list (list Z) * rng) :=
  '(ixs, g) ← select_indices self g index;
  __data_generation self g ixs.

(** A batch with its normalisation left out: what [__getitem__] returns when
    the statistics are unset. *)
Definition raw_getitem (self : DataGenerator) (g : rng) (index : nat)
  : result (list (list (list F)) * list (list Z) * rng) :=
  __getitem__ (set_mean_std self None None) g index.

(** A sample of the dataset, as the batches hold it. *)
Definition sample_at (self : DataGenerator) (idx : nat) : list (list F) :=
  match sample_of self idx with
  | Ok a => a
  | Raise _ => []
  end.

(** The normalisation of one sample, when the statistics are set. *)
Definition normalized_sample (self : DataGenerator) (x : list (list F)) : list (list F) :=
  match mean self, std self with
  | Some m, Some s => normalized m s x
  | _, _ => x
  end.

(** Every file of the dataset loads to an array of the configured shape. *)
Definition loader_ok (self : DataGenerator) : bool :=
  forallb (fun fname =>
             match np_load fname with
             | Some a => has_shape (seqlen self) (n_channels self) a
             | None => false
             end)
          (filenames self).

(** The label of a sample, for an index within the dataset. *)
Definition label_at (self : DataGenerator) (idx : nat) : Z :=
  default 0%Z (labels self !! idx).

(** The statistics, when both are set, have the shape of a sample. *)
Definition stats_ok (self : DataGenerator) : bool :=
  match mean self, std self with
  | Some m, Some s =>
      has_shape (seqlen self) (n_channels self) m
      && has_shape (seqlen self) (n_channels self) s
  | _, _ => true
  end.

(** The contract of the transforms: there is one to choose, and each maps a
    batch of samples of the configured shape to as many samples of that
    shape. *)
Definition transforms_ok (self : DataGenerator) : Prop :=
  aug_func self <> [] /\
  forall t X,
    t ∈ aug_func self ->
    forallb (has_shape (seqlen self) (n_channels self)) X = true ->
    length (t X) = length X /\
    forallb (has_shape (seqlen self) (n_channels self)) (t X) = true.

(** The dataset is well formed for the windowed mode: every file loads with
    the configured shape, there is a label for every file and every label is
    a column of the one-hot encoding. *)
Definition dataset_ok (self : DataGenerator) : Prop :=
  loader_ok self = true /\
  stats_ok self = true /\
  length (labels self) = length (filenames self) /\
  Forall (fun l => (0 <= l < Z.of_nat (n_classes self))%Z) (labels self).




(** The consumer protocol: [__getitem__] for each index of a list in turn,
    on one random source. *)
Fixpoint get_batches (self : DataGenerator) (g : rng) (ixs : list nat)
  : result (list (array3 F * list (list Z)) * rng) :=
  match ixs with
  | [] => Ok ([], g)
  | i :: rest =>
      '(X, Y, g) ← __getitem__ self g i;
      '(bs, g) ← get_batches self g rest;
      Ok ((X, Y) :: bs, g)
  end.

(** One epoch: the batches of the indices [0 .. __len__() - 1]. *)
Definition epoch (self : DataGenerator) (g : rng)
  : result (list (array3 F * list (list Z)) * rng) :=
  n ← __len__ self;
  get_batches self g (seq 0 (Z.to_nat n)).




(** ** [fit] *)

(** [acc += x] on a buffer of shape [(seqlen, n_channels)]. *)
Definition iadd (self : DataGenerator) (acc x : array2 F) : result (array2 F) :=
  if has_shape (seqlen self) (n_channels self) x
  then Ok (map2_2d f_add acc x)
  else Raise ValueError.

(** [(x - m)**2], entry by entry. *)
Definition sq_dev (self : DataGenerator) (x m : array2 F) : result (array2 F) :=
  if has_shape (seqlen self) (n_channels self) x
  then Ok (map (map (fun d => f_mul d d)) (map2_2d f_sub x m))
  else Raise ValueError.

(** [a / N] for the sample count [N]. *)
Definition div_count (a : array2 F) (N : nat) : array2 F :=
  map (map (fun v => f_div v (f_of_nat N))) a.

(** [for i in range(N): acc = body(acc, np.load(filenames[i]))]. *)
Fixpoint for_samples (self : DataGenerator)
    (body : array2 F -> array2 F -> result (array2 F))
    (acc : array2 F) (range : list nat) : result (array2 F) :=
  match range with
  | [] => Ok acc
  | i :: rest =>
      fname ← getitem (filenames self) i;
      x ← load fname;
      acc' ← body acc x;
      for_samples self body acc' rest
  end.

(** ['train' in partition]. *)
Definition in_partition (tag : string) (partition : option string) : result bool :=
  match partition with
  | None => Raise TypeError
  | Some p => Ok (match String.index 0 tag p with
                  | Some _ => true
                  | None => false
                  end)
  end.

(** [fit]: returns [(self.mean, self.std)] and the updated object. In the
    second loop [mean] is the local buffer of the first loop, which line 120
    leaves as it is (the quotient goes to [self.mean]). *)
Definition fit (self : DataGenerator)
  : result (DataGenerator * (array2 F * array2 F)) :=
  ok ← in_partition "train" (partition self);
  if negb ok then Raise AssertionError else
  let mean := np_empty2 0 (seqlen self) (n_channels self) in
  let std := np_empty2 1 (seqlen self) (n_channels self) in
  let N := length (filenames self) in
  mean ← for_samples self (fun mean x => iadd self mean x) mean (seq 0 N);
  let self_mean := div_count mean N in
  std ← for_samples self
          (fun std x => d ← sq_dev self x mean; iadd self std d) std (seq 0 N);
  let self_std := div_count std N in
  Ok (set_mean_std self (Some self_mean) (Some self_std), (self_mean, self_std)).

End Generator.

Arguments DataGenerator : clear implicits.

(** ** Concrete instances for evaluation *)

(** Rational array entries, kept in lowest terms. *)
Definition Q_scalar : Scalar Q :=
  {| f_add x y := Qred (x + y);
     f_sub x y := Qred (x - y);
     f_mul x y := Qred (x * y);
     f_div x y := Qred (x / y);
     f_of_nat n := Q_of_nat n |}.

(** A deterministic random source: the state is a counter, the permutation
    of [0 .. n-1] drawn at state [g] is the rotation by [g], the number drawn
    below [n] is [g mod n]. *)
Definition rot_source : RandomSource.
Proof.
  refine {| rng := nat;
            permutation g n :=
              (drop (g mod n) (seq 0 n) ++ take (g mod n) (seq 0 n), S g);
            randbelow g n := (g mod n, S g) |}.
  - intros g n. cbn. rewrite Permutation_app_comm. by rewrite take_drop.
  - intros g n Hn. cbn. apply Nat.mod_upper_bound. lia.
Defined.

(** An environment in which every file named in [files] loads to the array
    next to its name, the transforms are [id], [reverse], [id] and [id], and
    fresh buffers hold zeros. *)
Definition table_env (files : list (string * array2 Q)) : Env Q :=
  {| np_load fname :=
       p ← list_find (fun p => String.eqb p.1 fname) files; Some p.2.2;
     jitter X := X;
     time_warp X := reverse X;
     rotation X := X;
     rand_sampling X := X;
     uninit _ _ := 0%Q;
     uninit_int _ := 0%Z |}.

(** ** Concrete datasets *)

(** A sample with the same value everywhere. *)
Definition const_sample (r c : nat) (v : Q) : list (list Q) :=
  replicate r (replicate c v).

(** Files [names] holding the constant samples 0, 1, 2, ... of shape
    [(r, c)]. *)
Definition numbered_files (r c : nat) (names : list string)
  : list (string * list (list Q)) :=
  imap (fun i name => (name, const_sample r c (Q_of_nat i))) names.

Definition ten_names : list string :=
  ["s0"; "s1"; "s2"; "s3"; "s4"; "s5"; "s6"; "s7"; "s8"; "s9"]%string.

Definition ten_files : list (string * list (list Q)) :=
  numbered_files 5 2 ten_names.

Definition ten_labels : list Z := [0; 0; 0; 0; 0; 1; 1; 1; 1; 1]%Z.

(** The ten-sample scenario of the balanced mode. *)
Definition scenario_generator : DataGenerator Q :=
  (@__init__ Q rot_source (table_env ten_files) ten_names ten_labels
     [0; 1]%Z (Some "train"%string) 4 5 2 2 None None false false 0%Q
     true 0).1.

(** The same dataset, read in windows, with a fifth of each epoch
    synthesised. *)
Definition augmented_generator : DataGenerator Q :=
  (@__init__ Q rot_source (table_env ten_files) ten_names ten_labels
     [0; 1]%Z (Some "train"%string) 4 5 2 2 None None false true (1 # 5)%Q
     false 0).1.

(** The same dataset in balanced mode with augmentation. *)
Definition balanced_augmented_generator (aug_factor : Q) : DataGenerator Q :=
  (@__init__ Q rot_source (table_env ten_files) ten_names ten_labels
     [0; 1]%Z (Some "train"%string) 4 5 2 2 None None false true aug_factor
     true 0).1.

(** The same dataset, read in windows and normalised with mean 1 and
    deviation 2 everywhere. *)
Definition normalized_generator : DataGenerator Q :=
  (@__init__ Q rot_source (table_env ten_files) ten_names ten_labels
     [0; 1]%Z (Some "train"%string) 4 5 2 2
     (Some (const_sample 5 2 1%Q)) (Some (const_sample 5 2 2%Q))
     false false 0%Q false 0).1.

(** Twelve samples of shape [(1, 1)], six of each class, in balanced
    mode. *)
Definition twelve_names : list string :=
  ["a"; "b"; "c"; "d"; "e"; "f"; "g"; "h"; "i"; "j"; "k"; "l"]%string.

Definition twelve_files : list (string * list (list Q)) :=
  numbered_files 1 1 twelve_names.

Definition twelve_generator : DataGenerator Q :=
  (@__init__ Q rot_source (table_env twelve_files) twelve_names
     [0; 0; 0; 0; 0; 0; 1; 1; 1; 1; 1; 1]%Z [0; 1]%Z (Some "train"%string)
     4 1 1 2 None None false false 0%Q true 0).1.

(** Four samples, three of class 0 and one of class 1, in balanced mode with
    batches of four. *)
Definition four_names : list string := ["a"; "b"; "c"; "d"]%string.

Definition four_files : list (string * list (list Q)) :=
  numbered_files 1 1 four_names.

Definition short_class_generator : DataGenerator Q :=
  (@__init__ Q rot_source (table_env four_files) four_names
     [0; 0; 0; 1]%Z [0; 1]%Z (Some "train"%string)
     4 1 1 2 None None false false 0%Q true 0).1.


(** Four files holding the same sample [[1, 2]]. *)
Definition identical_files : list (string * list (list Q)) :=
  (fun name => (name, [[1; 2]]%Q)) <$> four_names.

Definition identical_generator : DataGenerator Q :=
  (@__init__ Q rot_source (table_env identical_files) four_names
     [0; 0; 1; 1]%Z [0; 1]%Z (Some "train"%string)
     2 1 2 2 None None false false 0%Q false 0).1.

(** The ten-sample dataset read in windows of four in a shuffled order. *)
Definition shuffled_generator : DataGenerator Q :=
  (@__init__ Q rot_source (table_env ten_files) ten_names ten_labels
     [0; 1]%Z (Some "train"%string) 4 5 2 2 None None true false 0%Q
     false 3).1.

(** An environment that loads as [table_env] does and whose fresh buffers
    hold what was left in memory, not zeros. *)
Definition stale_env (files : list (string * array2 Q)) : Env Q :=
  {| np_load := @np_load Q (table_env files);
     jitter X := X;
     time_warp X := reverse X;
     rotation X := X;
     rand_sampling X := X;
     uninit site k := Q_of_nat (10 * S site + k);
     uninit_int k := (-1 - Z.of_nat k)%Z |}.

(** Four samples read in windows of two, the second with the label 5 where
    two classes are configured. *)
Definition mislabelled_generator : DataGenerator Q :=
  (@__init__ Q rot_source (table_env four_files) four_names
     [0; 5; 1; 0]%Z [0; 1]%Z (Some "train"%string)
     2 1 1 2 None None false false 0%Q false 0).1.

(** Four file names of which the third is not a file of the environment. *)
Definition unreadable_generator : DataGenerator Q :=
  (@__init__ Q rot_source (table_env four_files) ["a"; "b"; "zz"; "d"]%string
     [0; 0; 1; 1]%Z [0; 1]%Z (Some "train"%string)
     4 1 1 2 None None false false 0%Q false 0).1.

(** The four samples in balanced mode with [n_classes] set to zero. *)
Definition no_class_generator : DataGenerator Q :=
  (@__init__ Q rot_source (table_env four_files) four_names
     [0; 0; 1; 1]%Z [0; 1]%Z (Some "train"%string)
     2 1 1 0 None None false false 0%Q true 0).1.

(** The four identical samples on the validation partition. *)
Definition validation_generator : DataGenerator Q :=
  (@__init__ Q rot_source (table_env identical_files) four_names
     [0; 0; 1; 1]%Z [0; 1]%Z (Some "validation"%string)
     2 1 2 2 None None false false 0%Q false 0).1.

(** The ten-sample dataset read in windows of four with augmentation and
    an augmentation fraction of one half. *)
Definition half_augmented_generator : DataGenerator Q :=
  (@__init__ Q rot_source (table_env ten_files) ten_names ten_labels
     [0; 1]%Z (Some "train"%string) 4 5 2 2 None None false true (1 # 2)%Q
     false 0).1.

(** Four samples with three labels, in balanced mode. *)
Definition short_labels_generator : DataGenerator Q :=
  (@__init__ Q rot_source (table_env four_files) four_names
     [0; 0; 1]%Z [0; 1]%Z (Some "train"%string)
     2 1 1 2 None None false false 0%Q true 0).1.

(** ** Notions used by the further properties of the code *)

(** [tag in p] on strings: [tag] starts at some position of [p]. *)
Definition occurs_in (tag p : string) : Prop :=
  exists m, String.substring m (String.length tag) p = tag.

Section Notions.
Context {F : Type} {SF : Scalar F} {RS : RandomSource} {EF : Env F}.

(** The batch of a selection of indices of a well-formed dataset, without
    augmentation: the samples, normalised when the statistics are set, and
    the one-hot rows of their labels. *)
Definition batch_of (self : DataGenerator F) (ixs : list nat)
  : list (list (list F)) * list (list Z) :=
  (normalized_sample self <$> (sample_at self <$> ixs),
   one_hot_row (n_classes self) <$> (label_at self <$> ixs)).


(** The entries at position [(j, k)] of the samples of the dataset, in the
    order of [filenames]. *)
Definition sample_entries (self : DataGenerator F) (j k : nat) : list F :=
  omap (fun idx => entry (sample_at self idx) j k)
       (seq 0 (length (filenames self))).

(** The accumulators of [fit] after its loops over the loaded [samples]:
    the fresh buffer plus the samples, and the fresh buffer plus the squared
    differences between each sample and the first accumulator. *)
Definition fit_sum (self : DataGenerator F) (samples : list (list (list F)))
  : list (list F) :=
  foldl (map2_2d f_add) (np_empty2 0 (seqlen self) (n_channels self)) samples.

Definition fit_sq (self : DataGenerator F) (samples : list (list (list F)))
  : list (list F) :=
  foldl (fun acc x =>
           map2_2d f_add acc
             (map (map (fun d => f_mul d d))
                  (map2_2d f_sub x (fit_sum self samples))))
        (np_empty2 1 (seqlen self) (n_channels self)) samples.

End Notions.

(** ** Rational arithmetic: lemmas *)

Lemma Qlt_bool_iff x y : Qlt_bool x y = true <-> (x < y)%Q.
Proof.
  unfold Qlt_bool. rewrite negb_true_iff. split.
  - intros H. apply Qnot_le_lt. intros Hle.
    apply Qle_bool_iff in Hle. congruence.
  - intros H. destruct (Qle_bool y x) eqn:E; [|reflexivity].
    apply Qle_bool_iff in E. exfalso. exact (Qlt_not_le _ _ H E).
Qed.

Lemma Qlt_bool_false x y : Qlt_bool x y = false <-> (y <= x)%Q.
Proof.
  unfold Qlt_bool. rewrite negb_false_iff. apply Qle_bool_iff.
Qed.

Lemma Qeq_bool_false x y : Qeq_bool x y = false <-> ~ (x == y)%Q.
Proof.
  split.
  - intros H Heq. apply Qeq_bool_iff in Heq. congruence.
  - intros H. destruct (Qeq_bool x y) eqn:E; [|reflexivity].
    apply Qeq_bool_iff in E. contradiction.
Qed.

(** The floor of a quotient by a positive divisor, without division. *)
Lemma Qfloor_div_bounds (x y : Q) :
  (0 < y)%Q ->
  (inject_Z (Qfloor (x / y)) * y <= x)%Q /\
  (x < inject_Z (Qfloor (x / y) + 1) * y)%Q.
Proof.
  intros Hy.
  assert (Hq : (x / y * y == x)%Q).
  { rewrite Qmult_comm. apply Qmult_div_r.
    intros H0. rewrite H0 in Hy. exact (Qlt_irrefl 0 Hy). }
  split.
  - rewrite <- Hq at 2. apply Qmult_le_r; [exact Hy|]. apply Qfloor_le.
  - rewrite <- Hq at 1. apply Qmult_lt_r; [exact Hy|]. apply Qlt_floor.
Qed.

Lemma inject_Z_mult_lt_reg (a b : Z) (y : Q) :
  (0 < y)%Q -> (inject_Z a * y < inject_Z b * y)%Q -> (a < b)%Z.
Proof.
  intros Hy H. apply Qmult_lt_r in H; [|exact Hy].
  rewrite <- Zlt_Qlt in H. exact H.
Qed.

Lemma inject_Z_mult_le_reg (a b : Z) (y : Q) :
  (0 < y)%Q -> (inject_Z a * y <= inject_Z b * y)%Q -> (a <= b)%Z.
Proof.
  intros Hy H. apply Qmult_le_r in H; [|exact Hy].
  rewrite <- Zle_Qle in H. exact H.
Qed.

(** The pattern of both ceilings in the source: take the floor [q] of a
    quotient and add one when [q], multiplied back, falls short ([short] is
    the outcome of that comparison). *)
Lemma floor_bump_is_ceiling (x y : Q) (short : bool) :
  (0 < y)%Q ->
  let q := Qfloor (x / y) in
  (short = true <-> (inject_Z q * y < x)%Q) ->
  let n := if short then (q + 1)%Z else q in
  (x <= inject_Z n * y)%Q /\
  forall m : Z, (x <= inject_Z m * y)%Q -> (n <= m)%Z.
Proof.
  intros Hy q Hshort. destruct (Qfloor_div_bounds x y Hy) as [Hlo Hhi].
  fold q in Hlo, Hhi. cbv zeta.
  destruct short.
  - assert (E : (inject_Z q * y < x)%Q) by (by apply Hshort). split.
    + apply Qlt_le_weak. exact Hhi.
    + intros m Hm.
      assert (q < m)%Z; [|lia].
      apply (inject_Z_mult_lt_reg q m y Hy).
      eapply Qlt_le_trans; eassumption.
  - assert (E : (x <= inject_Z q * y)%Q).
    { apply Qnot_lt_le. intros H. apply Hshort in H. discriminate. }
    split; [exact E|].
    intros m Hm. apply (inject_Z_mult_le_reg q m y Hy).
    eapply Qle_trans; eassumption.
Qed.

Lemma Q_of_nat_pos (n : nat) : 0 < n -> (0 < Q_of_nat n)%Q.
Proof.
  intros H. unfold Q_of_nat. change 0%Q with (inject_Z 0).
  rewrite <- Zlt_Qlt. lia.
Qed.

Lemma Qeq_bool_Q_of_nat_pos (n : nat) : 0 < n -> Qeq_bool (Q_of_nat n) 0 = false.
Proof.
  intros H. apply Qeq_bool_false. intros E.
  apply Q_of_nat_pos in H. rewrite E in H. exact (Qlt_irrefl 0 H).
Qed.

(** ** Epoch length *)

Section Length.
Context {F : Type} {SF : Scalar F} {RS : RandomSource} {EF : Env F}.

(** [__len__] is the ceiling of the quotient of the samples to cover by the
    batch size. *)
Lemma len_ceiling (self : DataGenerator F) :
  0 < batch_size self ->
  exists n : Z,
    __len__ self = Ok n /\
    (epoch_samples self <= inject_Z n * Q_of_nat (batch_size self))%Q /\
    forall m : Z,
      (epoch_samples self <= inject_Z m * Q_of_nat (batch_size self))%Q ->
      (n <= m)%Z.
Proof.
  intros Hbs. pose proof (Q_of_nat_pos _ Hbs) as Hy.
  unfold __len__, floordiv. rewrite (Qeq_bool_Q_of_nat_pos _ Hbs). cbn.
  set (q := Qfloor (epoch_samples self / Q_of_nat (batch_size self))).
  set (short := Qlt_bool _ _).
  assert (Hshort : short = true <->
            (inject_Z q * Q_of_nat (batch_size self) < epoch_samples self)%Q).
  { unfold short. rewrite Qlt_bool_iff. unfold Q_of_nat at 1.
    rewrite inject_Z_mult. reflexivity. }
  pose proof (floor_bump_is_ceiling (epoch_samples self)
                (Q_of_nat (batch_size self)) short Hy Hshort) as Hc.
  cbv zeta in Hc. fold q in Hc.
  destruct short; eexists; (split; [reflexivity|exact Hc]).
Qed.


End Length.

(** ** Fallible computations: inversion *)

Lemma bind_Ok {A B} (m : result A) (f : A -> result B) (b : B) :
  m ≫= f = Ok b <-> exists a, m = Ok a /\ f a = Ok b.
Proof.
  destruct m as [a|e]; cbn; split.
  - intros H. by exists a.
  - by intros (a' & [= <-] & H).
  - discriminate.
  - by intros (a' & [=] & _).
Qed.

Lemma bind_Raise {A B} (m : result A) (f : A -> result B) (e : exn) :
  m ≫= f = Raise e <-> m = Raise e \/ exists a, m = Ok a /\ f a = Raise e.
Proof.
  destruct m as [a|e']; cbn; split.
  - intros H. right. by exists a.
  - intros [[=]|(a' & [= <-] & H)]; done.
  - intros [= <-]. by left.
  - intros [[= <-]|(a' & [=] & _)]; done.
Qed.

Lemma bind_Ok_l {A B} (a : A) (f : A -> result B) : Ok a ≫= f = f a.
Proof. done. Qed.

(** Run the first computation of a chain of binds with a known result. *)
Ltac run H := rewrite H, bind_Ok_l; cbv beta iota.

(** Decompose a hypothesis [_ = Ok _] along the binds of a definition. *)
Ltac inv_Ok H :=
  repeat match type of H with
  | _ ≫= _ = Ok _ =>
      let a := fresh "a" in
      let Ha := fresh "Ha" in
      apply bind_Ok in H; destruct H as (a & Ha & H)
  | (let '(_, _) := ?p in _) = Ok _ => destruct p
  | (match ?p with (_, _) => _ end) _ = Ok _ => destruct p
  | mret ?v = Ok _ => change (mret v) with (Ok v) in H
  | Ok _ = Ok _ => injection H as H
  end.

Lemma never_asserts_bind {A B} (m : result A) (f : A -> result B) :
  never_asserts m -> (forall a, m = Ok a -> never_asserts (f a)) ->
  never_asserts (m ≫= f).
Proof.
  unfold never_asserts. intros Hm Hf H. apply bind_Raise in H.
  destruct H as [H|(a & Ha & H)]; [done|]. by eapply Hf.
Qed.

Lemma never_asserts_getitem {A} (l : list A) i : never_asserts (getitem l i).
Proof. unfold getitem. by destruct (l !! i). Qed.

Lemma never_asserts_setitem {A} (l : list A) i v : never_asserts (setitem l i v).
Proof. unfold setitem. by case_decide. Qed.

Lemma never_asserts_set_row {F} r c (X : array3 F) i a :
  never_asserts (set_row r c X i a).
Proof. unfold set_row. case_decide; [|done]. by destruct (has_shape r c a). Qed.

Lemma never_asserts_set_tail {F} r c (X : array3 F) N a :
  never_asserts (set_tail r c X N a).
Proof. unfold set_tail. by destruct (_ && _). Qed.

Lemma never_asserts_mask_select {A} (a : list A) mask :
  never_asserts (mask_select a mask).
Proof. unfold mask_select. by destruct (_ =? _). Qed.

Lemma never_asserts_one_hot n l : never_asserts (one_hot n l).
Proof. unfold one_hot. by destruct (_ && _). Qed.

Lemma never_asserts_mapM {A B} (f : A -> result B) (l : list A) :
  (forall a, never_asserts (f a)) -> never_asserts (mapM f l).
Proof.
  intros Hf. induction l as [|x l IH]; [done|]. cbn.
  apply never_asserts_bind; [apply Hf|]. intros b _.
  apply never_asserts_bind; [apply IH|]. done.
Qed.

Lemma never_asserts_to_categorical y n : never_asserts (to_categorical y n).
Proof.
  unfold to_categorical. apply never_asserts_bind.
  - destruct n; [|done]. destruct y; [done|]. by destruct (_ <? _)%Z.
  - intros ncols _. apply never_asserts_mapM, never_asserts_one_hot.
Qed.

Section RandomFacts.
Context {RS : RandomSource}.

Lemma never_asserts_np_random_choice {A} g (a : list A) size :
  never_asserts (np_random_choice g a size).
Proof.
  unfold np_random_choice. destruct (_ <? _)%Z; [done|].
  destruct (_ <? _)%Z; [done|]. by destruct (permutation _ _).
Qed.

Lemma never_asserts_random_choice {A} g (l : list A) :
  never_asserts (random_choice g l).
Proof.
  unfold random_choice. destruct l as [|x l]; [done|].
  destruct (randbelow _ _) as [i g']. apply never_asserts_bind.
  - apply never_asserts_getitem.
  - done.
Qed.

End RandomFacts.

(** ** The assertion of the balanced mode *)

Section Assertion.
Context {F : Type} {SF : Scalar F} {RS : RandomSource} {EF : Env F}.
Implicit Types (self : DataGenerator F) (g : rng).

Lemma never_asserts_load fname : never_asserts (load fname).
Proof. unfold load. by destruct (np_load fname). Qed.

Lemma never_asserts_load_loop self X y i ixs :
  never_asserts (load_loop self X y i ixs).
Proof.
  revert X y i. induction ixs as [|idx rest IH]; intros X y i; [done|]. cbn.
  apply never_asserts_bind; [apply never_asserts_getitem|intros fname _].
  apply never_asserts_bind; [apply never_asserts_load|intros a _].
  apply never_asserts_bind; [apply never_asserts_set_row|intros X' _].
  apply never_asserts_bind; [apply never_asserts_getitem|intros l _].
  apply never_asserts_bind; [apply never_asserts_setitem|intros y' _].
  apply IH.
Qed.

Lemma never_asserts_aug_loop self N aug_x y i ixs :
  never_asserts (aug_loop self N aug_x y i ixs).
Proof.
  revert aug_x y i. induction ixs as [|idx rest IH]; intros X y i; [done|]. cbn.
  apply never_asserts_bind; [apply never_asserts_getitem|intros l _].
  apply never_asserts_bind; [apply never_asserts_setitem|intros y' _].
  apply never_asserts_bind; [apply never_asserts_getitem|intros fname _].
  apply never_asserts_bind; [apply never_asserts_load|intros a _].
  apply never_asserts_bind; [apply never_asserts_set_row|intros X' _].
  apply IH.
Qed.

Lemma never_asserts_broadcast_op self op X stat :
  never_asserts (broadcast_op self op X stat).
Proof. unfold broadcast_op. by destruct (has_shape _ _ _). Qed.

Lemma never_asserts_normalize self X : never_asserts (normalize self X).
Proof.
  unfold normalize. destruct (mean self) as [m|]; [|done].
  destruct (std self) as [s|]; [|done].
  apply never_asserts_bind; [apply never_asserts_broadcast_op|intros D _].
  apply never_asserts_broadcast_op.
Qed.

Lemma never_asserts_augment_or_resize self g ixs X y :
  never_asserts (augment_or_resize self g ixs X y).
Proof.
  unfold augment_or_resize. destruct (augment self); [|done].
  apply never_asserts_bind; [apply never_asserts_np_random_choice|].
  intros [aug_indices g1] _.
  apply never_asserts_bind; [apply never_asserts_aug_loop|].
  intros [aug_x y1] _.
  apply never_asserts_bind; [apply never_asserts_random_choice|].
  intros [t g2] _.
  apply never_asserts_bind; [apply never_asserts_random_choice|].
  intros [toss g3] _.
  apply never_asserts_bind.
  - unfold second_transform. destruct (toss =? 1); [|done].
    apply never_asserts_bind; [apply never_asserts_random_choice|].
    by intros [t2 g4] _.
  - intros [aug_x2 g4] _.
    apply never_asserts_bind; [apply never_asserts_set_tail|done].
Qed.

Lemma never_asserts_data_generation self g ixs :
  never_asserts (__data_generation self g ixs).
Proof.
  unfold __data_generation.
  apply never_asserts_bind; [apply never_asserts_load_loop|].
  intros [X y] _.
  apply never_asserts_bind; [apply never_asserts_augment_or_resize|].
  intros [[X2 y2] g2] _.
  apply never_asserts_bind; [apply never_asserts_normalize|intros X3 _].
  apply never_asserts_bind; [apply never_asserts_to_categorical|done].
Qed.

Lemma never_asserts_balanced_loop self cls_sz g ixs clss :
  never_asserts (balanced_loop self cls_sz g ixs clss).
Proof.
  revert g ixs. induction clss as [|cls rest IH]; intros g ixs; [done|]. cbn.
  apply never_asserts_bind; [apply never_asserts_mask_select|intros pool _].
  apply never_asserts_bind; [apply never_asserts_np_random_choice|].
  intros [picks g1] _. apply IH.
Qed.

Lemma never_asserts_floordiv x y : never_asserts (floordiv x y).
Proof. unfold floordiv. by destruct (Qeq_bool y 0). Qed.

Lemma never_asserts_truediv x y : never_asserts (truediv x y).
Proof. unfold truediv. by destruct (Qeq_bool y 0). Qed.

(** The assertion is the only failure of [class_size] with that exception. *)
Lemma class_size_asserts self :
  class_size self = Raise AssertionError <->
  augment self = true /\ ~ (0 < aug_factor self)%Q.
Proof.
  unfold class_size. rewrite bind_Raise. split.
  - intros [H|([] & Ha & H)].
    + destruct (augment self); [|done].
      destruct (Qlt_bool 0 (aug_factor self)) eqn:E; [done|].
      split; [done|]. apply Qlt_bool_false in E. by apply Qle_not_lt.
    + exfalso. revert H. apply never_asserts_bind.
      { apply never_asserts_truediv. }
      intros q _. apply never_asserts_bind.
      { apply never_asserts_floordiv. }
      intros c _. clear Ha. by destruct (Qlt_bool _ _).
  - intros [-> Hn]. left.
    destruct (Qlt_bool 0 (aug_factor self)) eqn:E; [|done].
    by apply Qlt_bool_iff in E.
Qed.

(** C7. In balanced mode with augmentation enabled, [__getitem__] raises the
    assertion error of line 49 when [aug_factor] is not strictly positive,
    for every batch index and state of the random source; with a strictly
    positive [aug_factor] no call fails with that error. *)
Theorem balanced_augment_assertion self g (index : nat) :
  balance self = true ->
  augment self = true ->
  (~ (0 < aug_factor self)%Q ->
   __getitem__ self g index = Raise AssertionError) /\
  ((0 < aug_factor self)%Q ->
   __getitem__ self g index <> Raise AssertionError).
Proof.
  intros Hbal Haug. unfold __getitem__, select_indices.
  rewrite Hbal. cbn [negb]. split.
  - intros Hn.
    assert (class_size self = Raise AssertionError) as Hc
      by (by apply class_size_asserts).
    unfold balanced_indices. by rewrite Hc.
  - intros Hpos. apply never_asserts_bind.
    + unfold balanced_indices. apply never_asserts_bind.
      * intros Hc. apply class_size_asserts in Hc as [_ Hn]. contradiction.
      * intros cls_sz _. apply never_asserts_bind.
        { apply never_asserts_balanced_loop. }
        intros [ixs g1] _. by destruct (random_shuffle g1 ixs).
    + intros [ixs g1] _. apply never_asserts_data_generation.
Qed.

End Assertion.

(** ** Drawing without replacement *)

Lemma omap_fmap_inner {A B C} (f : B -> option C) (h : A -> B) (l : list A) :
  omap f (h <$> l) = omap (fun x => f (h x)) l.
Proof. induction l as [|x l IH]; [done|]. cbn. by rewrite IH. Qed.

Lemma reorder_identity {A} (l : list A) : reorder l (seq 0 (length l)) = l.
Proof.
  unfold reorder. induction l as [|x l IH]; [done|].
  cbn [length seq omap]. cbn. f_equal.
  rewrite <- fmap_S_seq. rewrite omap_fmap_inner. exact IH.
Qed.

Lemma reorder_Permutation {A} (l : list A) (p : list nat) :
  p ≡ₚ seq 0 (length l) -> reorder l p ≡ₚ l.
Proof.
  intros Hp. rewrite <- (reorder_identity l) at 2.
  unfold reorder. by rewrite Hp.
Qed.

Section Drawing.
Context {RS : RandomSource}.
Implicit Types g : rng.

Lemma random_shuffle_Permutation {A} g (l l' : list A) g' :
  random_shuffle g l = (l', g') -> l' ≡ₚ l.
Proof.
  unfold random_shuffle. pose proof (permutation_perm g (length l)) as Hp.
  destruct (permutation g (length l)) as [p g1]. intros [= <- <-].
  cbn [fst] in Hp. by apply reorder_Permutation.
Qed.

(** A successful draw has the requested size and is a sub-multiset of the
    population: no position of the population is used twice. *)
Lemma np_random_choice_Ok {A} g (a picks : list A) size g' :
  np_random_choice g a size = Ok (picks, g') ->
  (0 <= size <= Z.of_nat (length a))%Z /\
  length picks = Z.to_nat size /\
  picks ⊆+ a.
Proof.
  unfold np_random_choice.
  destruct (Z.ltb_spec size 0) as [E1|E1]; [done|].
  destruct (Z.ltb_spec (Z.of_nat (length a)) size) as [E2|E2]; [done|].
  pose proof (permutation_perm g (length a)) as Hp.
  destruct (permutation g (length a)) as [p g1]. intros [= <- <-].
  cbn [fst] in Hp. apply reorder_Permutation in Hp.
  split; [lia|]. split.
  - rewrite length_take. apply Permutation_length in Hp. lia.
  - etrans; [apply submseteq_take|]. by apply Permutation_submseteq.
Qed.

(** The draw fails exactly when the size is negative or exceeds the
    population, and then with [ValueError]. *)
Lemma np_random_choice_Raise {A} g (a : list A) size e :
  np_random_choice g a size = Raise e <->
  e = ValueError /\ ((size < 0)%Z \/ (Z.of_nat (length a) < size)%Z).
Proof.
  unfold np_random_choice.
  destruct (Z.ltb_spec size 0) as [E1|E1].
  { split; [intros [= <-]|intros [-> _]]; [|done]. split; [done|]. lia. }
  destruct (Z.ltb_spec (Z.of_nat (length a)) size) as [E2|E2].
  { split; [intros [= <-]|intros [-> _]]; [|done]. split; [done|]. lia. }
  destruct (permutation g (length a)) as [p g1].
  split; [done|]. intros [_ H]. lia.
Qed.

Lemma np_random_choice_is_Ok {A} g (a : list A) size :
  (0 <= size <= Z.of_nat (length a))%Z ->
  exists picks g', np_random_choice g a size = Ok (picks, g').
Proof.
  intros H. destruct (np_random_choice g a size) as [[picks g']|e] eqn:E.
  - by exists picks, g'.
  - apply np_random_choice_Raise in E. lia.
Qed.

Lemma random_choice_Ok {A} g (l : list A) x g' :
  random_choice g l = Ok (x, g') -> x ∈ l.
Proof.
  unfold random_choice. destruct l as [|x0 l]; [done|].
  destruct (randbelow g _) as [i g1]. unfold getitem.
  destruct (_ !! i) as [v|] eqn:E; [|done]. cbn. intros [= <- <-].
  by eapply list_elem_of_lookup_2.
Qed.

Lemma random_choice_is_Ok {A} g (l : list A) :
  l <> [] -> exists x g', random_choice g l = Ok (x, g').
Proof.
  intros Hl. unfold random_choice. destruct l as [|x0 l]; [done|].
  pose proof (randbelow_lt g (length (x0 :: l))) as Hlt.
  destruct (randbelow g _) as [i g1]. cbn [fst] in Hlt. unfold getitem.
  destruct ((x0 :: l) !! i) as [v|] eqn:E.
  - by exists v, g1.
  - apply lookup_ge_None in E. cbn [length] in *. lia.
Qed.

End Drawing.

(** ** The index pools of the balanced mode *)

Lemma filter_ext_in {A} (P Q : A -> Prop) `{!forall x, Decision (P x)}
    `{!forall x, Decision (Q x)} (l : list A) :
  (forall x, x ∈ l -> P x <-> Q x) -> filter P l = filter Q l.
Proof.
  induction l as [|x l IH]; intros Hl; [done|].
  rewrite !filter_cons. rewrite IH.
  - destruct (decide (P x)) as [HP|HP], (decide (Q x)) as [HQ|HQ]; try done.
    + exfalso. apply HQ, Hl; [left|done].
    + exfalso. apply HP, Hl; [left|done].
  - intros y Hy. apply Hl. by right.
Qed.

Lemma filter_all {A} (P : A -> Prop) `{!forall x, Decision (P x)} (l : list A) :
  (forall x, x ∈ l -> P x) -> filter P l = l.
Proof.
  induction l as [|x l IH]; intros Hl; [done|].
  rewrite filter_cons_True by (apply Hl; left).
  f_equal. apply IH. intros y Hy. apply Hl. by right.
Qed.

(** Selecting from [j, j+1, ...] by the mask [label == c]. *)
Lemma mask_label_seq (ls : list Z) (c : Z) (j : nat) :
  omap (fun p : nat * bool => if p.2 then Some p.1 else None)
       (zip (seq j (length ls)) ((fun l => (l =? c)%Z) <$> ls))
  = filter (fun i => ls !! (i - j) = Some c) (seq j (length ls)).
Proof.
  revert j. induction ls as [|l ls IH]; intros j; [done|].
  cbn [length seq fmap list_fmap zip zip_with].
  rewrite filter_cons. rewrite Nat.sub_diag. cbn [lookup list_lookup].
  simpl omap. rewrite IH.
  assert (Hext : filter (fun i => (l :: ls) !! (i - j) = Some c)
                        (seq (S j) (length ls))
                 = filter (fun i => ls !! (i - S j) = Some c)
                          (seq (S j) (length ls))).
  { apply filter_ext_in. intros i Hi. apply elem_of_seq in Hi.
    replace (i - j) with (S (i - S j)) by lia. done. }
  rewrite Hext.
  destruct (Z.eqb_spec l c) as [->|Hne].
  - by rewrite decide_True.
  - rewrite decide_False; [done|]. congruence.
Qed.

(** The classes of a list split it, up to order. *)
Lemma filter_classes_Permutation {A} (lab : A -> option Z) (l : list A) (k : nat) :
  concat ((fun c : nat => filter (fun x => lab x = Some (Z.of_nat c)) l)
            <$> seq 0 k)
  ≡ₚ filter (fun x => positional k (lab x)) l.
Proof.
  induction k as [|k IH].
  - cbn. induction l as [|x l IHl]; [done|].
    rewrite filter_cons_False; [done|].
    unfold positional. destruct (lab x); [lia|tauto].
  - rewrite seq_S, fmap_app, concat_app, IH. cbn. rewrite app_nil_r.
    clear IH. induction l as [|x l IHl]; [done|].
    rewrite !filter_cons.
    destruct (decide (lab x = Some (Z.of_nat k))) as [Hk|Hk].
    + rewrite decide_False by (rewrite Hk; cbn; lia).
      rewrite decide_True by (rewrite Hk; cbn; lia).
      rewrite <- Permutation_middle. by rewrite IHl.
    + destruct (decide (positional k (lab x))) as [Hlt|Hlt].
      * rewrite decide_True.
        2:{ destruct (lab x); cbn in *; [lia|done]. }
        cbn. by rewrite IHl.
      * rewrite decide_False; [exact IHl|].
        destruct (lab x) as [v|]; cbn in *; [|tauto].
        assert (v <> Z.of_nat k) by congruence. lia.
Qed.

Lemma mapM_Ok_fmap {A B} (f : A -> result B) (h : A -> B) (l : list A) :
  (forall x, x ∈ l -> f x = Ok (h x)) -> mapM f l = Ok (h <$> l).
Proof.
  induction l as [|x l IH]; intros Hf; [done|]. cbn.
  rewrite Hf by left. cbn. rewrite IH; [done|].
  intros y Hy. apply Hf. by right.
Qed.

Section Pools.
Context {F : Type} {SF : Scalar F} {RS : RandomSource} {EF : Env F}.
Implicit Types (self other : DataGenerator F) (g : rng).

Lemma class_pool_Ok self cls :
  length (labels self) = length (filenames self) ->
  class_pool self cls = Ok (indices_labelled self cls).
Proof.
  intros Hlen. unfold class_pool, mask_select, np_arange, indices_labelled.
  rewrite length_fmap, length_seq, Hlen, Nat.eqb_refl. f_equal.
  rewrite <- Hlen, mask_label_seq. apply filter_ext_in.
  intros i _. by rewrite Nat.sub_0_r.
Qed.

Lemma class_pool_Raise self cls :
  length (labels self) <> length (filenames self) ->
  class_pool self cls = Raise IndexError.
Proof.
  intros Hlen. unfold class_pool, mask_select, np_arange.
  rewrite length_fmap, length_seq.
  by destruct (Nat.eqb_spec (length (labels self)) (length (filenames self))).
Qed.

Lemma class_pools_Ok self :
  length (labels self) = length (filenames self) ->
  class_pools self = Ok (indices_labelled self <$> seq 0 (length (classes self))).
Proof.
  intros Hlen. unfold class_pools. apply mapM_Ok_fmap.
  intros cls _. by apply class_pool_Ok.
Qed.

Lemma elem_of_indices_labelled self cls i :
  i ∈ indices_labelled self cls <->
  labels self !! i = Some (Z.of_nat cls) /\ i < length (filenames self).
Proof.
  unfold indices_labelled. rewrite list_elem_of_filter, elem_of_seq.
  intuition lia.
Qed.



(** The pools of the positional numbers below [k] split the indices whose
    label is one of these numbers. *)
Lemma pools_split self (k : nat) :
  concat (indices_labelled self <$> seq 0 k)
  ≡ₚ filter (fun i => positional k (labels self !! i))
            (seq 0 (length (filenames self))).
Proof. apply (filter_classes_Permutation (fun i => labels self !! i)). Qed.

End Pools.

(** ** What the balanced mode reads *)

Lemma bind_ext {A B} (m m' : result A) (f f' : A -> result B) :
  m = m' -> (forall a, f a = f' a) -> m ≫= f = m' ≫= f'.
Proof. intros <- Hf. destruct m; cbn; [apply Hf|done]. Qed.

Section Frame.
Context {F : Type} {SF : Scalar F} {RS : RandomSource} {EF : Env F}.
Implicit Types (self other : DataGenerator F) (g : rng).

Lemma load_loop_frame self other X y i ixs :
  same_sources self other ->
  load_loop self X y i ixs = load_loop other X y i ixs.
Proof.
  intros (_ & Hs & _ & Hl & _ & Hf & Hc & _).
  revert X y i. induction ixs as [|idx rest IH]; intros X y i; [done|]. cbn.
  rewrite Hs, Hl, Hf, Hc.
  repeat (apply bind_ext; [done|intros ?]). apply IH.
Qed.

Lemma aug_loop_frame self other N aug_x y i ixs :
  same_sources self other ->
  aug_loop self N aug_x y i ixs = aug_loop other N aug_x y i ixs.
Proof.
  intros (_ & Hs & _ & Hl & _ & Hf & Hc & _).
  revert aug_x y i. induction ixs as [|idx rest IH]; intros X y i; [done|]. cbn.
  rewrite Hs, Hl, Hf, Hc.
  repeat (apply bind_ext; [done|intros ?]). apply IH.
Qed.

Lemma augment_or_resize_frame self other g ixs X y :
  same_sources self other ->
  augment_or_resize self g ixs X y = augment_or_resize other g ixs X y.
Proof.
  intros Hsame.
  pose proof Hsame as (_ & Hs & Hb & _ & _ & _ & Hc & _ & Ha & _ & Hfn & _).
  unfold augment_or_resize, second_transform. rewrite Hs, Hb, Hc, Ha, Hfn.
  destruct (augment other); [|done].
  apply bind_ext; [done|intros [aug_indices g1]].
  apply bind_ext; [by apply aug_loop_frame|done].
Qed.

Lemma normalize_frame self other X :
  same_up_to_epoch self other -> normalize self X = normalize other X.
Proof.
  intros ((_ & Hs & _ & _ & _ & _ & Hc & _) & Hm & Hsd).
  unfold normalize, broadcast_op. by rewrite Hs, Hc, Hm, Hsd.
Qed.

Lemma data_generation_frame self other g ixs :
  same_up_to_epoch self other ->
  __data_generation self g ixs = __data_generation other g ixs.
Proof.
  intros Hsame. pose proof Hsame as (Hsrc & _).
  pose proof Hsrc as (_ & Hs & Hb & _ & _ & _ & Hc & Hn & _).
  unfold __data_generation. rewrite Hs, Hb, Hc, Hn.
  apply bind_ext; [by apply load_loop_frame|intros [X y]].
  apply bind_ext; [by apply augment_or_resize_frame|intros [[X2 y2] g2]].
  apply bind_ext; [by apply normalize_frame|done].
Qed.

Lemma class_size_frame self other :
  same_sources self other -> class_size self = class_size other.
Proof.
  intros (_ & _ & Hb & _ & _ & _ & _ & Hn & Ha & Hf & _).
  unfold class_size. by rewrite Hb, Hn, Ha, Hf.
Qed.

Lemma balanced_loop_frame self other cls_sz g ixs clss :
  same_sources self other ->
  balanced_loop self cls_sz g ixs clss = balanced_loop other cls_sz g ixs clss.
Proof.
  intros (_ & _ & _ & Hl & _ & Hf & _).
  revert g ixs. induction clss as [|cls rest IH]; intros g ixs; [done|]. cbn.
  unfold class_pool. rewrite Hl, Hf.
  apply bind_ext; [done|intros pool].
  apply bind_ext; [done|intros [picks g1]]. apply IH.
Qed.

Lemma balanced_indices_frame self other g :
  same_sources self other ->
  balanced_indices self g = balanced_indices other g.
Proof.
  intros Hsame.
  pose proof Hsame as (_ & _ & Hb & _ & Hcl & _).
  unfold balanced_indices. rewrite Hb, Hcl.
  apply bind_ext; [by apply class_size_frame|intros cls_sz].
  apply bind_ext; [by apply balanced_loop_frame|done].
Qed.

(** In balanced mode a batch is a function of the state of the random source
    and of the attributes other than [indices], [shuffle] and the values in
    [classes]; the batch index is not read. *)
Lemma getitem_balanced_frame self other g (i j : nat) :
  same_up_to_epoch self other ->
  balance self = true ->
  __getitem__ self g i = __getitem__ other g j.
Proof.
  intros Hsame Hbal. pose proof Hsame as (Hsrc & _).
  pose proof Hsrc as (_ & _ & _ & _ & _ & _ & _ & _ & _ & _ & _ & Hb).
  unfold __getitem__, select_indices. rewrite <- Hb, Hbal. cbn [negb].
  apply bind_ext; [by apply balanced_indices_frame|intros [ixs g1]].
  by apply data_generation_frame.
Qed.

Lemma same_sources_refl self : same_sources self self.
Proof. by repeat split. Qed.

Lemma same_up_to_epoch_set_indices self ix :
  same_up_to_epoch (set_indices self ix) self.
Proof. by repeat split. Qed.

Lemma same_up_to_epoch_set_classes self cs :
  length cs = length (classes self) ->
  same_up_to_epoch (set_classes self cs) self.
Proof. intros H. by repeat split. Qed.

Lemma same_up_to_epoch_on_epoch_end self g :
  same_up_to_epoch (on_epoch_end self g).1 self.
Proof.
  unfold on_epoch_end. destruct (shuffle self).
  - destruct (random_shuffle _ _). apply same_up_to_epoch_set_indices.
  - apply same_up_to_epoch_set_indices.
Qed.

Lemma same_sources_set_mean_std self m s :
  same_sources (set_mean_std self m s) self.
Proof. by repeat split. Qed.

(** The selection of the indices does not read the statistics. *)
Lemma select_indices_set_mean_std self m s g (index : nat) :
  select_indices (set_mean_std self m s) g index = select_indices self g index.
Proof.
  unfold select_indices. cbn [balance set_mean_std].
  destruct (balance self); cbn [negb]; [|done].
  apply balanced_indices_frame, same_sources_set_mean_std.
Qed.

End Frame.

(** ** The loading loops *)

Lemma mapM_cons_Ok {A B} (f : A -> result B) x (l : list A) y (k : list B) :
  f x = Ok y -> mapM f l = Ok k -> mapM f (x :: l) = Ok (y :: k).
Proof. intros Hx Hl. cbn. rewrite Hx. cbn. by rewrite Hl. Qed.

Lemma mapM_Ok_length {A B} (f : A -> result B) (l : list A) (k : list B) :
  mapM f l = Ok k -> length k = length l.
Proof.
  revert k. induction l as [|x l IH]; intros k; cbn.
  - by intros [= <-].
  - intros H. inv_Ok H. subst. cbn. f_equal. by apply IH.
Qed.

Lemma mapM_Ok_Forall2 {A B} (f : A -> result B) (l : list A) (k : list B) :
  mapM f l = Ok k <-> Forall2 (fun x y => f x = Ok y) l k.
Proof.
  revert k. induction l as [|x l IH]; intros k; cbn.
  - split; [intros [= <-]; constructor|by inversion 1].
  - split.
    + intros H. inv_Ok H. subst. constructor; [done|]. by apply IH.
    + inversion 1 as [|? y ? k' Hx Hk]; subst. rewrite Hx. cbn.
      apply IH in Hk. by rewrite Hk.
Qed.

(** Writing a row into a buffer, seen from both sides of the row. *)
Lemma fill_row {A} (buf : list A) (i n : nat) (x : A) (rows : list A) :
  i < length buf ->
  take (S i) (<[i:=x]> buf) ++ rows ++ drop (S i + n) (<[i:=x]> buf)
  = take i buf ++ (x :: rows) ++ drop (i + S n) buf.
Proof.
  intros Hi.
  rewrite (take_S_r _ _ x) by (by apply list_lookup_insert_eq).
  rewrite take_insert_ge by lia. rewrite drop_insert_lt by lia.
  rewrite <- app_assoc. cbn. by rewrite Nat.add_succ_r.
Qed.

Section Loading.
Context {F : Type} {SF : Scalar F} {RS : RandomSource} {EF : Env F}.
Implicit Types (self : DataGenerator F) (g : rng).

Lemma sample_of_Ok self idx a :
  sample_of self idx = Ok a <->
  exists fname, filenames self !! idx = Some fname /\
                np_load fname = Some a /\
                has_shape (seqlen self) (n_channels self) a = true.
Proof.
  unfold sample_of, getitem, load. split.
  - intros H. destruct (filenames self !! idx) as [fname|]; [|done]. cbn in H.
    destruct (np_load fname) as [a'|] eqn:El; [|done]. cbn in H.
    destruct (has_shape _ _ a') eqn:E; [|done]. injection H as <-.
    by exists fname.
  - intros (fname & -> & Hl & Hs). cbn. rewrite Hl. cbn. by rewrite Hs.
Qed.

(** The loop of lines 76-78 overwrites the rows [i .. i + len(ixs) - 1] of
    both buffers with what it loads and leaves the other rows alone. *)
Lemma load_loop_Ok self X y i ixs X' y' :
  load_loop self X y i ixs = Ok (X', y') ->
  exists samples lbls,
    mapM (sample_of self) ixs = Ok samples /\
    mapM (label_of self) ixs = Ok lbls /\
    (ixs = [] \/ (i + length ixs <= length X /\ i + length ixs <= length y)) /\
    X' = take i X ++ samples ++ drop (i + length ixs) X /\
    y' = take i y ++ lbls ++ drop (i + length ixs) y.
Proof.
  revert X y i. induction ixs as [|idx rest IH]; intros X y i H.
  - injection H as <- <-. exists [], []. cbn.
    rewrite Nat.add_0_r, !take_drop. by repeat split; [left|..].
  - cbn in H. inv_Ok H.
    rename a into fname, a0 into arr, a1 into X1, a2 into l, a3 into y1.
    unfold set_row in Ha1. case_decide as Hi; [|done].
    destruct (has_shape _ _ arr) eqn:Hshape; [|done]. injection Ha1 as <-.
    unfold setitem in Ha3. case_decide as Hiy; [|done]. injection Ha3 as <-.
    apply IH in H as (samples & lbls & Hs & Hl & Hb & -> & ->).
    repeat rewrite length_insert in Hb.
    exists (arr :: samples), (l :: lbls). repeat split.
    + apply mapM_cons_Ok; [|done]. unfold sample_of.
      rewrite Ha. cbn. rewrite Ha0. cbn. by rewrite Hshape.
    + by apply mapM_cons_Ok.
    + right. cbn [length].
      destruct Hb as [->|Hb]; cbn [length]; lia.
    + cbn [length]. by apply fill_row.
    + cbn [length]. by apply fill_row.
Qed.

Lemma load_loop_is_Ok self X y i ixs samples lbls :
  mapM (sample_of self) ixs = Ok samples ->
  mapM (label_of self) ixs = Ok lbls ->
  i + length ixs <= length X ->
  i + length ixs <= length y ->
  load_loop self X y i ixs
  = Ok (take i X ++ samples ++ drop (i + length ixs) X,
        take i y ++ lbls ++ drop (i + length ixs) y).
Proof.
  revert X y i samples lbls.
  induction ixs as [|idx rest IH]; intros X y i samples lbls Hs Hl HX Hy.
  - injection Hs as <-. injection Hl as <-. cbn.
    by rewrite Nat.add_0_r, !take_drop.
  - cbn in Hs, Hl. inv_Ok Hs. inv_Ok Hl. subst. cbn [length] in *.
    rename a into arr, a0 into samples, a1 into l, a2 into lbls.
    apply sample_of_Ok in Ha as (fname & Hf & Hload & Hshape).
    assert (Hg : getitem (filenames self) idx = Ok fname)
      by (unfold getitem; by rewrite Hf).
    assert (Hld : load fname = Ok arr) by (unfold load; by rewrite Hload).
    cbn. rewrite Hg. cbn. rewrite Hld. cbn.
    unfold set_row. rewrite decide_True by lia. rewrite Hshape. cbn.
    unfold label_of in Ha1. rewrite Ha1. cbn.
    unfold setitem. rewrite decide_True by lia. cbn.
    rewrite (IH _ _ _ samples lbls); repeat rewrite length_insert; try done; try lia.
    by rewrite !fill_row by lia.
Qed.

(** The loop of lines 87-89: the same, with the labels written from row
    [N + i] on. *)
Lemma aug_loop_Ok self N aug_x y i ixs aug_x' y' :
  aug_loop self N aug_x y i ixs = Ok (aug_x', y') ->
  exists samples lbls,
    mapM (sample_of self) ixs = Ok samples /\
    mapM (label_of self) ixs = Ok lbls /\
    (ixs = [] \/ (i + length ixs <= length aug_x /\
                  N + i + length ixs <= length y)) /\
    aug_x' = take i aug_x ++ samples ++ drop (i + length ixs) aug_x /\
    y' = take (N + i) y ++ lbls ++ drop (N + i + length ixs) y.
Proof.
  revert aug_x y i. induction ixs as [|idx rest IH]; intros X y i H.
  - injection H as <- <-. exists [], []. cbn.
    rewrite !Nat.add_0_r, !take_drop. by repeat split; [left|..].
  - cbn in H. inv_Ok H.
    rename a into l, a0 into y1, a1 into fname, a2 into arr, a3 into X1.
    unfold set_row in Ha3. case_decide as Hi; [|done].
    destruct (has_shape _ _ arr) eqn:Hshape; [|done]. injection Ha3 as <-.
    unfold setitem in Ha0. case_decide as Hiy; [|done]. injection Ha0 as <-.
    apply IH in H as (samples & lbls & Hs & Hl & Hb & -> & ->).
    repeat rewrite length_insert in Hb.
    exists (arr :: samples), (l :: lbls). repeat split.
    + apply mapM_cons_Ok; [|done]. unfold sample_of.
      rewrite Ha1. cbn. rewrite Ha2. cbn. by rewrite Hshape.
    + by apply mapM_cons_Ok.
    + right. cbn [length].
      destruct Hb as [->|Hb]; cbn [length]; lia.
    + cbn [length]. by apply fill_row.
    + cbn [length]. replace (N + S i) with (S (N + i)) by lia.
      rewrite <- Nat.add_assoc. rewrite fill_row by done.
      by rewrite <- !Nat.add_assoc.
Qed.

Lemma aug_loop_is_Ok self N aug_x y i ixs samples lbls :
  mapM (sample_of self) ixs = Ok samples ->
  mapM (label_of self) ixs = Ok lbls ->
  i + length ixs <= length aug_x ->
  N + i + length ixs <= length y ->
  aug_loop self N aug_x y i ixs
  = Ok (take i aug_x ++ samples ++ drop (i + length ixs) aug_x,
        take (N + i) y ++ lbls ++ drop (N + i + length ixs) y).
Proof.
  revert aug_x y i samples lbls.
  induction ixs as [|idx rest IH]; intros X y i samples lbls Hs Hl HX Hy.
  - injection Hs as <-. injection Hl as <-. cbn.
    by rewrite !Nat.add_0_r, !take_drop.
  - cbn in Hs, Hl. inv_Ok Hs. inv_Ok Hl. subst. cbn [length] in *.
    rename a into arr, a0 into samples, a1 into l, a2 into lbls.
    apply sample_of_Ok in Ha as (fname & Hf & Hload & Hshape).
    cbn. unfold label_of in Ha1. rewrite Ha1. cbn.
    unfold setitem. rewrite decide_True by lia. cbn.
    assert (Hg : getitem (filenames self) idx = Ok fname)
      by (unfold getitem; by rewrite Hf).
    assert (Hld : load fname = Ok arr) by (unfold load; by rewrite Hload).
    rewrite Hg. cbn. rewrite Hld. cbn.
    unfold set_row. rewrite decide_True by lia. rewrite Hshape. cbn.
    rewrite (IH _ _ _ samples lbls); repeat rewrite length_insert; try done; try lia.
    rewrite fill_row by lia.
    replace (N + S i) with (S (N + i)) by lia.
    by rewrite fill_row by lia.
Qed.

End Loading.

(** ** [__data_generation] *)

Section DataGeneration.
Context {F : Type} {SF : Scalar F} {RS : RandomSource} {EF : Env F}.
Implicit Types (self : DataGenerator F) (g : rng).

Lemma length_np_empty3 site n r c : length (np_empty3 site n r c) = n.
Proof. unfold np_empty3. by rewrite length_map, length_seq. Qed.

Lemma length_np_empty_int n : length (np_empty_int n) = n.
Proof. unfold np_empty_int. by rewrite length_map, length_seq. Qed.

Lemma normalize_Some self m s X :
  mean self = Some m -> std self = Some s ->
  normalize self X =
    if has_shape (seqlen self) (n_channels self) m
       && has_shape (seqlen self) (n_channels self) s
    then Ok (normalized m s <$> X)
    else Raise ValueError.
Proof.
  intros Hm Hs. unfold normalize, broadcast_op. rewrite Hm, Hs.
  destruct (has_shape _ _ m); [|done]. cbn.
  destruct (has_shape _ _ s); [|done]. cbn.
  f_equal. rewrite <- list_fmap_compose. done.
Qed.

Lemma normalize_None self X :
  mean self = None \/ std self = None -> normalize self X = Ok X.
Proof.
  intros [H|H]; unfold normalize; rewrite H; [done|].
  by destruct (mean self).
Qed.

Lemma normalize_length self X X' :
  normalize self X = Ok X' -> length X' = length X.
Proof.
  unfold normalize, broadcast_op.
  destruct (mean self) as [m|]; [|by intros [= <-]].
  destruct (std self) as [s|]; [|by intros [= <-]].
  destruct (has_shape _ _ m); [|done]. cbn.
  destruct (has_shape _ _ s); [|done]. intros [= <-].
  by rewrite !length_map.
Qed.

Lemma to_categorical_length y n Y :
  to_categorical y n = Ok Y -> length Y = length y.
Proof.
  unfold to_categorical. intros H. inv_Ok H. by eapply mapM_Ok_length.
Qed.

(** Without augmentation the batch holds the samples of the selected
    indices, normalised, and their labels, one-hot encoded; the random source
    is not used. *)
Lemma data_generation_plain self g ixs X Y g' :
  augment self = false ->
  __data_generation self g ixs = Ok (X, Y, g') <->
  exists samples lbls,
    mapM (sample_of self) ixs = Ok samples /\
    mapM (label_of self) ixs = Ok lbls /\
    length ixs <= batch_size self /\
    normalize self samples = Ok X /\
    to_categorical lbls (n_classes self) = Ok Y /\
    g' = g.
Proof.
  intros Haug. unfold __data_generation, augment_or_resize. rewrite Haug.
  split.
  - intros H. inv_Ok H. injection Ha0 as <- <- <-. subst.
    apply load_loop_Ok in Ha as (samples & lbls & Hs & Hl & Hb & -> & ->).
    rewrite length_np_empty3, length_np_empty_int in Hb.
    pose proof (mapM_Ok_length _ _ _ Hs) as Hls.
    pose proof (mapM_Ok_length _ _ _ Hl) as Hll.
    rewrite take_0 in Ha1. rewrite take_0 in Ha2. cbn [app] in Ha1, Ha2.
    rewrite take_app_length' in Ha1 by done.
    rewrite take_app_length' in Ha2 by done.
    exists samples, lbls. repeat split; try done.
    destruct Hb as [->|Hb]; cbn; lia.
  - intros (samples & lbls & Hs & Hl & Hb & Hn & Hc & ->).
    pose proof (mapM_Ok_length _ _ _ Hs) as Hls.
    pose proof (mapM_Ok_length _ _ _ Hl) as Hll.
    rewrite (load_loop_is_Ok self _ _ 0 ixs samples lbls Hs Hl)
      by (rewrite ?length_np_empty3, ?length_np_empty_int; lia).
    rewrite !take_0. cbn. rewrite !take_app_length' by done.
    rewrite Hn. cbn. rewrite Hc. done.
Qed.

(** With augmentation the batch holds the samples of the selected indices
    followed by the tail: the samples of [batch_size - N] indices drawn
    without replacement from the selected ones, put through one transform
    and, when the toss is 1, through a second one. *)
Lemma data_generation_augmented self g ixs X Y g' :
  augment self = true ->
  __data_generation self g ixs = Ok (X, Y, g') <->
  exists samples lbls aug_ixs g1 aug_samples aug_lbls t1 g2 toss g3 tail,
    mapM (sample_of self) ixs = Ok samples /\
    mapM (label_of self) ixs = Ok lbls /\
    np_random_choice g ixs
      (Z.of_nat (batch_size self) - Z.of_nat (length ixs)) = Ok (aug_ixs, g1) /\
    mapM (sample_of self) aug_ixs = Ok aug_samples /\
    mapM (label_of self) aug_ixs = Ok aug_lbls /\
    random_choice g1 (aug_func self) = Ok (t1, g2) /\
    random_choice g2 [0; 1] = Ok (toss, g3) /\
    second_transform self g3 toss (t1 aug_samples) = Ok (tail, g') /\
    length tail = batch_size self - length ixs /\
    forallb (has_shape (seqlen self) (n_channels self)) tail = true /\
    normalize self (samples ++ tail) = Ok X /\
    to_categorical (lbls ++ aug_lbls) (n_classes self) = Ok Y.
Proof.
  intros Haug. unfold __data_generation, augment_or_resize. rewrite Haug.
  set (bs := batch_size self). set (N := length ixs).
  split.
  - intros H.
    apply bind_Ok in H as ([X1 y1] & Ha & H).
    apply bind_Ok in H as ([[X2 y3] g4] & Hb & H).
    apply bind_Ok in H as (X3 & Hn & H).
    apply bind_Ok in H as (Y3 & Hcat & H).
    injection H as -> -> ->.
    apply bind_Ok in Hb as ([aug_ixs g1] & Ha1 & Hb).
    apply bind_Ok in Hb as ([aug_x1 y2] & Ha3 & Hb).
    apply bind_Ok in Hb as ([t1 g2] & Ht1 & Hb).
    apply bind_Ok in Hb as ([toss g3] & Htoss & Hb).
    apply bind_Ok in Hb as ([tail g5] & Ht2 & Hb).
    apply bind_Ok in Hb as (X4 & Ha7 & Hb).
    injection Hb as -> -> ->.
    apply load_loop_Ok in Ha as (samples & lbls & Hs & Hl & Hb & -> & ->).
    rewrite length_np_empty3, length_np_empty_int in Hb. fold bs N in Hb.
    pose proof (mapM_Ok_length _ _ _ Hs) as Hls.
    pose proof (mapM_Ok_length _ _ _ Hl) as Hll.
    pose proof (np_random_choice_Ok _ _ _ _ _ Ha1) as (Hsz & Hla & _).
    fold N in Hsz, Hls, Hll.
    assert (HN : N <= bs) by lia.
    assert (Hla' : length aug_ixs = bs - N) by lia.
    apply aug_loop_Ok in Ha3 as (aug_samples & aug_lbls & Has & Hal & _ & -> & ->).
    pose proof (mapM_Ok_length _ _ _ Has) as Hlas.
    pose proof (mapM_Ok_length _ _ _ Hal) as Hlal.
    unfold set_tail in Ha7.
    destruct (_ && _) eqn:Hcheck in Ha7; [|done].
    injection Ha7 as <-.
    apply andb_true_iff in Hcheck as [Hlen Hshapes].
    apply Nat.eqb_eq in Hlen.
    rewrite take_0 in Ht2. cbn [app Nat.add] in Ht2.
    rewrite drop_ge in Ht2 by (rewrite length_np_empty3; lia).
    rewrite app_nil_r in Ht2.
    rewrite take_0 in Hlen. cbn [app Nat.add] in Hlen.
    rewrite length_app, length_drop, length_np_empty3 in Hlen.
    fold N in Hlen.
    rewrite take_app_length' in Hn by done.
    rewrite !take_0 in Hcat. cbn [app Nat.add] in Hcat.
    rewrite Nat.add_0_r in Hcat.
    rewrite take_app_length' in Hcat by done.
    rewrite drop_ge in Hcat
      by (rewrite length_app, length_drop, length_np_empty_int; fold N; lia).
    rewrite app_nil_r in Hcat.
    exists samples, lbls, aug_ixs, g1, aug_samples, aug_lbls, t1, g2, toss, g3, tail.
    repeat split; try done. lia.
  - intros (samples & lbls & aug_ixs & g1 & aug_samples & aug_lbls & t1 & g2
            & toss & g3 & tail & Hs & Hl & Hc & Has & Hal & Ht1 & Htoss & Ht2
            & Hlt & Hsh & Hn & Hcat).
    pose proof (mapM_Ok_length _ _ _ Hs) as Hls.
    pose proof (mapM_Ok_length _ _ _ Hl) as Hll.
    pose proof (mapM_Ok_length _ _ _ Has) as Hlas.
    pose proof (mapM_Ok_length _ _ _ Hal) as Hlal.
    pose proof (np_random_choice_Ok _ _ _ _ _ Hc) as (Hsz & Hla & _).
    fold bs N in Hsz, Hla, Hls, Hll, Hlt, Hc.
    assert (HN : N <= bs) by lia.
    assert (Hla' : length aug_ixs = bs - N) by lia.
    rewrite (load_loop_is_Ok self _ _ 0 ixs samples lbls Hs Hl)
      by (rewrite ?length_np_empty3, ?length_np_empty_int; fold bs N; lia).
    rewrite bind_Ok_l. cbv beta iota. fold bs N. run Hc.
    rewrite (aug_loop_is_Ok self N _ _ 0 aug_ixs aug_samples aug_lbls Has Hal).
    2:{ rewrite length_np_empty3. lia. }
    2:{ rewrite length_app, length_take, length_app, length_drop,
          !length_np_empty_int. fold N. lia. }
    rewrite bind_Ok_l. cbv beta iota. run Ht1. run Htoss.
    rewrite !take_0. cbn [app Nat.add].
    rewrite (drop_ge (np_empty3 1 _ _ _)) by (rewrite length_np_empty3; lia).
    rewrite app_nil_r. run Ht2.
    unfold set_tail.
    rewrite length_app, length_drop, length_np_empty3. fold N.
    replace (length tail =? length samples + (bs - N) - N) with true
      by (symmetry; apply Nat.eqb_eq; lia).
    rewrite Hsh. cbn [andb]. rewrite !bind_Ok_l. cbv beta iota.
    rewrite !Nat.add_0_r.
    rewrite (take_app_length' samples) by done.
    rewrite (take_app_length' lbls) by done. run Hn.
    rewrite drop_ge
      by (rewrite length_app, length_drop, length_np_empty_int; fold N; lia).
    rewrite app_nil_r. by run Hcat.
Qed.

End DataGeneration.

(** ** Augmented batches *)

Section Augmentation.
Context {F : Type} {SF : Scalar F} {RS : RandomSource} {EF : Env F}.
Implicit Types (self : DataGenerator F) (g : rng).

Lemma second_transform_Ok self g toss aug_x tail g' :
  second_transform self g toss aug_x = Ok (tail, g') ->
  (toss = 1 /\ exists t2, random_choice g (aug_func self) = Ok (t2, g') /\
                          tail = t2 aug_x) \/
  (toss <> 1 /\ tail = aug_x /\ g' = g).
Proof.
  unfold second_transform. destruct (Nat.eqb_spec toss 1) as [->|Hne].
  - intros H. apply bind_Ok in H as ([t2 g2] & Hc & [= <- <-]).
    left. split; [done|]. by exists t2.
  - intros [= <- <-]. by right.
Qed.

(** C2. In augmented mode a call of [__getitem__] that returns yields
    exactly [batch_size] samples and labels. With [N] the number of selected
    indices: [batch_size - N] source indices are drawn without replacement
    from the selected ones, their samples (after the transforms) and labels
    follow the [N] loaded ones, one transform chosen from [aug_func] is
    applied to the whole tail, and a second, independently chosen one is
    applied exactly when the toss between 0 and 1 gives 1; when
    [N >= batch_size] the tail is empty. *)
Theorem augmented_batch self g (index : nat) X Y g' :
  augment self = true ->
  __getitem__ self g index = Ok (X, Y, g') ->
  length X = batch_size self /\
  length Y = batch_size self /\
  exists ixs g0 samples lbls aug_ixs g1 aug_samples aug_lbls t1 g2 toss g3 tail,
    select_indices self g index = Ok (ixs, g0) /\
    mapM (sample_of self) ixs = Ok samples /\
    mapM (label_of self) ixs = Ok lbls /\
    length ixs <= batch_size self /\
    np_random_choice g0 ixs
      (Z.of_nat (batch_size self) - Z.of_nat (length ixs)) = Ok (aug_ixs, g1) /\
    length aug_ixs = batch_size self - length ixs /\
    aug_ixs ⊆+ ixs /\
    mapM (sample_of self) aug_ixs = Ok aug_samples /\
    mapM (label_of self) aug_ixs = Ok aug_lbls /\
    random_choice g1 (aug_func self) = Ok (t1, g2) /\
    t1 ∈ aug_func self /\
    random_choice g2 [0; 1] = Ok (toss, g3) /\
    (toss = 0 \/ toss = 1) /\
    (toss = 1 ->
     exists t2, random_choice g3 (aug_func self) = Ok (t2, g') /\
                t2 ∈ aug_func self /\ tail = t2 (t1 aug_samples)) /\
    (toss = 0 -> tail = t1 aug_samples /\ g' = g3) /\
    length tail = batch_size self - length ixs /\
    (batch_size self <= length ixs -> tail = [] /\ aug_ixs = []) /\
    normalize self (samples ++ tail) = Ok X /\
    to_categorical (lbls ++ aug_lbls) (n_classes self) = Ok Y.
Proof.
  intros Haug H. unfold __getitem__ in H.
  apply bind_Ok in H as ([ixs g0] & Hsel & H).
  apply (data_generation_augmented _ _ _ _ _ _ Haug) in H
    as (samples & lbls & aug_ixs & g1 & aug_samples & aug_lbls & t1 & g2
        & toss & g3 & tail & Hs & Hl & Hc & Has & Hal & Ht1 & Htoss & Ht2
        & Hlt & Hsh & Hn & Hcat).
  pose proof (mapM_Ok_length _ _ _ Hs) as Hls.
  pose proof (mapM_Ok_length _ _ _ Hl) as Hll.
  pose proof (mapM_Ok_length _ _ _ Hal) as Hlal.
  pose proof (np_random_choice_Ok _ _ _ _ _ Hc) as (Hsz & Hla & Hsub).
  assert (HN : length ixs <= batch_size self) by lia.
  assert (Hla' : length aug_ixs = batch_size self - length ixs) by lia.
  pose proof (random_choice_Ok _ _ _ _ Htoss) as Hin.
  assert (Htoss01 : toss = 0 \/ toss = 1).
  { apply elem_of_cons in Hin as [->|Hin]; [by left|].
    apply elem_of_cons in Hin as [->|Hin]; [by right|].
    by apply elem_of_nil in Hin. }
  split; [|split].
  - apply normalize_length in Hn. rewrite Hn, length_app. lia.
  - apply to_categorical_length in Hcat. rewrite Hcat, length_app. lia.
  - exists ixs, g0, samples, lbls, aug_ixs, g1, aug_samples, aug_lbls, t1, g2,
      toss, g3, tail.
    apply second_transform_Ok in Ht2.
    split_and!; try done.
    + by eapply random_choice_Ok.
    + intros ->. destruct Ht2 as [(_ & t2 & Hc2 & ->)|(Hne & _)]; [|done].
      exists t2. split_and!; [done| |done]. by eapply random_choice_Ok.
    + intros ->. by destruct Ht2 as [(? & _)|(_ & -> & ->)].
    + intros Hge. split; apply length_zero_iff_nil; lia.
Qed.

End Augmentation.

(** ** Normalisation *)

Lemma has_shape_spec {A} (r c : nat) (a : list (list A)) :
  has_shape r c a = true <->
  length a = r /\ Forall (fun row => length row = c) a.
Proof.
  unfold has_shape. rewrite andb_true_iff, Nat.eqb_eq, forallb_forall.
  rewrite Forall_forall. split; intros [Hl Hr]; (split; [done|]).
  - intros row Hrow. apply Nat.eqb_eq, Hr. by apply list_elem_of_In.
  - intros row Hrow. apply Nat.eqb_eq, Hr. by apply list_elem_of_In.
Qed.

Lemma entry_is_Some {A} (r c : nat) (a : list (list A)) (j k : nat) :
  has_shape r c a = true -> (is_Some (entry a j k) <-> j < r /\ k < c).
Proof.
  intros [Hl Hrows]%has_shape_spec. unfold entry. split.
  - intros [v Hv]. destruct (a !! j) as [row|] eqn:Hj; [|done]. cbn in Hv.
    split.
    + apply lookup_lt_Some in Hj. lia.
    + apply lookup_lt_Some in Hv.
      rewrite Forall_forall in Hrows.
      rewrite <- (Hrows row); [done|]. by eapply list_elem_of_lookup_2.
  - intros [Hj Hk].
    destruct (lookup_lt_is_Some_2 a j) as [row Hrow]; [lia|].
    rewrite Hrow. cbn. apply lookup_lt_is_Some_2.
    rewrite Forall_forall in Hrows.
    rewrite (Hrows row); [done|]. by eapply list_elem_of_lookup_2.
Qed.

Lemma entry_map2_2d {A} (op : A -> A -> A) (a b : list (list A)) (j k : nat) :
  entry (map2_2d op a b) j k =
  x ← entry a j k; y ← entry b j k; Some (op x y).
Proof.
  unfold entry, map2_2d. rewrite lookup_zip_with.
  destruct (a !! j) as [ra|]; [|done]. cbn.
  destruct (b !! j) as [rb|]; cbn.
  - rewrite lookup_zip_with. by destruct (ra !! k).
  - by destruct (ra !! k).
Qed.

Section Normalisation.
Context {F : Type} {SF : Scalar F} {RS : RandomSource} {EF : Env F}.
Implicit Types (self : DataGenerator F) (g : rng).

Lemma entry_normalized (m s x : list (list F)) (j k : nat) :
  entry (normalized m s x) j k =
  v ← entry x j k; mu ← entry m j k; sd ← entry s j k;
  Some (f_div (f_sub v mu) sd).
Proof.
  unfold normalized. rewrite !entry_map2_2d.
  destruct (entry x j k); [|done]. cbn.
  destruct (entry m j k); [|done]. done.
Qed.

Lemma sample_of_shape self idx a :
  sample_of self idx = Ok a ->
  has_shape (seqlen self) (n_channels self) a = true.
Proof. intros H. apply sample_of_Ok in H as (_ & _ & _ & H). exact H. Qed.

Lemma samples_shape self ixs samples :
  mapM (sample_of self) ixs = Ok samples ->
  Forall (fun a => has_shape (seqlen self) (n_channels self) a = true) samples.
Proof.
  intros H. apply mapM_Ok_Forall2 in H.
  induction H as [|idx a ixs' samples' Ha _ IH]; constructor; [|done].
  by eapply sample_of_shape.
Qed.

Lemma data_generation_raw self g ixs X Y g' :
  __data_generation self g ixs = Ok (X, Y, g') <->
  exists X0, __data_generation (set_mean_std self None None) g ixs
               = Ok (X0, Y, g') /\
             normalize self X0 = Ok X.
Proof.
  unfold __data_generation. cbn [batch_size seqlen n_channels n_classes set_mean_std].
  rewrite (load_loop_frame (set_mean_std self None None) self)
    by apply same_sources_set_mean_std.
  destruct (load_loop self _ _ 0 ixs) as [[X1 y1]|e]; cbn.
  2:{ split; [done|]. by intros (X0 & [=] & _). }
  rewrite (augment_or_resize_frame (set_mean_std self None None) self)
    by apply same_sources_set_mean_std.
  destruct (augment_or_resize self g ixs X1 y1) as [[[X2 y2] g2]|e]; cbn.
  2:{ split; [done|]. by intros (X0 & [=] & _). }
  destruct (to_categorical y2 (n_classes self)) as [Y2|e]; cbn.
  - destruct (normalize self X2) as [X3|e] eqn:Hn; cbn.
    + split.
      * intros [= <- <- <-]. by exists X2.
      * intros (X0 & [= <- <- <-] & HX). rewrite Hn in HX. by injection HX as <-.
    + split; [done|]. intros (X0 & [= <- <- <-] & HX). by rewrite Hn in HX.
  - destruct (normalize self X2) as [X3|e']; cbn.
    + split; [done|]. by intros (X0 & [=] & _).
    + split; [done|]. by intros (X0 & [=] & _).
Qed.

(** Every sample of an unnormalised batch has the configured shape. *)
Lemma raw_batch_shapes self g ixs X Y g' :
  mean self = None ->
  __data_generation self g ixs = Ok (X, Y, g') ->
  Forall (fun a => has_shape (seqlen self) (n_channels self) a = true) X.
Proof.
  intros Hm H. destruct (augment self) eqn:Haug.
  - apply (data_generation_augmented _ _ _ _ _ _ Haug) in H
      as (samples & lbls & aug_ixs & g1 & aug_samples & aug_lbls & t1 & g2
          & toss & g3 & tail & Hs & _ & _ & _ & _ & _ & _ & _ & _ & Hsh & Hn & _).
    rewrite normalize_None in Hn by (by left). injection Hn as <-.
    apply Forall_app. split; [by eapply samples_shape|].
    rewrite forallb_forall in Hsh. apply Forall_forall.
    intros a Ha. apply Hsh. by apply list_elem_of_In.
  - apply (data_generation_plain _ _ _ _ _ _ Haug) in H
      as (samples & lbls & Hs & _ & _ & Hn & _).
    rewrite normalize_None in Hn by (by left). injection Hn as <-.
    by eapply samples_shape.
Qed.

(** C6. When [mean] and [std] are both set, the batch is the batch the same
    call yields without statistics, with every entry [v] at position [(j, k)]
    of every sample replaced by [(v - mean[j][k]) / std[j][k]]; when both are
    unset the batch holds the loaded arrays of the selected indices as they
    are (followed, in augmented mode, by the augmentation tail). *)
Theorem batch_normalisation self g (index : nat) X Y g' :
  __getitem__ self g index = Ok (X, Y, g') ->
  (forall m s,
     mean self = Some m -> std self = Some s ->
     exists X0,
       raw_getitem self g index = Ok (X0, Y, g') /\
       length X = length X0 /\
       forall b j k v,
         entry3 X0 b j k = Some v ->
         exists mu sd,
           entry m j k = Some mu /\ entry s j k = Some sd /\
           entry3 X b j k = Some (f_div (f_sub v mu) sd)) /\
  (mean self = None -> std self = None ->
   exists ixs g0 samples,
     select_indices self g index = Ok (ixs, g0) /\
     Forall2 (fun idx a =>
                exists fname, filenames self !! idx = Some fname /\
                              np_load fname = Some a) ixs samples /\
     take (length ixs) X = samples /\
     (augment self = false -> X = samples)).
Proof.
  intros H. unfold __getitem__ in H.
  apply bind_Ok in H as ([ixs g0] & Hsel & H). split.
  - intros m s Hm Hs.
    apply data_generation_raw in H as (X0 & HX0 & Hn).
    pose proof (raw_batch_shapes (set_mean_std self None None)
                  _ _ _ _ _ eq_refl HX0) as Hshapes.
    cbn [seqlen n_channels set_mean_std] in Hshapes.
    rewrite (normalize_Some _ m s) in Hn by done.
    destruct (has_shape _ _ m) eqn:Hshm; [|done].
    destruct (has_shape _ _ s) eqn:Hshs; [|done].
    injection Hn as <-.
    exists X0. split_and!.
    + unfold raw_getitem, __getitem__.
      rewrite select_indices_set_mean_std. by run Hsel.
    + by rewrite length_fmap.
    + intros b j k v Hv. unfold entry3 in *.
      rewrite list_lookup_fmap.
      destruct (X0 !! b) as [x0|] eqn:Hb; [|done]. cbn in Hv |- *.
      rewrite Forall_forall in Hshapes.
      assert (Hsh0 : has_shape (seqlen self) (n_channels self) x0 = true).
      { apply Hshapes. by eapply list_elem_of_lookup_2. }
      assert (Hjk : j < seqlen self /\ k < n_channels self).
      { apply (entry_is_Some _ _ x0); [done|]. by exists v. }
      destruct (proj2 (entry_is_Some _ _ m j k Hshm) Hjk) as [mu Hmu].
      destruct (proj2 (entry_is_Some _ _ s j k Hshs) Hjk) as [sd Hsd].
      exists mu, sd. split_and!; [done..|].
      rewrite entry_normalized, Hv, Hmu, Hsd. done.
  - intros Hm Hs. exists ixs, g0.
    assert (Hraw : forall samples, mapM (sample_of self) ixs = Ok samples ->
              Forall2 (fun idx a =>
                exists fname, filenames self !! idx = Some fname /\
                              np_load fname = Some a) ixs samples).
    { intros samples Hsamples. apply mapM_Ok_Forall2 in Hsamples.
      eapply Forall2_impl; [exact Hsamples|].
      intros idx a Ha. apply sample_of_Ok in Ha as (fname & ? & ? & _).
      by exists fname. }
    destruct (augment self) eqn:Haug.
    + apply (data_generation_augmented _ _ _ _ _ _ Haug) in H
        as (samples & lbls & aug_ixs & g1 & aug_samples & aug_lbls & t1 & g2
            & toss & g3 & tail & Hsm & _ & _ & _ & _ & _ & _ & _ & _ & _ & Hn & _).
      rewrite normalize_None in Hn by (by left). injection Hn as <-.
      exists samples. split_and!; [done|by apply Hraw| |done].
      apply take_app_length'. symmetry. by eapply mapM_Ok_length.
    + apply (data_generation_plain _ _ _ _ _ _ Haug) in H
        as (samples & lbls & Hsm & _ & _ & Hn & _).
      rewrite normalize_None in Hn by (by left). injection Hn as <-.
      exists samples. split_and!; [done|by apply Hraw| |done].
      rewrite take_ge; [done|]. apply mapM_Ok_length in Hsm. lia.
Qed.

End Normalisation.

(** ** The balanced selection *)

Section Balanced.
Context {F : Type} {SF : Scalar F} {RS : RandomSource} {EF : Env F}.
Implicit Types (self : DataGenerator F) (g : rng).

Lemma balanced_loop_Ok self cls_sz g ixs clss out g' :
  balanced_loop self cls_sz g ixs clss = Ok (out, g') ->
  exists picks,
    Forall2 (class_draw self cls_sz) clss picks /\
    out = ixs ++ concat picks.
Proof.
  revert g ixs. induction clss as [|cls rest IH]; intros g ixs H.
  - injection H as <- <-. exists []. split; [constructor|].
    by rewrite app_nil_r.
  - cbn in H.
    apply bind_Ok in H as (pool & Hpool & H).
    apply bind_Ok in H as ([pick g1] & Hpick & H).
    apply IH in H as (picks & Hpicks & ->).
    apply np_random_choice_Ok in Hpick as (Hsz & Hlen & Hsub).
    exists (pick :: picks). split.
    + constructor; [|done]. exists pool. split_and!; [done|lia|done|done].
    + cbn. by rewrite app_assoc.
Qed.

(** The loop fails with [ValueError] as soon as one of its pools is smaller
    than the class size. *)
Lemma balanced_loop_short self cls_sz g ixs clss cls pool :
  cls ∈ clss ->
  class_pool self cls = Ok pool ->
  (Z.of_nat (length pool) < cls_sz)%Z ->
  balanced_loop self cls_sz g ixs clss = Raise ValueError.
Proof.
  intros Hin Hpool Hshort.
  assert (Hlen : length (labels self) = length (filenames self)).
  { destruct (decide (length (labels self) = length (filenames self)))
      as [|Hne]; [done|].
    rewrite class_pool_Raise in Hpool by done. done. }
  revert g ixs. induction clss as [|c rest IH]; intros g ixs.
  { by apply elem_of_nil in Hin. }
  cbn. rewrite (class_pool_Ok self c Hlen). rewrite bind_Ok_l.
  destruct (np_random_choice g (indices_labelled self c) cls_sz)
    as [[pick g1]|e] eqn:Hc.
  - rewrite bind_Ok_l. cbv beta iota.
    apply elem_of_cons in Hin as [->|Hin]; [|by apply IH].
    apply np_random_choice_Ok in Hc as (Hsz & _).
    rewrite (class_pool_Ok self c Hlen) in Hpool. injection Hpool as <-. lia.
  - apply np_random_choice_Raise in Hc as [-> _]. done.
Qed.


(** What a successful balanced selection returns. *)
Lemma balanced_indices_Ok self g ixs g' :
  balanced_indices self g = Ok (ixs, g') ->
  exists cls_sz picks shuffled,
    class_size self = Ok cls_sz /\
    Forall2 (class_draw self cls_sz) (seq 0 (length (classes self))) picks /\
    shuffled ≡ₚ concat picks /\
    ixs = take (batch_size self) shuffled.
Proof.
  unfold balanced_indices. intros H.
  apply bind_Ok in H as (cls_sz & Hsz & H).
  apply bind_Ok in H as ([out g1] & Hloop & H).
  destruct (random_shuffle g1 out) as [shuffled g2] eqn:Hsh.
  injection H as <- <-.
  apply balanced_loop_Ok in Hloop as (picks & Hpicks & ->).
  apply random_shuffle_Permutation in Hsh.
  exists cls_sz, picks, shuffled. by split_and!.
Qed.

(** The class size of lines 50-53 is the ceiling of
    [batch_size / ((1 + aug_factor) * n_classes)]. *)
Lemma class_size_ceiling self :
  0 < n_classes self ->
  (0 < 1 + aug_factor self)%Q ->
  (augment self = true -> (0 < aug_factor self)%Q) ->
  exists c : Z,
    class_size self = Ok c /\
    (Q_of_nat (batch_size self)
       <= inject_Z c * ((1 + aug_factor self) * Q_of_nat (n_classes self)))%Q /\
    forall m : Z,
      (Q_of_nat (batch_size self)
         <= inject_Z m * ((1 + aug_factor self) * Q_of_nat (n_classes self)))%Q ->
      (c <= m)%Z.
Proof.
  intros Hn Ha Hassert. unfold class_size.
  assert (Hpass : (if augment self
                   then if Qlt_bool 0 (aug_factor self)
                        then Ok () else Raise AssertionError
                   else Ok ()) = Ok ()).
  { destruct (augment self); [|done].
    by rewrite (proj2 (Qlt_bool_iff _ _) (Hassert eq_refl)). }
  rewrite Hpass, bind_Ok_l.
  set (a := (1 + aug_factor self)%Q) in *.
  set (bs := Q_of_nat (batch_size self)).
  set (nc := Q_of_nat (n_classes self)).
  assert (Hnc : (0 < nc)%Q) by (by apply Q_of_nat_pos).
  assert (Ha0 : ~ (a == 0)%Q).
  { intros E. rewrite E in Ha. exact (Qlt_irrefl 0 Ha). }
  assert (Hnc0 : ~ (nc == 0)%Q).
  { intros E. rewrite E in Hnc. exact (Qlt_irrefl 0 Hnc). }
  unfold truediv, floordiv.
  rewrite (proj2 (Qeq_bool_false _ _) Ha0), bind_Ok_l.
  rewrite (proj2 (Qeq_bool_false _ _) Hnc0), bind_Ok_l.
  assert (Hy : (0 < a * nc)%Q).
  { rewrite <- (Qmult_0_l nc). by apply Qmult_lt_compat_r. }
  assert (Hq : (bs / a / nc == bs / (a * nc))%Q) by (by field).
  rewrite (Qfloor_comp _ _ Hq).
  set (q := Qfloor (bs / (a * nc))).
  set (short := Qlt_bool _ _).
  assert (Hshort : short = true <-> (inject_Z q * (a * nc) < bs)%Q).
  { unfold short. rewrite Qlt_bool_iff. by rewrite Qmult_assoc. }
  pose proof (floor_bump_is_ceiling bs (a * nc) short Hy Hshort) as Hc.
  cbv zeta in Hc. fold q in Hc.
  destruct short; eexists; (split; [reflexivity|exact Hc]).
Qed.

End Balanced.

(** ** Calls that return *)

Lemma one_hot_valid (n : nat) (l : Z) :
  (0 <= l < Z.of_nat n)%Z -> one_hot n l = Ok (one_hot_row n l).
Proof.
  intros Hl. unfold one_hot, one_hot_row.
  destruct (Z.leb_spec (- Z.of_nat n) l); [|lia].
  destruct (Z.ltb_spec l (Z.of_nat n)); [|lia]. cbn.
  by rewrite Z.mod_small by lia.
Qed.

Lemma to_categorical_valid (y : list Z) (n : nat) :
  Forall (fun l => (0 <= l < Z.of_nat n)%Z) y ->
  (y = [] -> 0 < n) ->
  to_categorical y n = Ok (one_hot_row n <$> y).
Proof.
  intros Hy Hn. unfold to_categorical. destruct n as [|n].
  - destruct y as [|l y]; [specialize (Hn eq_refl); lia|].
    apply Forall_cons in Hy as [Hl _]. lia.
  - rewrite bind_Ok_l. apply mapM_Ok_fmap. intros l Hl.
    rewrite Forall_forall in Hy. by apply one_hot_valid, Hy.
Qed.

Section Totality.
Context {F : Type} {SF : Scalar F} {RS : RandomSource} {EF : Env F}.
Implicit Types (self : DataGenerator F) (g : rng).

Lemma sample_of_is_Ok self idx :
  loader_ok self = true ->
  idx < length (filenames self) ->
  exists a, sample_of self idx = Ok a.
Proof.
  intros Hok Hidx. unfold loader_ok in Hok. rewrite forallb_forall in Hok.
  destruct (lookup_lt_is_Some_2 (filenames self) idx Hidx) as [fname Hf].
  specialize (Hok fname).
  destruct (np_load fname) as [a|] eqn:Hl.
  - exists a. apply sample_of_Ok. exists fname. split_and!; [done..|].
    apply Hok. apply list_elem_of_In. by eapply list_elem_of_lookup_2.
  - exfalso. assert (false = true); [|done].
    apply Hok. apply list_elem_of_In. by eapply list_elem_of_lookup_2.
Qed.

Lemma samples_of_is_Ok self ixs :
  loader_ok self = true ->
  Forall (fun idx => idx < length (filenames self)) ixs ->
  exists samples, mapM (sample_of self) ixs = Ok samples.
Proof.
  intros Hok. induction 1 as [|idx ixs Hidx _ [samples IH]].
  - by exists [].
  - destruct (sample_of_is_Ok self idx Hok Hidx) as [a Ha].
    exists (a :: samples). by apply mapM_cons_Ok.
Qed.

Lemma labels_of_is_Ok self ixs :
  Forall (fun idx => idx < length (labels self)) ixs ->
  mapM (label_of self) ixs = Ok (label_at self <$> ixs).
Proof.
  intros Hixs. apply mapM_Ok_fmap. intros idx Hidx.
  rewrite Forall_forall in Hixs. specialize (Hixs idx Hidx).
  unfold label_of, getitem, label_at.
  destruct (lookup_lt_is_Some_2 (labels self) idx Hixs) as [l Hl].
  by rewrite Hl.
Qed.

End Totality.

(** ** The labels of a balanced batch *)

Section BalancedLabels.
Context {F : Type} {SF : Scalar F} {RS : RandomSource} {EF : Env F}.
Implicit Types (self : DataGenerator F) (g : rng).

Lemma class_pool_Ok_inv self cls pool :
  class_pool self cls = Ok pool ->
  length (labels self) = length (filenames self) /\
  pool = indices_labelled self cls.
Proof.
  intros H.
  destruct (decide (length (labels self) = length (filenames self)))
    as [Hlen|Hne].
  - rewrite (class_pool_Ok self cls Hlen) in H. by injection H as <-.
  - by rewrite class_pool_Raise in H.
Qed.

Lemma class_draw_elem self cls_sz cls pick idx :
  class_draw self cls_sz cls pick -> idx ∈ pick ->
  idx < length (filenames self) /\ idx < length (labels self) /\
  label_at self idx = Z.of_nat cls.
Proof.
  intros (pool & Hpool & _ & _ & Hsub) Hidx.
  apply class_pool_Ok_inv in Hpool as [Hlen ->].
  pose proof (elem_of_submseteq _ _ _ Hidx Hsub) as Hin.
  apply elem_of_indices_labelled in Hin as [Hl Hlt].
  split_and!; [done|lia|]. unfold label_at. by rewrite Hl.
Qed.

Lemma class_draws_labels self cls_sz clss picks :
  Forall2 (class_draw self cls_sz) clss picks ->
  label_at self <$> concat picks
    = concat ((fun cls : nat => replicate (Z.to_nat cls_sz) (Z.of_nat cls))
                <$> clss) /\
  Forall (fun idx => idx < length (filenames self) /\
                     idx < length (labels self)) (concat picks) /\
  length (concat picks) = Z.to_nat cls_sz * length clss.
Proof.
  induction 1 as [|cls pick clss picks Hdraw _ (IH1 & IH2 & IH3)]; [done|].
  cbn [concat fmap list_fmap length].
  change (list_fmap nat (list Z) ?f clss) with (f <$> clss).
  pose proof Hdraw as (_ & _ & _ & Hlen & _).
  split_and!.
  - rewrite fmap_app, IH1. f_equal. rewrite <- Hlen.
    apply const_fmap. intros i idx Hi.
    eapply class_draw_elem; [done|]. by eapply list_elem_of_lookup_2.
  - apply Forall_app. split; [|done]. apply Forall_forall. intros idx Hidx.
    by destruct (class_draw_elem _ _ _ _ _ Hdraw Hidx) as (? & ? & _).
  - rewrite length_app, IH3, Hlen. lia.
Qed.

(** When the class sizes add up to at most [batch_size], the labels of a
    balanced selection are [cls_sz] copies of every positional class number,
    in some order. *)
Lemma balanced_indices_labels self g ixs g' cls_sz :
  balanced_indices self g = Ok (ixs, g') ->
  class_size self = Ok cls_sz ->
  Z.to_nat cls_sz * length (classes self) <= batch_size self ->
  label_at self <$> ixs
    ≡ₚ balanced_labels (Z.to_nat cls_sz) (length (classes self)) /\
  Forall (fun idx => idx < length (filenames self) /\
                     idx < length (labels self)) ixs /\
  length ixs = Z.to_nat cls_sz * length (classes self).
Proof.
  intros H Hsz Hfit.
  apply balanced_indices_Ok in H
    as (cls_sz' & picks & shuffled & Hsz' & Hpicks & Hperm & ->).
  rewrite Hsz in Hsz'. injection Hsz' as <-.
  apply class_draws_labels in Hpicks as (Hl & Hv & Hlen).
  rewrite length_seq in Hlen.
  assert (Hls : length shuffled = Z.to_nat cls_sz * length (classes self)).
  { by rewrite Hperm. }
  rewrite take_ge by lia. split_and!; [|by rewrite Hperm|done].
  rewrite Hperm, Hl. done.
Qed.

End BalancedLabels.

(** ** The balanced mode: class size, draws and the ten-sample scenario *)

Section BalancedMode.
Context {F : Type} {SF : Scalar F} {RS : RandomSource} {EF : Env F}.
Implicit Types (self : DataGenerator F) (g : rng).



End BalancedMode.

(** ** The balanced mode: failures, the batch index and the pools *)

Section BalancedClaims.
Context {F : Type} {SF : Scalar F} {RS : RandomSource} {EF : Env F}.
Implicit Types (self : DataGenerator F) (g : rng).

(** C8. In balanced mode, when the pool of one of the positional class
    numbers holds fewer indices than the class size, [__getitem__] raises the
    [ValueError] of the draw without replacement, whatever the batch index
    and the state of the random source: the quota is not cut and no index is
    drawn twice instead. *)
Theorem balanced_insufficient_population self g (index : nat) cls_sz cls pool :
  balance self = true ->
  class_size self = Ok cls_sz ->
  cls < length (classes self) ->
  class_pool self cls = Ok pool ->
  (Z.of_nat (length pool) < cls_sz)%Z ->
  __getitem__ self g index = Raise ValueError.
Proof.
  intros Hbal Hsz Hcls Hpool Hshort.
  unfold __getitem__, select_indices, balanced_indices.
  rewrite Hbal. cbn [negb]. run Hsz.
  rewrite (balanced_loop_short self cls_sz g [] _ cls pool); [done| |done..].
  apply elem_of_seq. lia.
Qed.

(** C10. The pool of the positional class number [cls] holds the indices
    whose label equals [cls]; the values in [classes] are not consulted, only
    their number; when every label is one of the numbers
    [0 .. len(classes) - 1] the pools split the dataset by label; and an
    index whose label is not one of these numbers is in no pool. *)
Theorem pools_by_position self :
  length (labels self) = length (filenames self) ->
  (forall cls i,
     class_pool self cls = Ok (indices_labelled self cls) /\
     (i ∈ indices_labelled self cls <->
      labels self !! i = Some (Z.of_nat cls))) /\
  (forall cs g (index : nat),
     balance self = true ->
     length cs = length (classes self) ->
     __getitem__ (set_classes self cs) g index = __getitem__ self g index) /\
  (Forall (fun l => (0 <= l < Z.of_nat (length (classes self)))%Z)
          (labels self) ->
   exists pools,
     class_pools self = Ok pools /\
     concat pools ≡ₚ seq 0 (length (filenames self)) /\
     forall i l, labels self !! i = Some l ->
       exists pool, pools !! Z.to_nat l = Some pool /\ i ∈ pool) /\
  (forall i l cls,
     labels self !! i = Some l ->
     ~ (0 <= l < Z.of_nat (length (classes self)))%Z ->
     cls < length (classes self) ->
     i ∉ indices_labelled self cls).
Proof.
  intros Hlen. split_and!.
  - intros cls i. split; [by apply class_pool_Ok|].
    rewrite elem_of_indices_labelled. split; [by intros [? _]|].
    intros Hl. split; [done|]. apply lookup_lt_Some in Hl. lia.
  - intros cs g index Hbal Hcs.
    apply getitem_balanced_frame; [|done].
    by apply same_up_to_epoch_set_classes.
  - intros Hvalid. exists (indices_labelled self <$> seq 0 (length (classes self))).
    split_and!.
    + by apply class_pools_Ok.
    + rewrite pools_split.
      assert (Hall : filter (fun i => positional (length (classes self))
                                        (labels self !! i))
                            (seq 0 (length (filenames self)))
                     = seq 0 (length (filenames self))).
      { apply filter_all. intros i Hi. apply elem_of_seq in Hi.
        destruct (lookup_lt_is_Some_2 (labels self) i) as [l Hl]; [lia|].
        rewrite Hl. cbn. rewrite Forall_forall in Hvalid.
        apply Hvalid. by eapply list_elem_of_lookup_2. }
      by rewrite Hall.
    + intros i l Hl.
      rewrite Forall_forall in Hvalid.
      assert (Hr : (0 <= l < Z.of_nat (length (classes self)))%Z).
      { apply Hvalid. by eapply list_elem_of_lookup_2. }
      exists (indices_labelled self (Z.to_nat l)). split.
      * rewrite list_lookup_fmap, lookup_seq_lt by lia. done.
      * apply elem_of_indices_labelled. rewrite Z2Nat.id by lia.
        split; [done|]. apply lookup_lt_Some in Hl. lia.
  - intros i l cls Hl Hout Hcls Hin.
    apply elem_of_indices_labelled in Hin as [Hl' _].
    rewrite Hl in Hl'. injection Hl' as ->. lia.
Qed.

End BalancedClaims.

(** ** The windowed mode *)



Section Windowed.
Context {F : Type} {SF : Scalar F} {RS : RandomSource} {EF : Env F}.
Implicit Types (self : DataGenerator F) (g : rng).



Lemma samples_of_valid self ixs :
  loader_ok self = true ->
  Forall (fun idx => idx < length (filenames self)) ixs ->
  mapM (sample_of self) ixs = Ok (sample_at self <$> ixs).
Proof.
  intros Hok Hixs. apply mapM_Ok_fmap. intros idx Hidx.
  rewrite Forall_forall in Hixs.
  destruct (sample_of_is_Ok self idx Hok (Hixs idx Hidx)) as [a Ha].
  unfold sample_at. by rewrite Ha.
Qed.

Lemma normalize_valid self X :
  stats_ok self = true ->
  normalize self X = Ok (normalized_sample self <$> X).
Proof.
  unfold stats_ok, normalized_sample. intros Hok.
  destruct (mean self) as [m|] eqn:Hm.
  - destruct (std self) as [s|] eqn:Hs.
    + rewrite (normalize_Some self m s) by done. by rewrite Hok.
    + rewrite normalize_None by (by right). by rewrite list_fmap_id.
  - rewrite normalize_None by (by left).
    replace (fun x : list (list F) =>
               match std self with Some _ | _ => x end) with (@id (list (list F))).
    + by rewrite list_fmap_id.
    + by destruct (std self).
Qed.


End Windowed.

(** ** Augmented calls that return *)

Section AugmentedReturns.
Context {F : Type} {SF : Scalar F} {RS : RandomSource} {EF : Env F}.
Implicit Types (self : DataGenerator F) (g : rng).

(** Augmented calls do return: with a well-formed dataset and transforms
    that keep the shape, [__data_generation] succeeds on every selection of
    valid indices that fills at least half of the batch and at most the
    batch. *)
Lemma data_generation_augmented_returns self g ixs :
  augment self = true ->
  transforms_ok self ->
  dataset_ok self ->
  Forall (fun idx => idx < length (filenames self)) ixs ->
  length ixs <= batch_size self <= 2 * length ixs ->
  0 < n_classes self ->
  exists X Y g',
    __data_generation self g ixs = Ok (X, Y, g') /\
    length X = batch_size self.
Proof.
  intros Haug [Hne Htr] (Hload & Hstats & Hlen & Hlabels) Hixs HN Hnc.
  destruct (np_random_choice_is_Ok g ixs
              (Z.of_nat (batch_size self) - Z.of_nat (length ixs)))
    as (aug_ixs & g1 & Hc); [lia|].
  pose proof (np_random_choice_Ok _ _ _ _ _ Hc) as (_ & Hla & Hsub).
  assert (Haixs : Forall (fun idx => idx < length (filenames self)) aug_ixs).
  { rewrite Forall_forall in Hixs. apply Forall_forall. intros idx Hidx.
    apply Hixs. by eapply elem_of_submseteq. }
  assert (Hs : mapM (sample_of self) ixs = Ok (sample_at self <$> ixs))
    by (by apply samples_of_valid).
  assert (Has : mapM (sample_of self) aug_ixs = Ok (sample_at self <$> aug_ixs))
    by (by apply samples_of_valid).
  assert (Hl : mapM (label_of self) ixs = Ok (label_at self <$> ixs))
    by (apply labels_of_is_Ok; by rewrite Hlen).
  assert (Hal : mapM (label_of self) aug_ixs = Ok (label_at self <$> aug_ixs))
    by (apply labels_of_is_Ok; by rewrite Hlen).
  destruct (random_choice_is_Ok g1 (aug_func self) Hne) as (t1 & g2 & Ht1).
  destruct (random_choice_is_Ok g2 [0; 1]) as (toss & g3 & Htoss); [done|].
  assert (Hsh0 : forallb (has_shape (seqlen self) (n_channels self))
                         (sample_at self <$> aug_ixs) = true).
  { apply forallb_forall. intros a Ha%list_elem_of_In.
    pose proof (samples_shape self _ _ Has) as Hall.
    rewrite Forall_forall in Hall. by apply Hall. }
  destruct (Htr t1 _ (random_choice_Ok _ _ _ _ Ht1) Hsh0) as [Hlt1 Hsh1].
  assert (exists tail g4,
            second_transform self g3 toss (t1 (sample_at self <$> aug_ixs))
              = Ok (tail, g4) /\
            length tail = length aug_ixs /\
            forallb (has_shape (seqlen self) (n_channels self)) tail = true)
    as (tail & g4 & Ht2 & Hlt & Hsht).
  { unfold second_transform. destruct (toss =? 1).
    - destruct (random_choice_is_Ok g3 (aug_func self) Hne) as (t2 & g4 & Ht2).
      destruct (Htr t2 _ (random_choice_Ok _ _ _ _ Ht2) Hsh1) as [Hlt2 Hsh2].
      exists (t2 (t1 (sample_at self <$> aug_ixs))), g4.
      rewrite Ht2, bind_Ok_l. split_and!; [done| |done].
      by rewrite Hlt2, Hlt1, length_fmap.
    - exists (t1 (sample_at self <$> aug_ixs)), g3.
      split_and!; [done| |done]. by rewrite Hlt1, length_fmap. }
  eexists _, _, g4. split.
  - apply (data_generation_augmented _ _ _ _ _ _ Haug).
    exists (sample_at self <$> ixs), (label_at self <$> ixs), aug_ixs, g1,
      (sample_at self <$> aug_ixs), (label_at self <$> aug_ixs), t1, g2,
      toss, g3, tail.
    split_and!; [done..|lia|done| |].
    + by apply normalize_valid.
    + apply to_categorical_valid; [|lia].
      rewrite <- fmap_app. apply Forall_fmap, Forall_forall.
      intros idx Hidx. cbn. unfold label_at.
      assert (Hlt' : idx < length (labels self)).
      { rewrite Hlen. apply elem_of_app in Hidx as [Hidx|Hidx].
        - rewrite Forall_forall in Hixs. by apply Hixs.
        - rewrite Forall_forall in Haixs. by apply Haixs. }
      destruct (lookup_lt_is_Some_2 (labels self) idx Hlt') as [l Hlk].
      rewrite Hlk. cbn. rewrite Forall_forall in Hlabels.
      apply Hlabels. by eapply list_elem_of_lookup_2.
  - rewrite length_fmap, length_app, length_fmap. lia.
Qed.

End AugmentedReturns.

(** ** One epoch of the windowed mode *)

Section Epoch.
Context {F : Type} {SF : Scalar F} {RS : RandomSource} {EF : Env F}.
Implicit Types (self : DataGenerator F) (g : rng).







End Epoch.

(** ** The batch index and the epoch state in balanced mode *)

(** C9. In balanced mode [__getitem__] reads neither the batch index nor the
    epoch permutation: on one state of the random source every index yields
    the same batch, before and after [on_epoch_end], whatever the shuffle
    flag and the permutation. So within one epoch a sample can be served
    several times and another not at all: in the epoch of the twelve-sample
    dataset started at state 0, sample 0 is in the first and in the third
    batch and sample 2 is in none. *)
Theorem balanced_ignores_index_and_epoch :
  (forall (F : Type) (SF : Scalar F) (RS : RandomSource) (EF : Env F)
          (self : DataGenerator F) (g : rng) (i j : nat),
     balance self = true ->
     __getitem__ self g i = __getitem__ self g j /\
     (forall g0, __getitem__ (on_epoch_end self g0).1 g i
                 = __getitem__ self g i) /\
     (forall b ix, __getitem__ (set_indices (set_shuffle self b) ix) g i
                   = __getitem__ self g i)) /\
  (exists X0 Y0 X1 Y1 X2 Y2 g',
     @epoch Q Q_scalar rot_source (table_env twelve_files) twelve_generator 0
       = Ok ([(X0, Y0); (X1, Y1); (X2, Y2)], g') /\
     np_load (Env := table_env twelve_files) "a" = Some [[0%Q]] /\
     np_load (Env := table_env twelve_files) "c" = Some [[2%Q]] /\
     ([[0%Q]] ∈ X0) /\ ([[0%Q]] ∈ X2) /\
     ([[2%Q]] ∉ X0) /\ ([[2%Q]] ∉ X1) /\ ([[2%Q]] ∉ X2)).
Proof.
  split.
  - intros F SF RS EF self g i j Hbal. split_and!.
    + apply getitem_balanced_frame; [|done].
      split; [apply same_sources_refl|done].
    + intros g0. apply getitem_balanced_frame.
      * apply same_up_to_epoch_on_epoch_end.
      * by destruct (same_up_to_epoch_on_epoch_end self g0)
          as [(_ & _ & _ & _ & _ & _ & _ & _ & _ & _ & _ & ->) _].
    + intros b ix. apply getitem_balanced_frame; [|done].
      by repeat split.
  - do 7 eexists. split; [vm_compute; reflexivity|].
    split_and!;
      [reflexivity|reflexivity
      |repeat first [apply list_elem_of_here|apply list_elem_of_further]
      |repeat first [apply list_elem_of_here|apply list_elem_of_further]
      |..];
      intros H;
      repeat (apply elem_of_cons in H as [H|H]; [discriminate|]);
      by apply elem_of_nil in H.
Qed.

(** ** [fit] on identical samples *)

(** C1, at its own example. On four files holding the sample [[1, 2]], with
    fresh buffers holding zeros, [fit] returns that sample as mean and
    [[9, 36]] as std: the second pass subtracts the running sum [[4, 8]] of
    the first pass, not the mean. *)
Theorem fit_identical_samples :
  exists self',
    @fit Q Q_scalar (table_env identical_files) identical_generator
      = Ok (self', ([[1; 2]]%Q, [[9; 36]]%Q)) /\
    mean self' = Some [[1; 2]]%Q /\
    std self' = Some [[9; 36]]%Q /\
    Forall (fun fname =>
              np_load (Env := table_env identical_files) fname
              = Some [[1; 2]]%Q)
           (filenames identical_generator).
Proof.
  eexists. split; [vm_compute; reflexivity|].
  split_and!; [reflexivity|reflexivity|].
  repeat constructor.
Qed.

(** ** The windowed mode with an idle augmentation fraction *)


(** ** The theorems at concrete datasets *)


(** The assertion with an augmentation fraction of 0 and of 1/2. *)
Lemma balanced_augment_assertion_witness :
  balance (balanced_augmented_generator 0) = true /\
  augment (balanced_augmented_generator 0) = true /\
  @__getitem__ Q Q_scalar rot_source (table_env ten_files)
    (balanced_augmented_generator 0) 0 0 = Raise AssertionError /\
  @__getitem__ Q Q_scalar rot_source (table_env ten_files)
    (balanced_augmented_generator (1 # 2)) 0 0 <> Raise AssertionError.
Proof.
  split_and!; [reflexivity|reflexivity| |].
  - apply (balanced_augment_assertion (SF := Q_scalar) (RS := rot_source)
             (EF := table_env ten_files)
             (balanced_augmented_generator 0) 0 0 eq_refl eq_refl).
    apply Qlt_irrefl.
  - apply (balanced_augment_assertion (SF := Q_scalar) (RS := rot_source)
             (EF := table_env ten_files)
             (balanced_augmented_generator (1 # 2)) 0 0 eq_refl eq_refl).
    reflexivity.
Defined.

(** The last batch of the augmented ten-sample dataset: two loaded samples
    and a tail of two. *)
Lemma augmented_batch_witness :
  exists X Y g',
    augment augmented_generator = true /\
    @__getitem__ Q Q_scalar rot_source (table_env ten_files)
      augmented_generator 0 2 = Ok (X, Y, g') /\
    length X = batch_size augmented_generator /\
    length Y = batch_size augmented_generator.
Proof.
  exists [const_sample 5 2 8; const_sample 5 2 9;
          const_sample 5 2 9; const_sample 5 2 8]%Q,
         [[0; 1]; [0; 1]; [0; 1]; [0; 1]]%Z, 3.
  assert (Hg : @__getitem__ Q Q_scalar rot_source (table_env ten_files)
                 augmented_generator 0 2
               = Ok ([const_sample 5 2 8; const_sample 5 2 9;
                      const_sample 5 2 9; const_sample 5 2 8]%Q,
                     [[0; 1]; [0; 1]; [0; 1]; [0; 1]]%Z, 3))
    by (vm_compute; reflexivity).
  destruct (augmented_batch (SF := Q_scalar) (RS := rot_source)
              (EF := table_env ten_files)
              augmented_generator 0 2 _ _ _ eq_refl Hg) as (HX & HY & _).
  exact (conj eq_refl (conj Hg (conj HX HY))).
Defined.

(** The last batch of the normalised ten-sample dataset: the entry 8 of
    sample 8 becomes (8 - 1) / 2. *)
Lemma batch_normalisation_witness :
  exists X Y X0,
    @__getitem__ Q Q_scalar rot_source (table_env ten_files)
      normalized_generator 0 2 = Ok (X, Y, 0) /\
    @raw_getitem Q Q_scalar rot_source (table_env ten_files)
      normalized_generator 0 2 = Ok (X0, Y, 0) /\
    entry3 X0 0 0 0 = Some 8%Q /\
    entry3 X 0 0 0 = Some (7 # 2)%Q.
Proof.
  exists [const_sample 5 2 (7 # 2); const_sample 5 2 4]%Q,
         [[0; 1]; [0; 1]]%Z.
  assert (Hg : @__getitem__ Q Q_scalar rot_source (table_env ten_files)
                 normalized_generator 0 2
               = Ok ([const_sample 5 2 (7 # 2); const_sample 5 2 4]%Q,
                     [[0; 1]; [0; 1]]%Z, 0))
    by (vm_compute; reflexivity).
  destruct (proj1 (batch_normalisation (SF := Q_scalar) (RS := rot_source)
                     (EF := table_env ten_files)
                     normalized_generator 0 2 _ _ _ Hg)
                  _ _ eq_refl eq_refl) as (X0 & Hraw & _ & _).
  exists X0. split_and!; [exact Hg|exact Hraw| |reflexivity].
  vm_compute in Hraw. injection Hraw as <-. reflexivity.
Defined.

(** A class of one sample against a class size of two. *)
Lemma balanced_insufficient_population_witness :
  balance short_class_generator = true /\
  class_size short_class_generator = Ok 2%Z /\
  1 < length (classes short_class_generator) /\
  class_pool short_class_generator 1 = Ok [3] /\
  (Z.of_nat (length [3]) < 2)%Z /\
  @__getitem__ Q Q_scalar rot_source (table_env four_files)
    short_class_generator 0 0 = Raise ValueError.
Proof.
  assert (H2 : class_size short_class_generator = Ok 2%Z)
    by (vm_compute; reflexivity).
  assert (H3 : 1 < length (classes short_class_generator)) by (cbn; lia).
  assert (H4 : class_pool short_class_generator 1 = Ok [3])
    by (vm_compute; reflexivity).
  assert (H5 : (Z.of_nat (length [3]) < 2)%Z) by reflexivity.
  split_and!; [reflexivity|exact H2|exact H3|exact H4|exact H5|].
  exact (balanced_insufficient_population (SF := Q_scalar) (RS := rot_source)
           (EF := table_env four_files)
           short_class_generator 0 0 2 1 [3] eq_refl H2 H3 H4 H5).
Defined.

(** The pool of class 1 in the ten-sample scenario. *)
Lemma pools_by_position_witness :
  length (labels scenario_generator) = length (filenames scenario_generator) /\
  class_pool scenario_generator 1 = Ok (indices_labelled scenario_generator 1) /\
  indices_labelled scenario_generator 1 = [5; 6; 7; 8; 9].
Proof.
  split_and!; [reflexivity| |reflexivity].
  exact (proj1 (proj1 (pools_by_position (SF := Q_scalar) (RS := rot_source)
                         (EF := table_env ten_files)
                         scenario_generator eq_refl) 1 0)).
Defined.


(** Batch 0 and batch 2 of the twelve-sample dataset on one state. *)
Lemma balanced_ignores_index_and_epoch_witness :
  balance twelve_generator = true /\
  @__getitem__ Q Q_scalar rot_source (table_env twelve_files)
    twelve_generator 0 0
  = @__getitem__ Q Q_scalar rot_source (table_env twelve_files)
      twelve_generator 0 2.
Proof.
  split; [reflexivity|].
  exact (proj1 (proj1 balanced_ignores_index_and_epoch
                  Q Q_scalar rot_source (table_env twelve_files)
                  twelve_generator 0 0 2 eq_refl)).
Defined.


(** * Further properties of the code *)

(** ** [__len__]: the batch size as divisor *)

Section LengthEdges.
Context {F : Type} {SF : Scalar F} {RS : RandomSource} {EF : Env F}.
Implicit Types (self : DataGenerator F) (g : rng).


(** X2. Without an augmentation fraction [__len__] is the integer ceiling
    division [(len(filenames) + batch_size - 1) // batch_size]. *)
Theorem len_integer_ceiling self :
  0 < batch_size self ->
  (aug_factor self == 0)%Q ->
  __len__ self
  = Ok ((Z.of_nat (length (filenames self)) + Z.of_nat (batch_size self) - 1)
          / Z.of_nat (batch_size self))%Z.
Proof.
  intros Hbs Hzero.
  destruct (len_ceiling self Hbs) as (n & Hn & Hcover & Hleast).
  rewrite Hn. f_equal.
  set (L := Z.of_nat (length (filenames self))) in *.
  set (B := Z.of_nat (batch_size self)) in *.
  assert (HB : (0 < B)%Z) by (unfold B; lia).
  assert (He : (epoch_samples self == inject_Z L)%Q).
  { unfold epoch_samples, Q_of_nat. fold L. rewrite Hzero. ring. }
  assert (Hc : forall m : Z,
             (epoch_samples self <= inject_Z m * Q_of_nat (batch_size self))%Q
             <-> (L <= m * B)%Z).
  { intros m. rewrite He. unfold Q_of_nat. fold B.
    by rewrite <- inject_Z_mult, <- Zle_Qle. }
  apply Hc in Hcover.
  set (c := ((L + B - 1) / B)%Z).
  assert (Hc1 : (L <= c * B)%Z).
  { pose proof (Z.mul_succ_div_gt (L + B - 1) B HB) as H. fold c in H. lia. }
  assert (Hc2 : (c < n + 1)%Z).
  { apply Z.div_lt_upper_bound; [done|]. lia. }
  assert (Hc3 : (n <= c)%Z) by (by apply Hleast, Hc).
  lia.
Qed.

End LengthEdges.

(** ** [on_epoch_end] and [__init__]: the epoch ordering *)

Section Ordering.
Context {F : Type} {SF : Scalar F} {RS : RandomSource} {EF : Env F}.
Implicit Types (self : DataGenerator F) (g : rng).

Lemma on_epoch_end_indices self g :
  indices (on_epoch_end self g).1 ≡ₚ seq 0 (length (filenames self)) /\
  (on_epoch_end self g).1 = set_indices self (indices (on_epoch_end self g).1) /\
  (shuffle self = false ->
   indices (on_epoch_end self g).1 = seq 0 (length (filenames self)) /\
   (on_epoch_end self g).2 = g).
Proof.
  unfold on_epoch_end, np_arange. destruct (shuffle self).
  - destruct (random_shuffle g _) as [ix g'] eqn:Hsh. cbn.
    split_and!; [|done..]. by eapply random_shuffle_Permutation.
  - cbn. done.
Qed.

(** X3. [on_epoch_end] replaces the epoch ordering by a permutation of
    [0 .. len(filenames) - 1] and changes no other attribute; what the
    ordering was before plays no role; without shuffling the new ordering is
    the identity and the random source is left as it is. *)
Theorem on_epoch_end_permutation self g :
  indices (on_epoch_end self g).1 ≡ₚ seq 0 (length (filenames self)) /\
  (on_epoch_end self g).1 = set_indices self (indices (on_epoch_end self g).1) /\
  (forall ix, on_epoch_end (set_indices self ix) g = on_epoch_end self g) /\
  (shuffle self = false ->
   indices (on_epoch_end self g).1 = seq 0 (length (filenames self)) /\
   (on_epoch_end self g).2 = g).
Proof.
  unfold on_epoch_end, np_arange. cbn [filenames shuffle set_indices].
  destruct (shuffle self).
  - destruct (random_shuffle g _) as [ix' g'] eqn:Hsh. cbn.
    split_and!; [|done..]. by eapply random_shuffle_Permutation.
  - cbn. done.
Qed.

(** X4. The object [__init__] builds carries the arguments of the call, the
    four transforms of [transforms] in the order jitter, time warp, rotation,
    random sampling, and an epoch ordering that is a permutation of
    [0 .. len(filenames) - 1] (the identity when [shuffle] is off). *)
Theorem init_attributes (fnames : list string) (lbls cls : list Z)
    (part : option string) (bs sl nch ncl : nat) (m s : option (list (list F)))
    (sh au : bool) (af : Q) (bal : bool) g :
  let self := (__init__ fnames lbls cls part bs sl nch ncl m s sh au af bal g).1 in
  (filenames self = fnames /\ labels self = lbls /\ classes self = cls /\
   partition self = part /\ batch_size self = bs /\ seqlen self = sl /\
   n_channels self = nch /\ n_classes self = ncl /\ mean self = m /\
   std self = s /\ shuffle self = sh /\ augment self = au /\
   aug_factor self = af /\ balance self = bal) /\
  aug_func self = [jitter; time_warp; rotation; rand_sampling] /\
  indices self ≡ₚ seq 0 (length fnames) /\
  (sh = false -> indices self = seq 0 (length fnames)).
Proof.
  unfold __init__.
  set (self0 := {| partition := part; indices := [] |}).
  destruct (on_epoch_end_indices self0 g) as (Hperm & Heq & Hid).
  cbv zeta. rewrite Heq. cbn. split_and!; try done.
  intros ->. by apply Hid.
Qed.

End Ordering.

(** ** The windowed mode on any epoch ordering *)


Section AnyOrdering.
Context {F : Type} {SF : Scalar F} {RS : RandomSource} {EF : Env F}.
Implicit Types (self : DataGenerator F) (g : rng).

(** The window of lines 40-45 ends at [min((index+1) * batch_size, L)]. *)
Lemma window_indices_slice self (i : nat) :
  window_indices self i
  = slice (indices self) (i * batch_size self)
          (Nat.min ((i + 1) * batch_size self) (length (filenames self))).
Proof.
  unfold window_indices.
  destruct (Z.leb_spec (Z.of_nat ((i + 1) * batch_size self))
                       (Z.of_nat (length (filenames self)) - 1)) as [H|H];
    f_equal; lia.
Qed.

Lemma length_window_indices self (i : nat) :
  length (window_indices self i) <= batch_size self.
Proof.
  rewrite window_indices_slice. unfold slice.
  rewrite length_drop, length_take. lia.
Qed.

Lemma window_indices_past_end self (i : nat) :
  length (filenames self) <= i * batch_size self ->
  window_indices self i = [].
Proof.
  intros H. rewrite window_indices_slice. unfold slice.
  apply drop_ge. rewrite length_take. lia.
Qed.

Lemma window_indices_valid self (i : nat) :
  Forall (fun idx => idx < length (filenames self)) (indices self) ->
  Forall (fun idx => idx < length (filenames self)) (window_indices self i).
Proof.
  intros H. rewrite window_indices_slice. unfold slice.
  by apply Forall_drop, Forall_take.
Qed.

Lemma labels_in_range self ixs :
  length (labels self) = length (filenames self) ->
  Forall (fun l => (0 <= l < Z.of_nat (n_classes self))%Z) (labels self) ->
  Forall (fun idx => idx < length (filenames self)) ixs ->
  Forall (fun l => (0 <= l < Z.of_nat (n_classes self))%Z)
         (label_at self <$> ixs).
Proof.
  intros Hlen Hlabels Hixs. apply Forall_fmap, Forall_forall. intros idx Hidx.
  rewrite Forall_forall in Hixs. rewrite Forall_forall in Hlabels.
  specialize (Hixs idx Hidx). unfold label_at. cbn.
  destruct (lookup_lt_is_Some_2 (labels self) idx) as [l Hl]; [lia|].
  rewrite Hl. cbn. apply Hlabels. by eapply list_elem_of_lookup_2.
Qed.

(** The batch of a selection of valid indices, without augmentation. *)
Lemma data_generation_batch_of self g ixs :
  augment self = false ->
  dataset_ok self ->
  Forall (fun idx => idx < length (filenames self)) ixs ->
  length ixs <= batch_size self ->
  (ixs <> [] \/ 0 < n_classes self) ->
  __data_generation self g ixs = Ok (batch_of self ixs, g).
Proof.
  intros Haug (Hload & Hstats & Hlen & Hlabels) Hixs Hb Hne.
  apply (data_generation_plain _ _ _ _ _ _ Haug).
  exists (sample_at self <$> ixs), (label_at self <$> ixs). split_and!.
  - by apply samples_of_valid.
  - apply labels_of_is_Ok. by rewrite Hlen.
  - done.
  - by apply normalize_valid.
  - apply to_categorical_valid; [by apply labels_in_range|].
    intros Hnil. apply fmap_nil_inv in Hnil. destruct Hne as [Hne|Hne]; done.
  - done.
Qed.

(** The batch of a window of any epoch ordering of valid indices. *)
Lemma getitem_windowed self g (index : nat) :
  balance self = false ->
  augment self = false ->
  Forall (fun idx => idx < length (filenames self)) (indices self) ->
  dataset_ok self ->
  (window_indices self index <> [] \/ 0 < n_classes self) ->
  __getitem__ self g index = Ok (batch_of self (window_indices self index), g).
Proof.
  intros Hbal Haug Hix Hok Hne.
  unfold __getitem__, select_indices. rewrite Hbal. cbn [negb].
  rewrite bind_Ok_l. cbv beta iota.
  apply data_generation_batch_of; try done.
  - by apply window_indices_valid.
  - apply length_window_indices.
Qed.




(** X6. In the windowed mode without augmentation, a batch index whose
    window starts at or past the end of the dataset is not an error: the
    call returns an empty batch with an empty label matrix (a [ValueError]
    when [n_classes] is 0, where the number of columns has to be inferred
    from the labels), without loading a file and without using the random
    source. *)
Theorem window_past_the_end self g (index : nat) :
  balance self = false ->
  augment self = false ->
  length (filenames self) <= index * batch_size self ->
  stats_ok self = true ->
  (0 < n_classes self -> __getitem__ self g index = Ok ([], [], g)) /\
  (n_classes self = 0 -> __getitem__ self g index = Raise ValueError).
Proof.
  intros Hbal Haug Hpast Hstats.
  unfold __getitem__, select_indices. rewrite Hbal. cbn [negb].
  rewrite bind_Ok_l. cbv beta iota.
  rewrite window_indices_past_end by done. split.
  - intros Hnc. apply (data_generation_plain _ _ _ _ _ _ Haug).
    exists [], []. split_and!; try done.
    + cbn. lia.
    + by rewrite normalize_valid.
    + unfold to_categorical. by destruct (n_classes self); [lia|].
  - intros Hnc. unfold __data_generation, augment_or_resize.
    rewrite Haug, Hnc. cbn [load_loop]. rewrite bind_Ok_l. cbv beta iota.
    rewrite bind_Ok_l. cbv beta iota. cbn [length]. rewrite !take_0.
    rewrite normalize_valid by done. rewrite bind_Ok_l. done.
Qed.

End AnyOrdering.

(** ** Calls that fail *)

Lemma mapM_ext_result {A B} (f h : A -> result B) (l : list A) :
  (forall x, f x = h x) -> mapM f l = mapM h l.
Proof.
  intros Hfh. induction l as [|x l IH]; [done|]. cbn. by rewrite Hfh, IH.
Qed.

Lemma one_hot_length (n : nat) (l : Z) (row : list Z) :
  one_hot n l = Ok row -> length row = n.
Proof.
  unfold one_hot. destruct (_ && _)%bool; [|done]. intros [= <-].
  by rewrite length_insert, length_replicate.
Qed.

(** One label outside [-n .. n-1] makes the encoding fail. *)
Lemma to_categorical_invalid (y : list Z) (n : nat) :
  0 < n ->
  Exists (fun l => ~ (- Z.of_nat n <= l < Z.of_nat n)%Z) y ->
  to_categorical y n = Raise IndexError.
Proof.
  intros Hn Hex. unfold to_categorical. destruct n as [|n]; [lia|].
  rewrite bind_Ok_l.
  assert (Hone : forall l, one_hot (S n) l = Raise IndexError \/
                           exists row, one_hot (S n) l = Ok row).
  { intros l. unfold one_hot. destruct (_ && _)%bool; [right|left]; eauto. }
  induction Hex as [l y Hl|l y _ IH].
  - assert (Hr : one_hot (S n) l = Raise IndexError).
    { unfold one_hot.
      destruct (Z.leb_spec (- Z.of_nat (S n)) l);
        destruct (Z.ltb_spec l (Z.of_nat (S n))); try done. lia. }
    cbn [mapM]. by rewrite Hr.
  - cbn [mapM]. destruct (Hone l) as [Hr|[row Hr]]; rewrite Hr; [done|].
    rewrite bind_Ok_l. by rewrite IH.
Qed.

Section Failures.
Context {F : Type} {SF : Scalar F} {RS : RandomSource} {EF : Env F}.
Implicit Types (self : DataGenerator F) (g : rng).

Lemma load_loop_app self X y i pre rest :
  load_loop self X y i (pre ++ rest)
  = load_loop self X y i pre
      ≫= fun '(X', y') => load_loop self X' y' (i + length pre) rest.
Proof.
  revert X y i. induction pre as [|idx pre IH]; intros X y i.
  - cbn. by rewrite Nat.add_0_r.
  - cbn [app load_loop length].
    destruct (getitem (filenames self) idx) as [fname|e]; [|done].
    rewrite !bind_Ok_l.
    destruct (load fname) as [a|e]; [|done]. rewrite !bind_Ok_l.
    destruct (set_row _ _ X i a) as [X'|e]; [|done]. rewrite !bind_Ok_l.
    destruct (getitem (labels self) idx) as [l|e]; [|done]. rewrite !bind_Ok_l.
    destruct (setitem y i l) as [y'|e]; [|done]. rewrite !bind_Ok_l.
    rewrite IH. by replace (S i + length pre) with (i + S (length pre)) by lia.
Qed.

(** The buffers after the loop of lines 76-78 has loaded a prefix of the
    selection. *)
Lemma load_loop_prefix self pre rest samples lbls :
  mapM (sample_of self) pre = Ok samples ->
  mapM (label_of self) pre = Ok lbls ->
  length pre <= batch_size self ->
  exists X1 y1,
    length X1 = batch_size self /\ length y1 = batch_size self /\
    load_loop self
      (np_empty3 0 (batch_size self) (seqlen self) (n_channels self))
      (np_empty_int (batch_size self)) 0 (pre ++ rest)
    = load_loop self X1 y1 (length pre) rest.
Proof.
  intros Hs Hl Hb.
  pose proof (mapM_Ok_length _ _ _ Hs) as Hls.
  pose proof (mapM_Ok_length _ _ _ Hl) as Hll.
  rewrite load_loop_app.
  rewrite (load_loop_is_Ok self _ _ 0 pre samples lbls Hs Hl)
    by (rewrite ?length_np_empty3, ?length_np_empty_int; lia).
  rewrite bind_Ok_l. cbv beta iota. eexists _, _. split_and!; [| |done].
  - rewrite take_0. cbn [app Nat.add].
    rewrite length_app, length_drop, length_np_empty3. lia.
  - rewrite take_0. cbn [app Nat.add].
    rewrite length_app, length_drop, length_np_empty_int. lia.
Qed.

Lemma data_generation_short self g ixs samples lbls :
  augment self = true ->
  mapM (sample_of self) ixs = Ok samples ->
  mapM (label_of self) ixs = Ok lbls ->
  2 * length ixs < batch_size self ->
  __data_generation self g ixs = Raise ValueError.
Proof.
  intros Haug Hs Hl Hshort. unfold __data_generation.
  rewrite (load_loop_is_Ok self _ _ 0 ixs samples lbls Hs Hl)
    by (rewrite ?length_np_empty3, ?length_np_empty_int; lia).
  rewrite bind_Ok_l. cbv beta iota.
  unfold augment_or_resize. rewrite Haug. unfold np_random_choice.
  destruct (Z.ltb_spec (Z.of_nat (batch_size self) - Z.of_nat (length ixs)) 0);
    [lia|].
  destruct (Z.ltb_spec (Z.of_nat (length ixs))
              (Z.of_nat (batch_size self) - Z.of_nat (length ixs))); [done|lia].
Qed.

(** X7. In the windowed mode with augmentation and a positive batch size, a
    batch index whose window starts at or past the end of the dataset raises
    [ValueError]: the window is empty and [batch_size] augmentation sources
    are drawn from it. *)
Theorem augmented_window_past_the_end self g (index : nat) :
  balance self = false ->
  augment self = true ->
  0 < batch_size self ->
  length (filenames self) <= index * batch_size self ->
  __getitem__ self g index = Raise ValueError.
Proof.
  intros Hbal Haug Hbs Hpast.
  unfold __getitem__, select_indices. rewrite Hbal. cbn [negb].
  rewrite bind_Ok_l. cbv beta iota.
  rewrite window_indices_past_end by done.
  apply (data_generation_short self g [] [] []); done.
Qed.

(** X8. With augmentation, [__data_generation] returns only for a selection
    that fills at least half of the batch and at most the batch: when the
    files and labels of a shorter selection load, the draw of the
    augmentation sources raises [ValueError]. *)
Theorem augmented_needs_half_batch self g ixs :
  augment self = true ->
  (forall r, __data_generation self g ixs = Ok r ->
             length ixs <= batch_size self <= 2 * length ixs) /\
  (forall samples lbls,
     mapM (sample_of self) ixs = Ok samples ->
     mapM (label_of self) ixs = Ok lbls ->
     2 * length ixs < batch_size self ->
     __data_generation self g ixs = Raise ValueError).
Proof.
  intros Haug. split.
  - intros [[X Y] g'] H.
    apply (data_generation_augmented _ _ _ _ _ _ Haug) in H
      as (samples & lbls & aug_ixs & g1 & _ & _ & _ & _ & _ & _ & _
          & _ & _ & Hc & _).
    apply np_random_choice_Ok in Hc as (Hsz & Hlen & _). lia.
  - intros samples lbls Hs Hl Hshort. by eapply data_generation_short.
Qed.

(** X11. Without augmentation, when the files of the selection load and the
    statistics are usable, one selected label outside
    [-n_classes .. n_classes - 1] makes the call raise [IndexError]. *)
Theorem label_outside_encoding self g ixs samples lbls :
  augment self = false ->
  0 < n_classes self ->
  stats_ok self = true ->
  length ixs <= batch_size self ->
  mapM (sample_of self) ixs = Ok samples ->
  mapM (label_of self) ixs = Ok lbls ->
  Exists (fun l => ~ (- Z.of_nat (n_classes self) <= l
                      < Z.of_nat (n_classes self))%Z) lbls ->
  __data_generation self g ixs = Raise IndexError.
Proof.
  intros Haug Hnc Hstats Hb Hs Hl Hex.
  pose proof (mapM_Ok_length _ _ _ Hs) as Hls.
  pose proof (mapM_Ok_length _ _ _ Hl) as Hll.
  unfold __data_generation.
  rewrite (load_loop_is_Ok self _ _ 0 ixs samples lbls Hs Hl)
    by (rewrite ?length_np_empty3, ?length_np_empty_int; lia).
  rewrite bind_Ok_l. cbv beta iota.
  unfold augment_or_resize. rewrite Haug, bind_Ok_l. cbv beta iota.
  rewrite !take_0. cbn [app]. rewrite !take_app_length' by done.
  rewrite normalize_valid by done. rewrite bind_Ok_l.
  by rewrite to_categorical_invalid.
Qed.

(** X12. The loop of lines 76-78 stops at the first selected index it cannot
    serve, in both augmentation modes, when the indices before it load and
    fit into the batch: an index outside [filenames] raises [IndexError], a
    file the loader cannot read raises the loader's error, and a readable
    file without a label raises [IndexError]. *)
Theorem first_unusable_index self g pre idx post samples lbls :
  mapM (sample_of self) pre = Ok samples ->
  mapM (label_of self) pre = Ok lbls ->
  length pre < batch_size self ->
  (filenames self !! idx = None ->
   __data_generation self g (pre ++ idx :: post) = Raise IndexError) /\
  (forall fname,
     filenames self !! idx = Some fname -> np_load fname = None ->
     __data_generation self g (pre ++ idx :: post) = Raise IOError) /\
  (forall fname a,
     filenames self !! idx = Some fname -> np_load fname = Some a ->
     has_shape (seqlen self) (n_channels self) a = true ->
     labels self !! idx = None ->
     __data_generation self g (pre ++ idx :: post) = Raise IndexError).
Proof.
  intros Hs Hl Hb.
  destruct (load_loop_prefix self pre (idx :: post) samples lbls Hs Hl)
    as (X1 & y1 & HX1 & Hy1 & Hloop); [lia|].
  unfold __data_generation. rewrite Hloop. cbn [load_loop].
  unfold getitem, load. split_and!.
  - by intros ->.
  - intros fname -> Hload. rewrite bind_Ok_l. by rewrite Hload.
  - intros fname a -> Hload Hshape Hlabel. rewrite bind_Ok_l, Hload, bind_Ok_l.
    unfold set_row. rewrite decide_True by lia. rewrite Hshape, bind_Ok_l.
    by rewrite Hlabel.
Qed.

End Failures.

(** ** The shape of a batch *)

Lemma has_shape_map2_2d {A} (op : A -> A -> A) (r c : nat) (a b : list (list A)) :
  has_shape r c a = true -> has_shape r c b = true ->
  has_shape r c (map2_2d op a b) = true.
Proof.
  rewrite !has_shape_spec. intros [Hla Ha] [Hlb Hb]. unfold map2_2d. split.
  - rewrite length_zip_with. lia.
  - apply Forall_forall. intros row Hrow.
    apply list_elem_of_lookup in Hrow as [i Hi].
    apply lookup_zip_with_Some in Hi as (ra & rb & -> & Hra & Hrb).
    rewrite Forall_forall in Ha. rewrite Forall_forall in Hb.
    rewrite length_zip_with.
    rewrite (Ha ra) by (by eapply list_elem_of_lookup_2).
    rewrite (Hb rb) by (by eapply list_elem_of_lookup_2). lia.
Qed.

Lemma to_categorical_rows (y : list Z) (n : nat) (Y : list (list Z)) :
  0 < n -> to_categorical y n = Ok Y -> Forall (fun row => length row = n) Y.
Proof.
  intros Hn H. unfold to_categorical in H. destruct n as [|n]; [lia|].
  rewrite bind_Ok_l in H. apply mapM_Ok_Forall2 in H.
  induction H as [|l row y' Y' Hrow _ IH]; constructor; [|done].
  by eapply one_hot_length.
Qed.

Section Shapes.
Context {F : Type} {SF : Scalar F} {RS : RandomSource} {EF : Env F}.
Implicit Types (self : DataGenerator F) (g : rng).

Lemma normalize_shapes self X0 X :
  normalize self X0 = Ok X ->
  Forall (fun a => has_shape (seqlen self) (n_channels self) a = true) X0 ->
  Forall (fun a => has_shape (seqlen self) (n_channels self) a = true) X.
Proof.
  intros Hn HX0.
  destruct (mean self) as [m|] eqn:Hm; [destruct (std self) as [s|] eqn:Hs|].
  - rewrite (normalize_Some self m s) in Hn by done.
    destruct (has_shape _ _ m) eqn:Hsm; [|done].
    destruct (has_shape _ _ s) eqn:Hss; [|done]. injection Hn as <-.
    apply Forall_fmap. eapply Forall_impl; [exact HX0|]. intros a Ha. cbn.
    unfold normalized. by repeat apply has_shape_map2_2d.
  - rewrite normalize_None in Hn by (by right). by injection Hn as <-.
  - rewrite normalize_None in Hn by (by left). by injection Hn as <-.
Qed.

Lemma data_generation_shape self g ixs X Y g' :
  __data_generation self g ixs = Ok (X, Y, g') ->
  length Y = length X /\
  length ixs <= length X <= batch_size self /\
  (augment self = false -> length X = length ixs) /\
  (augment self = true -> length X = batch_size self) /\
  Forall (fun a => has_shape (seqlen self) (n_channels self) a = true) X /\
  (0 < n_classes self -> Forall (fun row => length row = n_classes self) Y).
Proof.
  intros H. destruct (augment self) eqn:Haug.
  - apply (data_generation_augmented _ _ _ _ _ _ Haug) in H
      as (samples & lbls & aug_ixs & g1 & aug_samples & aug_lbls & t1 & g2
          & toss & g3 & tail & Hs & Hl & Hc & Has & Hal & _ & _ & _ & Hlt
          & Hsh & Hn & Hcat).
    pose proof (mapM_Ok_length _ _ _ Hs) as Hls.
    pose proof (mapM_Ok_length _ _ _ Hl) as Hll.
    pose proof (mapM_Ok_length _ _ _ Hal) as Hlal.
    pose proof (np_random_choice_Ok _ _ _ _ _ Hc) as (Hsz & Hla & _).
    pose proof (normalize_length _ _ _ Hn) as HlX.
    pose proof (to_categorical_length _ _ _ Hcat) as HlY.
    rewrite length_app in HlX, HlY.
    split_and!; [lia|lia|lia|done|lia| |].
    + apply (normalize_shapes _ _ _ Hn). apply Forall_app.
      split; [by eapply samples_shape|].
      rewrite forallb_forall in Hsh. apply Forall_forall.
      intros a Ha. apply Hsh. by apply list_elem_of_In.
    + intros Hnc. by eapply to_categorical_rows.
  - apply (data_generation_plain _ _ _ _ _ _ Haug) in H
      as (samples & lbls & Hs & Hl & Hb & Hn & Hcat & _).
    pose proof (mapM_Ok_length _ _ _ Hs) as Hls.
    pose proof (mapM_Ok_length _ _ _ Hl) as Hll.
    pose proof (normalize_length _ _ _ Hn) as HlX.
    pose proof (to_categorical_length _ _ _ Hcat) as HlY.
    split_and!; [lia|lia|lia|lia|done| |].
    + apply (normalize_shapes _ _ _ Hn). by eapply samples_shape.
    + intros Hnc. by eapply to_categorical_rows.
Qed.

(** X9. Every batch [__getitem__] returns has as many label rows as samples,
    at most [batch_size] samples (exactly [batch_size] with augmentation),
    every sample of shape [(seqlen, n_channels)], normalised or not, and,
    for a positive [n_classes], label rows of [n_classes] columns. *)
Theorem batch_shape self g (index : nat) X Y g' :
  __getitem__ self g index = Ok (X, Y, g') ->
  length Y = length X /\
  length X <= batch_size self /\
  (augment self = true -> length X = batch_size self) /\
  Forall (fun a => has_shape (seqlen self) (n_channels self) a = true) X /\
  (0 < n_classes self -> Forall (fun row => length row = n_classes self) Y).
Proof.
  intros H. unfold __getitem__ in H.
  apply bind_Ok in H as ([ixs g1] & _ & H).
  apply data_generation_shape in H as (H1 & H2 & _ & H4 & H5 & H6).
  split_and!; [done|lia|done..].
Qed.

End Shapes.

(** ** Fresh buffers *)

Section Buffers.
Context {F : Type} {SF : Scalar F} {RS : RandomSource}.
Implicit Types (self : DataGenerator F) (g : rng).

Lemma sample_of_same_loader (E1 E2 : Env F) self idx :
  (forall fname, np_load (Env := E1) fname = np_load (Env := E2) fname) ->
  sample_of (EF := E1) self idx = sample_of (EF := E2) self idx.
Proof.
  intros Hload. unfold sample_of, load.
  destruct (getitem (filenames self) idx) as [fname|e]; [|done].
  rewrite !bind_Ok_l. by rewrite Hload.
Qed.

Lemma data_generation_same_loader (E1 E2 : Env F) self g ixs r :
  (forall fname, np_load (Env := E1) fname = np_load (Env := E2) fname) ->
  __data_generation (EF := E1) self g ixs = Ok r ->
  __data_generation (EF := E2) self g ixs = Ok r.
Proof.
  intros Hload H. destruct r as [[X Y] g'].
  assert (Hixs : forall l, mapM (sample_of (EF := E1) self) l
                           = mapM (sample_of (EF := E2) self) l).
  { intros l. apply mapM_ext_result. intros idx.
    by apply sample_of_same_loader. }
  destruct (augment self) eqn:Haug.
  - apply (data_generation_augmented _ _ _ _ _ _ Haug) in H
      as (samples & lbls & aug_ixs & g1 & aug_samples & aug_lbls & t1 & g2
          & toss & g3 & tail & Hs & Hl & Hc & Has & Hal & Hrest).
    apply (data_generation_augmented _ _ _ _ _ _ Haug).
    exists samples, lbls, aug_ixs, g1, aug_samples, aug_lbls, t1, g2, toss,
      g3, tail.
    rewrite <- !Hixs.
    exact (conj Hs (conj Hl (conj Hc (conj Has (conj Hal Hrest))))).
  - apply (data_generation_plain _ _ _ _ _ _ Haug) in H
      as (samples & lbls & Hs & Hrest).
    apply (data_generation_plain _ _ _ _ _ _ Haug).
    exists samples, lbls. rewrite <- Hixs. by split.
Qed.

(** X10. What the freshly allocated buffers of lines 72, 73 and 86 hold never
    reaches a batch: in two environments with the same loader, whatever
    their buffers contain, [__getitem__] returns the same batches. *)
Theorem batch_independent_of_buffers (E1 E2 : Env F) self g (index : nat) r :
  (forall fname, np_load (Env := E1) fname = np_load (Env := E2) fname) ->
  __getitem__ (EF := E1) self g index = Ok r <->
  __getitem__ (EF := E2) self g index = Ok r.
Proof.
  intros Hload. unfold __getitem__. split; intros H;
    apply bind_Ok in H as ([ixs g1] & Hsel & H);
    rewrite Hsel, bind_Ok_l; cbv beta iota.
  - by apply (data_generation_same_loader E1 E2).
  - by apply (data_generation_same_loader E2 E1).
Qed.

End Buffers.

(** ** [fit] *)

Lemma has_shape_map_map {A B} (f : A -> B) (r c : nat) (a : list (list A)) :
  has_shape r c (map (map f) a) = has_shape r c a.
Proof.
  unfold has_shape. rewrite length_map. f_equal.
  induction a as [|row a IH]; [done|]. cbn. by rewrite length_map, IH.
Qed.

Lemma entry_map_map {A B} (f : A -> B) (a : list (list A)) (j k : nat) :
  entry (map (map f) a) j k = f <$> entry a j k.
Proof.
  unfold entry. change (map (map f) a) with (map f <$> a).
  rewrite list_lookup_fmap. destruct (a !! j) as [row|]; [|done]. cbn.
  change (map f row) with (f <$> row). by rewrite list_lookup_fmap.
Qed.

(** Entry [(j, k)] of an accumulator that is updated entry by entry. *)
Lemma entry_foldl {A} (h : list (list A) -> list (list A) -> list (list A))
    (e : A -> A -> A) (r c j k : nat) :
  j < r -> k < c ->
  (forall acc x a v,
     has_shape r c acc = true -> has_shape r c x = true ->
     entry acc j k = Some a -> entry x j k = Some v ->
     has_shape r c (h acc x) = true /\ entry (h acc x) j k = Some (e a v)) ->
  forall samples acc a,
    Forall (fun x => has_shape r c x = true) samples ->
    has_shape r c acc = true -> entry acc j k = Some a ->
    has_shape r c (foldl h acc samples) = true /\
    entry (foldl h acc samples) j k
    = Some (foldl e a (omap (fun x => entry x j k) samples)) /\
    length (omap (fun x => entry x j k) samples) = length samples.
Proof.
  intros Hj Hk Hstep samples.
  induction samples as [|x rest IH]; intros acc a Hall Hacc Ha; [done|].
  apply Forall_cons in Hall as [Hx Hrest].
  destruct (proj2 (entry_is_Some r c x j k Hx) (conj Hj Hk)) as [v Hv].
  destruct (Hstep acc x a v Hacc Hx Ha Hv) as [Hs He].
  destruct (IH (h acc x) (e a v) Hrest Hs He) as (IH1 & IH2 & IH3).
  cbn [foldl]. simpl omap. rewrite Hv. cbn [foldl length].
  split_and!; [done|exact IH2|f_equal; exact IH3].
Qed.

Section Fit.
Context {F : Type} {SF : Scalar F} {RS : RandomSource} {EF : Env F}.
Implicit Types (self : DataGenerator F) (g : rng).

Lemma has_shape_np_empty2 site r c : has_shape r c (np_empty2 site r c) = true.
Proof.
  apply has_shape_spec. unfold np_empty2. split.
  - by rewrite length_map, length_seq.
  - apply Forall_forall. intros row Hrow.
    apply list_elem_of_In, in_map_iff in Hrow as (j & <- & _).
    by rewrite length_map, length_seq.
Qed.

Lemma entry_np_empty2 site r c j k :
  j < r -> k < c -> entry (np_empty2 site r c) j k = Some (uninit site (j * c + k)).
Proof.
  intros Hj Hk. unfold entry, np_empty2.
  change (map ?f (seq 0 r)) with (f <$> seq 0 r).
  rewrite list_lookup_fmap, lookup_seq_lt by done. cbn.
  change (map ?f (seq 0 c)) with (f <$> seq 0 c).
  by rewrite list_lookup_fmap, lookup_seq_lt.
Qed.

Lemma entry_div_count (a : list (list F)) N j k :
  entry (div_count a N) j k = (fun v => f_div v (f_of_nat N)) <$> entry a j k.
Proof. apply entry_map_map. Qed.

(** A loop of [fit] whose body fails on a sample of another shape only: the
    samples are loaded as by [sample_of] and folded into the accumulator. *)
Lemma for_samples_fold self body (h : list (list F) -> list (list F) -> list (list F))
    acc range :
  (forall acc x,
     body acc x = if has_shape (seqlen self) (n_channels self) x
                  then Ok (h acc x) else Raise ValueError) ->
  for_samples self body acc range
  = mapM (sample_of self) range ≫= fun samples => Ok (foldl h acc samples).
Proof.
  intros Hbody. revert acc. induction range as [|i rest IH]; intros acc; [done|].
  cbn [for_samples mapM].
  set (tail := mapM (sample_of self) rest) in *. unfold sample_of.
  destruct (getitem (filenames self) i) as [fname|e]; [|done].
  rewrite !bind_Ok_l.
  destruct (load fname) as [x|e]; [|done]. rewrite !bind_Ok_l.
  rewrite Hbody. destruct (has_shape _ _ x); [|done]. rewrite !bind_Ok_l.
  rewrite IH. by destruct tail.
Qed.

Lemma mapM_sample_at self ixs samples :
  mapM (sample_of self) ixs = Ok samples -> samples = sample_at self <$> ixs.
Proof.
  intros H. apply mapM_Ok_Forall2 in H.
  induction H as [|idx a ixs' samples' Ha _ IH]; [done|].
  cbn. f_equal; [|done]. unfold sample_at. by rewrite Ha.
Qed.

Lemma has_shape_fit_sum self samples :
  Forall (fun x => has_shape (seqlen self) (n_channels self) x = true) samples ->
  has_shape (seqlen self) (n_channels self) (fit_sum self samples) = true.
Proof.
  unfold fit_sum. generalize (has_shape_np_empty2 0 (seqlen self) (n_channels self)).
  generalize (np_empty2 0 (seqlen self) (n_channels self)).
  induction samples as [|x rest IH]; intros acc Hacc Hall; [done|].
  apply Forall_cons in Hall as [Hx Hrest]. cbn [foldl].
  apply IH; [|done]. by apply has_shape_map2_2d.
Qed.

Lemma has_shape_fit_sq self samples :
  Forall (fun x => has_shape (seqlen self) (n_channels self) x = true) samples ->
  has_shape (seqlen self) (n_channels self) (fit_sq self samples) = true.
Proof.
  intros Hall. pose proof (has_shape_fit_sum self samples Hall) as HS.
  unfold fit_sq. revert HS. generalize (fit_sum self samples). intros S HS.
  generalize (has_shape_np_empty2 1 (seqlen self) (n_channels self)).
  generalize (np_empty2 1 (seqlen self) (n_channels self)).
  induction Hall as [|x rest Hx _ IH]; intros acc Hacc; [done|].
  cbn [foldl]. apply IH. apply has_shape_map2_2d; [done|].
  rewrite has_shape_map_map. by apply has_shape_map2_2d.
Qed.

Lemma occurs_in_index (tag p : string) :
  tag <> EmptyString ->
  (exists m, String.index 0 tag p = Some m) <-> occurs_in tag p.
Proof.
  intros Hne. unfold occurs_in. split.
  - intros [m Hm]. exists m. by eapply String.index_correct1.
  - intros [m Hm]. destruct (String.index 0 tag p) as [m'|] eqn:Hi; [by eexists|].
    exfalso. eapply (String.index_correct3 0 m); [done|done|lia|done].
Qed.

(** [fit] on a partition that passes the assertion: both loops load every
    file in order, and the result is made of the two accumulators divided by
    the number of files. *)
Lemma fit_train self p :
  partition self = Some p -> occurs_in "train" p ->
  fit self
  = mapM (sample_of self) (seq 0 (length (filenames self))) ≫= fun samples =>
    let m := div_count (fit_sum self samples) (length (filenames self)) in
    let s := div_count (fit_sq self samples) (length (filenames self)) in
    Ok (set_mean_std self (Some m) (Some s), (m, s)).
Proof.
  intros Hp Hocc. unfold fit, in_partition. rewrite Hp, bind_Ok_l.
  apply occurs_in_index in Hocc as [m0 Hm0]; [|done]. rewrite Hm0. cbn [negb].
  rewrite (for_samples_fold self _ (map2_2d f_add)) by (intros; apply eq_refl).
  destruct (mapM (sample_of self) (seq 0 (length (filenames self))))
    as [samples|e] eqn:Hs; [|done].
  rewrite !bind_Ok_l. fold (fit_sum self samples).
  pose proof (has_shape_fit_sum self samples (samples_shape _ _ _ Hs)) as HS.
  rewrite (for_samples_fold self _
             (fun acc x =>
                map2_2d f_add acc
                  (map (map (fun d => f_mul d d))
                       (map2_2d f_sub x (fit_sum self samples))))).
  - rewrite Hs, bind_Ok_l. done.
  - intros acc x. unfold sq_dev, iadd.
    destruct (has_shape _ _ x) eqn:Hx; [|done]. rewrite bind_Ok_l.
    rewrite has_shape_map_map. by rewrite has_shape_map2_2d.
Qed.

Lemma sample_of_errors self idx e :
  sample_of self idx = Raise e -> e = IndexError \/ e = IOError \/ e = ValueError.
Proof.
  unfold sample_of, getitem, load.
  destruct (filenames self !! idx) as [fname|]; [|intros [= <-]; by left].
  rewrite bind_Ok_l.
  destruct (np_load fname) as [a|]; [|intros [= <-]; right; by left].
  rewrite bind_Ok_l.
  destruct (has_shape _ _ a); [done|]. intros [= <-]. right. by right.
Qed.

Lemma samples_of_errors self ixs e :
  mapM (sample_of self) ixs = Raise e ->
  e = IndexError \/ e = IOError \/ e = ValueError.
Proof.
  induction ixs as [|idx rest IH]; [done|]. cbn [mapM]. intros H.
  apply bind_Raise in H as [H|(a & _ & H)]; [by eapply sample_of_errors|].
  apply bind_Raise in H as [H|(k & _ & H)]; [by apply IH|done].
Qed.

(** X13. [fit] checks the partition before it touches a file: it raises
    [TypeError] exactly when [partition] is [None] and [AssertionError]
    exactly when [partition] is a string in which ['train'] does not
    occur. *)
Theorem fit_partition_check self :
  (fit self = Raise TypeError <-> partition self = None) /\
  (fit self = Raise AssertionError <->
   exists p, partition self = Some p /\ ~ occurs_in "train" p).
Proof.
  destruct (partition self) as [p|] eqn:Hp.
  - destruct (String.index 0 "train" p) as [m0|] eqn:Hi.
    + assert (Hocc : occurs_in "train" p).
      { apply occurs_in_index; [done|]. by exists m0. }
      rewrite (fit_train self p Hp Hocc).
      destruct (mapM (sample_of self) _) as [samples|e] eqn:Hs.
      * rewrite bind_Ok_l. cbv zeta. split; (split; [done|]).
        -- done.
        -- by intros (p' & [= <-] & Hno).
      * apply samples_of_errors in Hs. cbn. split; split.
        -- intros [= ->]. by destruct Hs as [|[|]].
        -- done.
        -- intros [= ->]. by destruct Hs as [|[|]].
        -- by intros (p' & [= <-] & Hno).
    + assert (Hno : ~ occurs_in "train" p).
      { intros Hocc. apply occurs_in_index in Hocc as [m Hm]; [|done].
        by rewrite Hi in Hm. }
      unfold fit, in_partition. rewrite Hp, bind_Ok_l, Hi. cbn [negb].
      split; split; [done|done| |done]. intros _. by exists p.
  - unfold fit, in_partition. rewrite Hp. cbn. split; (split; [done|]).
    + done.
    + by intros (p' & [=] & _).
Qed.

End Fit.

Section FitResults.
Context {F : Type} {SF : Scalar F} {RS : RandomSource} {EF : Env F}.
Implicit Types (self : DataGenerator F) (g : rng).

(** What a call of [fit] that returns has done. *)
Lemma fit_Ok self r :
  fit self = Ok r <->
  exists p samples,
    partition self = Some p /\ occurs_in "train" p /\
    mapM (sample_of self) (seq 0 (length (filenames self))) = Ok samples /\
    r = (set_mean_std self
           (Some (div_count (fit_sum self samples) (length (filenames self))))
           (Some (div_count (fit_sq self samples) (length (filenames self)))),
         (div_count (fit_sum self samples) (length (filenames self)),
          div_count (fit_sq self samples) (length (filenames self)))).
Proof.
  split.
  - intros H. destruct (partition self) as [p|] eqn:Hp.
    2:{ unfold fit, in_partition in H. by rewrite Hp in H. }
    destruct (String.index 0 "train" p) as [m0|] eqn:Hi.
    2:{ unfold fit, in_partition in H. by rewrite Hp, bind_Ok_l, Hi in H. }
    assert (Hocc : occurs_in "train" p).
    { apply occurs_in_index; [done|]. by exists m0. }
    rewrite (fit_train self p Hp Hocc) in H.
    apply bind_Ok in H as (samples & Hs & H). cbv zeta in H.
    injection H as <-. by exists p, samples.
  - intros (p & samples & Hp & Hocc & Hs & ->).
    rewrite (fit_train self p Hp Hocc), Hs, bind_Ok_l. done.
Qed.

(** X14. What [fit] computes, entry by entry: at every position [(j, k)] the
    returned mean is the content of the fresh buffer of line 116 plus the
    entries of all samples in file order, divided by the number of files,
    and the returned std is the content of the fresh buffer of line 117 plus
    the squares of the differences between each entry and that undivided
    sum of the first pass, divided by the number of files. *)
Theorem fit_entries self self' (m s : list (list F)) (j k : nat) :
  fit self = Ok (self', (m, s)) ->
  j < seqlen self -> k < n_channels self ->
  let N := length (filenames self) in
  let xs := sample_entries self j k in
  let total := foldl f_add (uninit 0 (j * n_channels self + k)) xs in
  length xs = N /\
  entry m j k = Some (f_div total (f_of_nat N)) /\
  entry s j k
  = Some (f_div
            (foldl (fun acc x => f_add acc (f_mul (f_sub x total) (f_sub x total)))
                   (uninit 1 (j * n_channels self + k)) xs)
            (f_of_nat N)).
Proof.
  intros H Hj Hk N xs total.
  apply fit_Ok in H as (p & samples & _ & _ & Hs & [= _ -> ->]).
  pose proof (samples_shape _ _ _ Hs) as Hshapes.
  pose proof (mapM_Ok_length _ _ _ Hs) as Hlen. rewrite length_seq in Hlen.
  assert (Hxs : omap (fun x : list (list F) => entry x j k) samples = xs).
  { rewrite (mapM_sample_at _ _ _ Hs). by rewrite omap_fmap_inner. }
  destruct (entry_foldl (map2_2d f_add) f_add (seqlen self) (n_channels self)
              j k Hj Hk) with
    (samples := samples)
    (acc := np_empty2 0 (seqlen self) (n_channels self))
    (a := uninit 0 (j * n_channels self + k))
    as (HS & Hsum & Hlxs).
  { intros acc x a v Hacc Hx Ha Hv. split; [by apply has_shape_map2_2d|].
    by rewrite entry_map2_2d, Ha, Hv. }
  { done. }
  { apply has_shape_np_empty2. }
  { by apply entry_np_empty2. }
  rewrite Hxs in Hsum, Hlxs. fold (fit_sum self samples) in HS, Hsum.
  fold total in Hsum.
  destruct (entry_foldl
              (fun acc x =>
                 map2_2d f_add acc
                   (map (map (fun d => f_mul d d))
                        (map2_2d f_sub x (fit_sum self samples))))
              (fun acc x => f_add acc (f_mul (f_sub x total) (f_sub x total)))
              (seqlen self) (n_channels self) j k Hj Hk) with
    (samples := samples)
    (acc := np_empty2 1 (seqlen self) (n_channels self))
    (a := uninit 1 (j * n_channels self + k))
    as (_ & Hsq & _).
  { intros acc x a v Hacc Hx Ha Hv. split.
    - apply has_shape_map2_2d; [done|]. rewrite has_shape_map_map.
      by apply has_shape_map2_2d.
    - by rewrite entry_map2_2d, Ha, entry_map_map, entry_map2_2d, Hv, Hsum. }
  { done. }
  { apply has_shape_np_empty2. }
  { by apply entry_np_empty2. }
  rewrite Hxs in Hsq. fold (fit_sq self samples) in Hsq.
  split_and!.
  - unfold N. lia.
  - by rewrite entry_div_count, Hsum.
  - by rewrite entry_div_count, Hsq.
Qed.

(** X15. [fit] stores what it returns and nothing else: the updated object
    is the old one with [mean] and [std] set to the returned arrays, both of
    shape [(seqlen, n_channels)], and from then on [__getitem__] returns the
    batches of the object without statistics, normalised entrywise with
    these arrays. *)
Theorem fit_then_getitem self self' (m s : list (list F)) :
  fit self = Ok (self', (m, s)) ->
  self' = set_mean_std self (Some m) (Some s) /\
  has_shape (seqlen self) (n_channels self) m = true /\
  has_shape (seqlen self) (n_channels self) s = true /\
  forall g (index : nat) X Y g',
    __getitem__ self' g index = Ok (X, Y, g') <->
    exists X0, raw_getitem self g index = Ok (X0, Y, g') /\
               X = normalized m s <$> X0.
Proof.
  intros H.
  apply fit_Ok in H as (p & samples & _ & _ & Hs & [= -> -> ->]).
  pose proof (samples_shape _ _ _ Hs) as Hshapes.
  set (m := div_count (fit_sum self samples) (length (filenames self))).
  set (s := div_count (fit_sq self samples) (length (filenames self))).
  assert (Hm : has_shape (seqlen self) (n_channels self) m = true).
  { unfold m, div_count. rewrite has_shape_map_map. by apply has_shape_fit_sum. }
  assert (Hsd : has_shape (seqlen self) (n_channels self) s = true).
  { unfold s, div_count. rewrite has_shape_map_map. by apply has_shape_fit_sq. }
  split_and!; [done..|].
  intros g index X Y g'. unfold raw_getitem, __getitem__.
  rewrite !select_indices_set_mean_std.
  destruct (select_indices self g index) as [[ixs g1]|e].
  2:{ cbn. split; [done|]. by intros (X0 & [=] & _). }
  rewrite !bind_Ok_l. cbv beta iota.
  rewrite (data_generation_raw (set_mean_std self (Some m) (Some s))).
  cbn [set_mean_std partition seqlen batch_size labels classes filenames
       n_channels n_classes shuffle augment aug_factor aug_func balance
       indices].
  split; intros (X0 & Hraw & Hn); exists X0; (split; [exact Hraw|]).
  - rewrite (normalize_Some _ m s) in Hn by done. cbn in Hn.
    rewrite Hm, Hsd in Hn. by injection Hn as <-.
  - rewrite (normalize_Some _ m s) by done. cbn.
    by rewrite Hm, Hsd, Hn.
Qed.

(** X16. [fit] returns whenever the partition passes the assertion and every
    file loads with the configured shape, and it returns only if the loader
    could read every file of the dataset. *)
Theorem fit_returns self :
  (forall p,
     partition self = Some p -> occurs_in "train" p -> loader_ok self = true ->
     exists self' m s, fit self = Ok (self', (m, s))) /\
  (forall r fname,
     fit self = Ok r -> fname ∈ filenames self -> is_Some (np_load fname)).
Proof.
  split.
  - intros p Hp Hocc Hload.
    destruct (samples_of_is_Ok self (seq 0 (length (filenames self))) Hload)
      as [samples Hs].
    { apply Forall_seq. intros i Hi. lia. }
    do 3 eexists. apply fit_Ok. by exists p, samples.
  - intros r fname H Hin.
    apply fit_Ok in H as (p & samples & _ & _ & Hs & _).
    apply list_elem_of_lookup in Hin as [i Hi].
    apply mapM_Ok_Forall2 in Hs.
    destruct (Forall2_lookup_l _ _ _ i i Hs) as (a & _ & Ha).
    { apply lookup_seq_lt. by eapply lookup_lt_Some. }
    apply sample_of_Ok in Ha as (fname' & Hf & Hl & _).
    rewrite Hi in Hf. injection Hf as <-. by exists a.
Qed.

End FitResults.

(** ** The balanced selection: distinct indices and batch sizes *)

Lemma submseteq_NoDup {A} (l k : list A) : l ⊆+ k -> NoDup k -> NoDup l.
Proof.
  intros (l' & Hperm & Hsub)%submseteq_sublist_r Hk. rewrite Hperm.
  by eapply sublist_NoDup.
Qed.

Lemma balanced_labels_range (n k : nat) :
  Forall (fun l => (0 <= l < Z.of_nat k)%Z) (balanced_labels n k).
Proof.
  unfold balanced_labels. apply Forall_concat, Forall_fmap, Forall_seq.
  intros cls Hcls. cbn. apply Forall_replicate. lia.
Qed.

Section BalancedSelection.
Context {F : Type} {SF : Scalar F} {RS : RandomSource} {EF : Env F}.
Implicit Types (self : DataGenerator F) (g : rng).

Lemma class_draws_submseteq self cls_sz clss picks :
  Forall2 (class_draw self cls_sz) clss picks ->
  concat picks ⊆+ concat (indices_labelled self <$> clss).
Proof.
  induction 1 as [|cls pick clss picks (pool & Hpool & _ & _ & Hsub) _ IH];
    [done|].
  apply class_pool_Ok_inv in Hpool as [_ ->]. cbn. by apply submseteq_app.
Qed.

(** The indices a balanced selection returns. *)
Lemma balanced_indices_distinct self g ixs g' :
  balanced_indices self g = Ok (ixs, g') ->
  exists cls_sz,
    class_size self = Ok cls_sz /\
    NoDup ixs /\
    length ixs
    = Nat.min (batch_size self) (Z.to_nat cls_sz * length (classes self)) /\
    Forall (fun idx => idx < length (filenames self) /\
                       positional (length (classes self)) (labels self !! idx))
           ixs.
Proof.
  intros H.
  apply balanced_indices_Ok in H
    as (cls_sz & picks & shuffled & Hsz & Hpicks & Hperm & ->).
  pose proof (class_draws_submseteq _ _ _ _ Hpicks) as Hsub.
  pose proof (class_draws_labels _ _ _ _ Hpicks) as (_ & _ & Hlen).
  rewrite length_seq in Hlen.
  assert (Hnd : NoDup (concat picks)).
  { eapply submseteq_NoDup; [exact Hsub|]. rewrite pools_split.
    apply NoDup_filter, NoDup_seq. }
  exists cls_sz. split_and!; [done| | |].
  - eapply sublist_NoDup; [|apply sublist_take]. by rewrite Hperm.
  - by rewrite length_take, Hperm, Hlen.
  - apply Forall_take, Forall_forall. intros idx Hidx.
    rewrite Hperm in Hidx.
    pose proof (elem_of_submseteq _ _ _ Hidx Hsub) as Hin.
    rewrite pools_split in Hin.
    apply list_elem_of_filter in Hin as [Hpos Hseq].
    apply elem_of_seq in Hseq. split; [lia|done].
Qed.

(** X17. A balanced selection never holds an index twice, never holds more
    than [batch_size] indices, and holds only indices of the dataset whose
    label is one of the positional class numbers [0 .. len(classes) - 1]. *)
Theorem balanced_selection_distinct self g (index : nat) ixs g' :
  balance self = true ->
  select_indices self g index = Ok (ixs, g') ->
  NoDup ixs /\
  length ixs <= batch_size self /\
  Forall (fun idx => idx < length (filenames self) /\
                     positional (length (classes self)) (labels self !! idx))
         ixs.
Proof.
  intros Hbal H. unfold select_indices in H. rewrite Hbal in H. cbn [negb] in H.
  apply balanced_indices_distinct in H as (cls_sz & _ & Hnd & Hlen & Hall).
  split_and!; [done|lia|done].
Qed.

Lemma class_size_zero_division self :
  (augment self = true -> (0 < aug_factor self)%Q) ->
  n_classes self = 0 \/ (aug_factor self == -1)%Q ->
  class_size self = Raise ZeroDivisionError.
Proof.
  intros Hassert Hzero. unfold class_size.
  assert (Hpass : (if augment self
                   then if Qlt_bool 0 (aug_factor self)
                        then Ok () else Raise AssertionError
                   else Ok ()) = Ok ()).
  { destruct (augment self); [|done].
    by rewrite (proj2 (Qlt_bool_iff _ _) (Hassert eq_refl)). }
  rewrite Hpass, bind_Ok_l. unfold truediv, floordiv.
  destruct (Qeq_bool (1 + aug_factor self) 0) eqn:Ha; [done|].
  rewrite bind_Ok_l. destruct Hzero as [Hnc|Hneg].
  - by rewrite Hnc.
  - apply Qeq_bool_false in Ha. exfalso. apply Ha. rewrite Hneg. reflexivity.
Qed.

(** X18. In balanced mode, when no class can be given a size because
    [n_classes] is 0 or [1 + aug_factor] is 0, and the assertion of line 49
    passes, [__getitem__] raises [ZeroDivisionError] for every index. *)
Theorem balanced_zero_division self g (index : nat) :
  balance self = true ->
  (augment self = true -> (0 < aug_factor self)%Q) ->
  n_classes self = 0 \/ (aug_factor self == -1)%Q ->
  __getitem__ self g index = Raise ZeroDivisionError.
Proof.
  intros Hbal Hassert Hzero.
  unfold __getitem__, select_indices, balanced_indices.
  rewrite Hbal. cbn [negb]. by rewrite class_size_zero_division.
Qed.

(** The class size without an augmentation fraction: the integer ceiling of
    [batch_size / n_classes]. *)
Lemma class_size_plain self cls_sz :
  (aug_factor self == 0)%Q ->
  class_size self = Ok cls_sz ->
  0 < n_classes self /\
  (Z.of_nat (batch_size self) <= cls_sz * Z.of_nat (n_classes self))%Z /\
  forall m : Z,
    (Z.of_nat (batch_size self) <= m * Z.of_nat (n_classes self))%Z ->
    (cls_sz <= m)%Z.
Proof.
  intros Hzero Hsz.
  assert (Hassert : augment self = true -> (0 < aug_factor self)%Q).
  { intros Haug.
    destruct (Qlt_le_dec 0 (aug_factor self)) as [|Hle]; [done|].
    exfalso. unfold class_size in Hsz. rewrite Haug in Hsz.
    by rewrite (proj2 (Qlt_bool_false _ _) Hle) in Hsz. }
  assert (Hnc : 0 < n_classes self).
  { destruct (n_classes self) eqn:E; [|lia].
    rewrite class_size_zero_division in Hsz; [done|done|]. by left. }
  assert (Hone : (0 < 1 + aug_factor self)%Q) by (by rewrite Hzero).
  destruct (class_size_ceiling self Hnc Hone Hassert) as (c & Hc & Hup & Hleast).
  rewrite Hsz in Hc. injection Hc as <-.
  assert (Hconv : forall m : Z,
             (Q_of_nat (batch_size self)
                <= inject_Z m * ((1 + aug_factor self) * Q_of_nat (n_classes self)))%Q
             <-> (Z.of_nat (batch_size self) <= m * Z.of_nat (n_classes self))%Z).
  { intros m. rewrite Hzero. unfold Q_of_nat.
    rewrite Zle_Qle, inject_Z_mult.
    assert (He : (inject_Z m * ((1 + 0) * inject_Z (Z.of_nat (n_classes self)))
                  == inject_Z m * inject_Z (Z.of_nat (n_classes self)))%Q) by ring.
    by rewrite He. }
  split_and!; [done|by apply Hconv|]. intros m Hm. by apply Hleast, Hconv.
Qed.

(** X19. In balanced mode without augmentation a batch has
    [min(batch_size, cls_sz * len(classes))] samples, for the class size
    [cls_sz] of lines 50-53; with no augmentation fraction and as many
    classes as [n_classes] that is a full batch of [batch_size] samples. *)
Theorem balanced_batch_size self g (index : nat) X Y g' :
  balance self = true ->
  augment self = false ->
  __getitem__ self g index = Ok (X, Y, g') ->
  exists cls_sz,
    class_size self = Ok cls_sz /\
    length X
    = Nat.min (batch_size self) (Z.to_nat cls_sz * length (classes self)) /\
    ((aug_factor self == 0)%Q -> length (classes self) = n_classes self ->
     length X = batch_size self).
Proof.
  intros Hbal Haug H. unfold __getitem__, select_indices in H.
  rewrite Hbal in H. cbn [negb] in H.
  apply bind_Ok in H as ([ixs g1] & Hsel & H).
  apply balanced_indices_distinct in Hsel as (cls_sz & Hsz & _ & Hlen & _).
  apply data_generation_shape in H as (_ & _ & HX & _).
  specialize (HX Haug). exists cls_sz. split_and!; [done|lia|].
  intros Hzero Hk.
  destruct (class_size_plain self cls_sz Hzero Hsz) as (Hnc & Hup & _).
  rewrite HX, Hlen, Hk. nia.
Qed.

(** X20. In balanced mode without augmentation and without an augmentation
    fraction, when [n_classes] classes are configured and [n_classes]
    divides [batch_size], the label rows of every batch are, in some order,
    [batch_size / n_classes] one-hot rows of each class. *)
Theorem balanced_divisible_batch self g (index : nat) X Y g' :
  balance self = true ->
  augment self = false ->
  (aug_factor self == 0)%Q ->
  length (classes self) = n_classes self ->
  batch_size self mod n_classes self = 0 ->
  __getitem__ self g index = Ok (X, Y, g') ->
  Y ≡ₚ one_hot_row (n_classes self)
         <$> balanced_labels (batch_size self / n_classes self) (n_classes self).
Proof.
  intros Hbal Haug Hzero Hk Hdiv H. unfold __getitem__, select_indices in H.
  rewrite Hbal in H. cbn [negb] in H.
  apply bind_Ok in H as ([ixs g1] & Hsel & H).
  pose proof (balanced_indices_Ok _ _ _ _ Hsel) as (cls_sz & _ & _ & Hsz & _).
  destruct (class_size_plain self cls_sz Hzero Hsz) as (Hnc & Hup & Hleast).
  set (q := batch_size self / n_classes self).
  assert (Hq : batch_size self = n_classes self * q)
    by (by apply Nat.Div0.div_exact).
  assert (Hc : cls_sz = Z.of_nat q).
  { assert (cls_sz <= Z.of_nat q)%Z by (apply Hleast; lia). nia. }
  assert (Hto : Z.to_nat cls_sz = q) by lia.
  destruct (balanced_indices_labels self g ixs g1 cls_sz Hsel Hsz)
    as (Hlabels & Hvalid & _); [rewrite Hto, Hk; lia|].
  rewrite Hto, Hk in Hlabels.
  apply (data_generation_plain _ _ _ _ _ _ Haug) in H
    as (samples & lbls & _ & Hl & _ & _ & Hcat & _).
  rewrite labels_of_is_Ok in Hl.
  2:{ eapply Forall_impl; [exact Hvalid|]. by intros idx [_ ?]. }
  injection Hl as <-.
  rewrite to_categorical_valid in Hcat.
  - injection Hcat as <-. by rewrite Hlabels.
  - rewrite Hlabels. apply balanced_labels_range.
  - lia.
Qed.

End BalancedSelection.

(** ** Windows, augmentation and the balanced mode: calls that return *)

Section Returns.
Context {F : Type} {SF : Scalar F} {RS : RandomSource} {EF : Env F}.
Implicit Types (self : DataGenerator F) (g : rng).

(** X21. In the windowed mode without augmentation, on a well-formed
    dataset, batch [index] holds the samples and labels of the positions
    [index * batch_size .. min((index + 1) * batch_size, len(filenames)) - 1]
    of the epoch ordering, whatever permutation that ordering is, and the
    random source is left as it is. *)
Theorem windowed_batch self g (index : nat) :
  balance self = false ->
  augment self = false ->
  Forall (fun idx => idx < length (filenames self)) (indices self) ->
  dataset_ok self ->
  0 < n_classes self ->
  __getitem__ self g index
  = Ok (batch_of self
          (slice (indices self) (index * batch_size self)
                 (Nat.min ((index + 1) * batch_size self)
                          (length (filenames self)))), g).
Proof.
  intros Hbal Haug Hix Hok Hnc.
  rewrite <- window_indices_slice. apply getitem_windowed; try done. by right.
Qed.

(** An augmented call on a selection that fills the batch: nothing is drawn
    for the tail, and the batch is the selection. *)
Lemma data_generation_full self g ixs :
  augment self = true ->
  transforms_ok self ->
  dataset_ok self ->
  Forall (fun idx => idx < length (filenames self)) ixs ->
  length ixs = batch_size self ->
  0 < n_classes self ->
  exists g', __data_generation self g ixs = Ok (batch_of self ixs, g').
Proof.
  intros Haug [Hne Htr] (Hload & Hstats & Hlen & Hlabels) Hixs HN Hnc.
  destruct (np_random_choice_is_Ok g ixs
              (Z.of_nat (batch_size self) - Z.of_nat (length ixs)))
    as (aug_ixs & g1 & Hc); [lia|].
  pose proof (np_random_choice_Ok _ _ _ _ _ Hc) as (_ & Hla & _).
  assert (aug_ixs = []) as -> by (apply length_zero_iff_nil; lia).
  destruct (random_choice_is_Ok g1 (aug_func self) Hne) as (t1 & g2 & Ht1).
  destruct (random_choice_is_Ok g2 [0; 1]) as (toss & g3 & Htoss); [done|].
  assert (Hnil : forall t, t ∈ aug_func self -> t [] = []).
  { intros t Ht. destruct (Htr t [] Ht eq_refl) as [Hl _].
    by apply length_zero_iff_nil. }
  pose proof (Hnil t1 (random_choice_Ok _ _ _ _ Ht1)) as Ht1nil.
  assert (exists g4, second_transform self g3 toss (t1 []) = Ok ([], g4))
    as (g4 & Ht2).
  { unfold second_transform. rewrite Ht1nil. destruct (toss =? 1).
    - destruct (random_choice_is_Ok g3 (aug_func self) Hne) as (t2 & g4 & Ht2).
      exists g4. rewrite Ht2, bind_Ok_l.
      by rewrite (Hnil t2 (random_choice_Ok _ _ _ _ Ht2)).
    - by exists g3. }
  exists g4. apply (data_generation_augmented _ _ _ _ _ _ Haug).
  exists (sample_at self <$> ixs), (label_at self <$> ixs), [], g1, [], [],
    t1, g2, toss, g3, [].
  rewrite !app_nil_r. split_and!; try done.
  - by apply samples_of_valid.
  - apply labels_of_is_Ok. by rewrite Hlen.
  - cbn. lia.
  - by apply normalize_valid.
  - apply to_categorical_valid; [by apply labels_in_range|]. lia.
Qed.

(** X22. In the windowed mode with augmentation, a window that lies within
    the dataset is served as it is: the batch holds the [batch_size] samples
    of the window and nothing synthesised, so that only a last, shorter
    window is ever filled up. *)
Theorem full_window_not_augmented self g (index : nat) :
  balance self = false ->
  augment self = true ->
  transforms_ok self ->
  dataset_ok self ->
  Forall (fun idx => idx < length (filenames self)) (indices self) ->
  length (indices self) = length (filenames self) ->
  (index + 1) * batch_size self <= length (filenames self) ->
  0 < n_classes self ->
  length (window_indices self index) = batch_size self /\
  exists g',
    __getitem__ self g index
    = Ok (batch_of self (window_indices self index), g').
Proof.
  intros Hbal Haug Htr Hok Hix Hlix Hfull Hnc.
  assert (Hlen : length (window_indices self index) = batch_size self).
  { rewrite window_indices_slice. unfold slice.
    rewrite length_drop, length_take. lia. }
  split; [done|].
  unfold __getitem__, select_indices. rewrite Hbal. cbn [negb].
  rewrite bind_Ok_l. cbv beta iota.
  apply data_generation_full; try done. by apply window_indices_valid.
Qed.



End Returns.

(** ** The further properties at concrete datasets *)

(** The transforms of [table_env] keep the number and the shape of the
    samples. *)
Lemma table_transforms_ok (files : list (string * list (list Q)))
    (self : DataGenerator Q) :
  aug_func self
  = [jitter (Env := table_env files); time_warp (Env := table_env files);
     rotation (Env := table_env files); rand_sampling (Env := table_env files)] ->
  transforms_ok self.
Proof.
  intros Hf. split; [by rewrite Hf|]. intros t X Ht Hsh. rewrite Hf in Ht.
  assert (Hrev : length (reverse X) = length X /\
                 forallb (has_shape (seqlen self) (n_channels self)) (reverse X)
                 = true).
  { split; [apply length_reverse|]. apply forallb_forall. intros a Ha.
    rewrite forallb_forall in Hsh. apply Hsh.
    apply (proj1 (list_elem_of_In _ _)), elem_of_reverse.
    exact (proj2 (list_elem_of_In _ _) Ha). }
  repeat (apply elem_of_cons in Ht as [->|Ht]; [by cbn|]).
  by apply elem_of_nil in Ht.
Qed.

Lemma ten_dataset_ok (self : DataGenerator Q) :
  filenames self = ten_names -> labels self = ten_labels ->
  seqlen self = 5 -> n_channels self = 2 -> n_classes self = 2 ->
  mean self = None ->
  @dataset_ok Q (table_env ten_files) self.
Proof.
  intros Hf Hl Hr Hc Hn Hm. unfold dataset_ok, loader_ok, stats_ok.
  rewrite Hf, Hl, Hr, Hc, Hn, Hm.
  split_and!; [reflexivity|reflexivity|reflexivity|].
  repeat constructor; cbn; lia.
Qed.

(** Ten samples in batches of four: three batches. *)
Lemma len_integer_ceiling_witness :
  0 < batch_size normalized_generator /\
  (aug_factor normalized_generator == 0)%Q /\
  __len__ normalized_generator = Ok 3%Z.
Proof.
  assert (H1 : 0 < batch_size normalized_generator) by (cbn; lia).
  assert (H2 : (aug_factor normalized_generator == 0)%Q) by reflexivity.
  exact (conj H1 (conj H2 (len_integer_ceiling normalized_generator H1 H2))).
Defined.


(** Index 3 of the ten-sample dataset in windows of four. *)
Lemma window_past_the_end_witness :
  length (filenames normalized_generator)
  <= 3 * batch_size normalized_generator /\
  @__getitem__ Q Q_scalar rot_source (table_env ten_files)
    normalized_generator 0 3 = Ok ([], [], 0).
Proof.
  assert (H : length (filenames normalized_generator)
              <= 3 * batch_size normalized_generator) by (cbn; lia).
  split; [exact H|].
  apply (proj1 (window_past_the_end (SF := Q_scalar) (RS := rot_source)
                  (EF := table_env ten_files) normalized_generator 0 3
                  eq_refl eq_refl H eq_refl)).
  cbn. lia.
Defined.

(** The same index with augmentation. *)
Lemma augmented_window_past_the_end_witness :
  balance augmented_generator = false /\
  augment augmented_generator = true /\
  @__getitem__ Q Q_scalar rot_source (table_env ten_files)
    augmented_generator 0 3 = Raise ValueError.
Proof.
  assert (H3 : 0 < batch_size augmented_generator) by (cbn; lia).
  assert (H4 : length (filenames augmented_generator)
               <= 3 * batch_size augmented_generator) by (cbn; lia).
  split_and!; [reflexivity..|].
  exact (augmented_window_past_the_end (SF := Q_scalar) (RS := rot_source)
           (EF := table_env ten_files) augmented_generator 0 3
           eq_refl eq_refl H3 H4).
Defined.

(** One selected index for a batch of four. *)
Lemma augmented_needs_half_batch_witness :
  augment augmented_generator = true /\
  @__data_generation Q Q_scalar rot_source (table_env ten_files)
    augmented_generator 0 [0] = Raise ValueError.
Proof.
  split; [reflexivity|].
  apply (proj2 (augmented_needs_half_batch (SF := Q_scalar) (RS := rot_source)
                  (EF := table_env ten_files) augmented_generator 0 [0]
                  eq_refl)
           [const_sample 5 2 0%Q] [0%Z]).
  - vm_compute. reflexivity.
  - reflexivity.
  - cbn. lia.
Defined.

(** The last batch of the augmented ten-sample dataset. *)
Lemma batch_shape_witness :
  exists X Y g',
    @__getitem__ Q Q_scalar rot_source (table_env ten_files)
      augmented_generator 0 2 = Ok (X, Y, g') /\
    length Y = length X /\ length X = 4 /\
    Forall (fun a => has_shape 5 2 a = true) X.
Proof.
  assert (Hg : @__getitem__ Q Q_scalar rot_source (table_env ten_files)
                 augmented_generator 0 2
               = Ok ([const_sample 5 2 8; const_sample 5 2 9;
                      const_sample 5 2 9; const_sample 5 2 8]%Q,
                     [[0; 1]; [0; 1]; [0; 1]; [0; 1]]%Z, 3))
    by (vm_compute; reflexivity).
  destruct (batch_shape (SF := Q_scalar) (RS := rot_source)
              (EF := table_env ten_files) augmented_generator 0 2 _ _ _ Hg)
    as (H1 & _ & H3 & H4 & _).
  do 3 eexists. split; [exact Hg|]. split_and!; [exact H1|exact (H3 eq_refl)|exact H4].
Defined.

(** The same batch with zeroed and with stale buffers. *)
Lemma batch_independent_of_buffers_witness :
  uninit (Env := stale_env ten_files) 0 0 <> uninit (Env := table_env ten_files) 0 0 /\
  @__getitem__ Q Q_scalar rot_source (stale_env ten_files)
    augmented_generator 0 2
  = Ok ([const_sample 5 2 8; const_sample 5 2 9;
         const_sample 5 2 9; const_sample 5 2 8]%Q,
        [[0; 1]; [0; 1]; [0; 1]; [0; 1]]%Z, 3).
Proof.
  split; [discriminate|].
  apply (batch_independent_of_buffers (SF := Q_scalar) (RS := rot_source)
           (table_env ten_files) (stale_env ten_files)
           augmented_generator 0 2 _ (fun fname => eq_refl)).
  vm_compute. reflexivity.
Defined.

(** The first window of the mislabelled dataset. *)
Lemma label_outside_encoding_witness :
  labels mislabelled_generator = [0; 5; 1; 0]%Z /\
  n_classes mislabelled_generator = 2 /\
  @__data_generation Q Q_scalar rot_source (table_env four_files)
    mislabelled_generator 0 [0; 1] = Raise IndexError.
Proof.
  split_and!; [reflexivity..|].
  apply (label_outside_encoding (SF := Q_scalar) (RS := rot_source)
           (EF := table_env four_files) mislabelled_generator 0 [0; 1]
           [[[0%Q]]; [[1%Q]]] [0; 5]%Z eq_refl).
  - cbn. lia.
  - reflexivity.
  - cbn. lia.
  - vm_compute. reflexivity.
  - reflexivity.
  - apply Exists_cons_tl, Exists_cons_hd. cbn. lia.
Defined.

(** The window of the dataset whose third file is missing. *)
Lemma first_unusable_index_witness :
  filenames unreadable_generator !! 2 = Some "zz"%string /\
  np_load (Env := table_env four_files) "zz" = None /\
  @__data_generation Q Q_scalar rot_source (table_env four_files)
    unreadable_generator 0 [0; 1; 2; 3] = Raise IOError.
Proof.
  split_and!; [reflexivity..|].
  apply (proj1 (proj2
           (first_unusable_index (SF := Q_scalar) (RS := rot_source)
              (EF := table_env four_files) unreadable_generator 0
              [0; 1] 2 [3] [[[0%Q]]; [[1%Q]]] [0; 0]%Z
              ltac:(vm_compute; reflexivity) eq_refl ltac:(cbn; lia)))
          "zz"%string eq_refl eq_refl).
Defined.

(** [fit] on the four identical samples [[1, 2]] with stale buffers holding
    10, 11 and 20, 21: at position (0, 1) the mean is (11 + 8) / 4 and the
    std is (21 + 4 * (2 - 19)^2) / 4. *)
Lemma fit_entries_witness :
  sample_entries (EF := stale_env identical_files) identical_generator 0 1
  = [2; 2; 2; 2]%Q /\
  exists self' m s,
    @fit Q Q_scalar (stale_env identical_files) identical_generator
    = Ok (self', (m, s)) /\
    entry m 0 1 = Some (19 # 4)%Q /\
    entry s 0 1 = Some (1177 # 4)%Q.
Proof.
  split; [vm_compute; reflexivity|].
  assert (Hfit : @fit Q Q_scalar (stale_env identical_files) identical_generator
                 = Ok (set_mean_std identical_generator
                         (Some [[7 # 2; 19 # 4]]%Q) (Some [[174; 1177 # 4]]%Q),
                       ([[7 # 2; 19 # 4]]%Q, [[174; 1177 # 4]]%Q)))
    by (vm_compute; reflexivity).
  destruct (fit_entries (SF := Q_scalar)
              (EF := stale_env identical_files) identical_generator _ _ _ 0 1
              Hfit) as (_ & Hm & Hs); [cbn; lia..|].
  do 3 eexists. split; [exact Hfit|]. split; [exact Hm|exact Hs].
Defined.

(** [fit] on the four identical samples, then the first batch. *)
Lemma fit_then_getitem_witness :
  exists self' X Y,
    @fit Q Q_scalar (table_env identical_files) identical_generator
    = Ok (self', ([[1; 2]]%Q, [[9; 36]]%Q)) /\
    @raw_getitem Q Q_scalar rot_source (table_env identical_files)
      identical_generator 0 0 = Ok ([[[1; 2]]; [[1; 2]]]%Q, Y, 0) /\
    @__getitem__ Q Q_scalar rot_source (table_env identical_files)
      self' 0 0 = Ok (X, Y, 0) /\
    X = @normalized Q Q_scalar [[1; 2]]%Q [[9; 36]]%Q
          <$> [[[1; 2]]; [[1; 2]]]%Q.
Proof.
  assert (Hfit : @fit Q Q_scalar (table_env identical_files) identical_generator
                 = Ok (set_mean_std identical_generator
                         (Some [[1; 2]]%Q) (Some [[9; 36]]%Q),
                       ([[1; 2]]%Q, [[9; 36]]%Q)))
    by (vm_compute; reflexivity).
  assert (Hraw : @raw_getitem Q Q_scalar rot_source (table_env identical_files)
                   identical_generator 0 0
                 = Ok ([[[1; 2]]; [[1; 2]]]%Q, [[1; 0]; [1; 0]]%Z, 0))
    by (vm_compute; reflexivity).
  destruct (fit_then_getitem (SF := Q_scalar) (RS := rot_source)
              (EF := table_env identical_files) identical_generator _ _ _ Hfit)
    as (_ & _ & _ & Hbatch).
  do 3 eexists. split_and!; [exact Hfit|exact Hraw| |reflexivity].
  apply Hbatch. eexists. split; [exact Hraw|reflexivity].
Defined.

(** [fit] on the four identical samples returns; their files are read. *)
Lemma fit_returns_witness :
  partition identical_generator = Some "train"%string /\
  occurs_in "train" "train" /\
  loader_ok (EF := table_env identical_files) identical_generator = true /\
  exists self' m s,
    @fit Q Q_scalar (table_env identical_files) identical_generator
    = Ok (self', (m, s)).
Proof.
  assert (Hocc : occurs_in "train" "train") by (by exists 0).
  split_and!; [reflexivity|exact Hocc|reflexivity|].
  exact (proj1 (fit_returns (SF := Q_scalar)
                  (EF := table_env identical_files) identical_generator)
           "train"%string eq_refl Hocc eq_refl).
Defined.

(** The first balanced selection of the ten-sample scenario. *)
Lemma balanced_selection_distinct_witness :
  balance scenario_generator = true /\
  @select_indices Q rot_source scenario_generator 0 0
  = Ok ([6; 7; 0; 1], 3) /\
  NoDup [6; 7; 0; 1].
Proof.
  assert (Hsel : @select_indices Q rot_source scenario_generator 0 0
                 = Ok ([6; 7; 0; 1], 3)) by (vm_compute; reflexivity).
  split_and!; [reflexivity|exact Hsel|].
  exact (proj1 (balanced_selection_distinct (RS := rot_source)
                  scenario_generator 0 0 _ _ eq_refl Hsel)).
Defined.

(** The balanced mode with [n_classes = 0]. *)
Lemma balanced_zero_division_witness :
  balance no_class_generator = true /\
  n_classes no_class_generator = 0 /\
  @__getitem__ Q Q_scalar rot_source (table_env four_files)
    no_class_generator 0 0 = Raise ZeroDivisionError.
Proof.
  split_and!; [reflexivity..|].
  apply (balanced_zero_division (SF := Q_scalar) (RS := rot_source)
           (EF := table_env four_files) no_class_generator 0 0 eq_refl).
  - discriminate.
  - by left.
Defined.

(** The first batch of the ten-sample scenario: a full batch. *)
Lemma balanced_batch_size_witness :
  exists X Y g',
    @__getitem__ Q Q_scalar rot_source (table_env ten_files)
      scenario_generator 0 0 = Ok (X, Y, g') /\
    class_size scenario_generator = Ok 2%Z /\
    length X = batch_size scenario_generator.
Proof.
  assert (Hg : @__getitem__ Q Q_scalar rot_source (table_env ten_files)
                 scenario_generator 0 0
               = Ok ([const_sample 5 2 6; const_sample 5 2 7;
                      const_sample 5 2 0; const_sample 5 2 1]%Q,
                     [[0; 1]; [0; 1]; [1; 0]; [1; 0]]%Z, 3))
    by (vm_compute; reflexivity).
  destruct (balanced_batch_size (SF := Q_scalar) (RS := rot_source)
              (EF := table_env ten_files) scenario_generator 0 0 _ _ _
              eq_refl eq_refl Hg) as (c & Hc & _ & Hfull).
  do 3 eexists. split_and!; [exact Hg|vm_compute; reflexivity|].
  apply Hfull; reflexivity.
Defined.

(** The same batch: two rows of each class. *)
Lemma balanced_divisible_batch_witness :
  batch_size scenario_generator mod n_classes scenario_generator = 0 /\
  exists X Y g',
    @__getitem__ Q Q_scalar rot_source (table_env ten_files)
      scenario_generator 0 0 = Ok (X, Y, g') /\
    Y ≡ₚ [[1; 0]; [1; 0]; [0; 1]; [0; 1]]%Z.
Proof.
  split; [reflexivity|].
  assert (Hg : @__getitem__ Q Q_scalar rot_source (table_env ten_files)
                 scenario_generator 0 0
               = Ok ([const_sample 5 2 6; const_sample 5 2 7;
                      const_sample 5 2 0; const_sample 5 2 1]%Q,
                     [[0; 1]; [0; 1]; [1; 0]; [1; 0]]%Z, 3))
    by (vm_compute; reflexivity).
  do 3 eexists. split; [exact Hg|].
  exact (balanced_divisible_batch (SF := Q_scalar) (RS := rot_source)
           (EF := table_env ten_files) scenario_generator 0 0 _ _ _
           eq_refl eq_refl (Qeq_refl 0) eq_refl eq_refl Hg).
Defined.

(** The second batch of the shuffled ten-sample dataset: the positions 4 to
    7 of the ordering [3, 4, ..., 9, 0, 1, 2]. *)
Lemma windowed_batch_witness :
  indices shuffled_generator = [3; 4; 5; 6; 7; 8; 9; 0; 1; 2] /\
  @__getitem__ Q Q_scalar rot_source (table_env ten_files)
    shuffled_generator 5 1
  = Ok (@batch_of Q Q_scalar (table_env ten_files) shuffled_generator [7; 8; 9; 0], 5).
Proof.
  split; [reflexivity|].
  apply (windowed_batch (SF := Q_scalar) (RS := rot_source)
           (EF := table_env ten_files) shuffled_generator 5 1 eq_refl eq_refl).
  - repeat constructor; cbn; lia.
  - by apply ten_dataset_ok.
  - cbn. lia.
Defined.

(** The first window of the augmented ten-sample dataset. *)
Lemma full_window_not_augmented_witness :
  augment augmented_generator = true /\
  window_indices augmented_generator 0 = [0; 1; 2; 3] /\
  exists g',
    @__getitem__ Q Q_scalar rot_source (table_env ten_files)
      augmented_generator 5 0
    = Ok (@batch_of Q Q_scalar (table_env ten_files) augmented_generator [0; 1; 2; 3],
          g').
Proof.
  split_and!; [reflexivity..|].
  apply (full_window_not_augmented (SF := Q_scalar) (RS := rot_source)
           (EF := table_env ten_files) augmented_generator 5 0 eq_refl eq_refl).
  - by apply (table_transforms_ok ten_files).
  - by apply ten_dataset_ok.
  - repeat constructor; cbn; lia.
  - reflexivity.
  - cbn. lia.
  - cbn. lia.
Defined.



(** ** Epochs that cannot complete, and labels of another length *)

Section Incomplete.
Context {F : Type} {SF : Scalar F} {RS : RandomSource} {EF : Env F}.
Implicit Types (self : DataGenerator F) (g : rng).

(** In the windowed mode with augmentation, on a well-formed dataset, a call
    returns or raises [ValueError]. *)
Lemma augmented_window_outcome self g (index : nat) :
  balance self = false ->
  augment self = true ->
  transforms_ok self ->
  dataset_ok self ->
  Forall (fun idx => idx < length (filenames self)) (indices self) ->
  0 < n_classes self ->
  (exists r, __getitem__ self g index = Ok r) \/
  __getitem__ self g index = Raise ValueError.
Proof.
  intros Hbal Haug Htr Hok Hix Hnc.
  unfold __getitem__, select_indices. rewrite Hbal. cbn [negb].
  rewrite bind_Ok_l. cbv beta iota.
  pose proof (window_indices_valid self index Hix) as Hw.
  pose proof (length_window_indices self index) as Hlw.
  destruct (decide (batch_size self <= 2 * length (window_indices self index)))
    as [Hhalf|Hshort].
  - left.
    destruct (data_generation_augmented_returns self g
                (window_indices self index) Haug Htr Hok Hw)
      as (X & Y & g' & Hdg & _); [lia|done|]. by eexists.
  - right. pose proof Hok as (Hload & _ & Hlen & _).
    eapply data_generation_short; [done| | |lia].
    + by apply samples_of_valid.
    + apply labels_of_is_Ok. by rewrite Hlen.
Qed.

(** A sequence of calls of which one raises [ValueError] on every state and
    the others return or raise [ValueError]. *)
Lemma get_batches_ValueError self g (ixs : list nat) :
  Forall (fun i => forall g,
            (exists r, __getitem__ self g i = Ok r) \/
            __getitem__ self g i = Raise ValueError) ixs ->
  Exists (fun i => forall g, __getitem__ self g i = Raise ValueError) ixs ->
  get_batches self g ixs = Raise ValueError.
Proof.
  intros Hall Hex. revert g.
  induction ixs as [|i rest IH]; intros g; [by apply Exists_nil in Hex|].
  apply Forall_cons in Hall as [Hi Hrest]. cbn [get_batches].
  destruct (Hi g) as [[[[X Y] g1] Hr]|Hr]; rewrite Hr; [|done].
  rewrite bind_Ok_l. cbv beta iota.
  apply Exists_cons in Hex as [Hhead|Htail].
  - by rewrite Hhead in Hr.
  - by rewrite (IH Hrest Htail).
Qed.

(** X25. In the windowed mode with augmentation, on a well-formed dataset,
    an epoch for which [__len__] counts a batch that starts at or past the
    end of the dataset cannot complete: the consumer that asks for the
    batches [0 .. __len__() - 1] in turn gets a [ValueError]. *)
Theorem augmented_epoch_overrun self g (last : nat) :
  balance self = false ->
  augment self = true ->
  0 < batch_size self ->
  transforms_ok self ->
  dataset_ok self ->
  Forall (fun idx => idx < length (filenames self)) (indices self) ->
  0 < n_classes self ->
  __len__ self = Ok (Z.of_nat (S last)) ->
  length (filenames self) <= last * batch_size self ->
  epoch self g = Raise ValueError.
Proof.
  intros Hbal Haug Hbs Htr Hok Hix Hnc Hlen Hover.
  unfold epoch. rewrite Hlen, bind_Ok_l, Nat2Z.id.
  apply get_batches_ValueError.
  - apply Forall_forall. intros i _ g1. by apply augmented_window_outcome.
  - apply Exists_exists. exists last. split.
    + apply elem_of_seq. lia.
    + intros g1. unfold __getitem__, select_indices. rewrite Hbal. cbn [negb].
      rewrite bind_Ok_l. cbv beta iota.
      rewrite window_indices_past_end by done.
      by apply (data_generation_short self g1 [] [] []).
Qed.

(** X26. In balanced mode with at least one class, a label array that is
    not as long as the list of files makes [__getitem__] raise [IndexError]
    for every index, as soon as the class size can be computed: the mask of
    line 58 does not fit the index array. *)
Theorem balanced_label_length_mismatch self g (index : nat) cls_sz :
  balance self = true ->
  class_size self = Ok cls_sz ->
  classes self <> [] ->
  length (labels self) <> length (filenames self) ->
  __getitem__ self g index = Raise IndexError.
Proof.
  intros Hbal Hsz Hcls Hlen.
  unfold __getitem__, select_indices, balanced_indices.
  rewrite Hbal. cbn [negb]. rewrite Hsz, bind_Ok_l.
  destruct (classes self) as [|c cs]; [done|].
  cbn [length seq balanced_loop]. by rewrite class_pool_Raise.
Qed.

End Incomplete.

(** Ten samples, batches of four, an augmentation fraction of one half:
    [__len__] is 4 and batch 3 starts past the end. *)
Lemma augmented_epoch_overrun_witness :
  __len__ half_augmented_generator = Ok 4%Z /\
  length (filenames half_augmented_generator)
  <= 3 * batch_size half_augmented_generator /\
  @epoch Q Q_scalar rot_source (table_env ten_files)
    half_augmented_generator 0 = Raise ValueError.
Proof.
  assert (H1 : __len__ half_augmented_generator = Ok (Z.of_nat 4))
    by (vm_compute; reflexivity).
  assert (H2 : length (filenames half_augmented_generator)
               <= 3 * batch_size half_augmented_generator) by (cbn; lia).
  split_and!; [exact H1|exact H2|].
  apply (augmented_epoch_overrun (SF := Q_scalar) (RS := rot_source)
           (EF := table_env ten_files) half_augmented_generator 0 3
           eq_refl eq_refl).
  - cbn. lia.
  - by apply (table_transforms_ok ten_files).
  - by apply ten_dataset_ok.
  - repeat constructor; cbn; lia.
  - cbn. lia.
  - exact H1.
  - exact H2.
Defined.

(** Four files and three labels. *)
Lemma balanced_label_length_mismatch_witness :
  length (labels short_labels_generator) = 3 /\
  length (filenames short_labels_generator) = 4 /\
  @__getitem__ Q Q_scalar rot_source (table_env four_files)
    short_labels_generator 0 0 = Raise IndexError.
Proof.
  split_and!; [reflexivity..|].
  apply (balanced_label_length_mismatch (SF := Q_scalar) (RS := rot_source)
           (EF := table_env four_files) short_labels_generator 0 0 1).
  - reflexivity.
  - vm_compute. reflexivity.
  - discriminate.
  - cbn. lia.
Defined.

(** [fit] on the validation partition. *)
Lemma fit_partition_check_witness :
  partition validation_generator = Some "validation"%string /\
  @fit Q Q_scalar (table_env identical_files) validation_generator
  = Raise AssertionError /\
  exists p, partition validation_generator = Some p /\ ~ occurs_in "train" p.
Proof.
  assert (Hfit : @fit Q Q_scalar (table_env identical_files)
                   validation_generator = Raise AssertionError)
    by (vm_compute; reflexivity).
  split_and!; [reflexivity|exact Hfit|].
  exact (proj1 (proj2 (fit_partition_check (SF := Q_scalar)
                         (EF := table_env identical_files)
                         validation_generator)) Hfit).
Defined.
